(** * VPC tutorial script: provisioning and teardown of a virtual network

    A shallow embedding of [scripts/01_vpc_tutorial.py].  The script is a
    sequence of calls to the EC2 control plane (through boto3) interleaved
    with [print] statements and [try]/[except] blocks.  It is modelled in a
    small monad that threads the provider's state, records every provider
    call together with its outcome, collects the printed lines and
    propagates Python exceptions.

    The provider itself (boto3 and the EC2 service behind it) is not part
    of the repository: the script is written against an arbitrary provider
    (Section [Script]) and every general theorem holds for all of them.
    A small reference model of EC2 ([Module Mock]) supplies concrete runs. *)

From Stdlib Require Import String Ascii List Bool Arith Lia NArith.
From Stdlib Require Import DecimalString.
Import ListNotations.

Set Implicit Arguments.

Local Open Scope string_scope.
Local Open Scope list_scope.

(** ** Python values used by the script *)

(** [s1 + s2] on [str]; kept apart from list append. *)
Notation "a +++ b" := (String.append a b) (at level 60, right associativity).

(** The newline character of the ["\n..."] literals. *)
Definition nl : string := String "010"%char EmptyString.

(** ['=' * 60] and the like. *)
Fixpoint str_repeat (s : string) (n : nat) : string :=
  match n with
  | O => ""
  | S n' => s +++ str_repeat s n'
  end.

(** Truth value of a [str]: only the empty string is falsy. *)
Definition str_truthy (s : string) : bool :=
  match s with EmptyString => false | _ => true end.

(** [a or b] where [a] is a [str] or [None]. *)
Definition py_or (a : option string) (b : string) : string :=
  match a with
  | Some s => if str_truthy s then s else b
  | None => b
  end.

(** A Python [str] is a sequence of code points; it is modelled by its
    UTF-8 encoding, so that a character outside ASCII takes two to four
    bytes of the Rocq [string]. *)
Definition utf8 (bytes : list nat) : string :=
  string_of_list_ascii (map ascii_of_nat bytes).

(** [str.lower()].  The letters A to Z are lowered.  Python also lowers
    the letters outside ASCII; their bytes are left as they are here, which
    does not change whether the result equals an ASCII word made of
    [y], [e] and [s]: no character outside ASCII has one of these letters
    as its lowercase. *)
Definition lower_ascii (c : ascii) : ascii :=
  let n := nat_of_ascii c in
  if ((65 <=? n) && (n <=? 90))%nat then ascii_of_nat (n + 32) else c.

Fixpoint py_lower (s : string) : string :=
  match s with
  | EmptyString => EmptyString
  | String c s' => String (lower_ascii c) (py_lower s')
  end.

(** The characters that [str.strip()] removes, those for which
    [str.isspace()] holds: U+0009 to U+000D, U+001C to U+0020, U+0085,
    U+00A0, U+1680, U+2000 to U+200A, U+2028, U+2029, U+202F, U+205F and
    U+3000, each in UTF-8. *)
Definition whitespace : list string :=
  map (fun n => utf8 [n]) [9; 10; 11; 12; 13; 28; 29; 30; 31; 32]
    ++ [utf8 [194; 133]; utf8 [194; 160]; utf8 [225; 154; 128]]
    ++ map (fun n => utf8 [226; 128; n])
           [128; 129; 130; 131; 132; 133; 134; 135; 136; 137; 138]
    ++ [utf8 [226; 128; 168]; utf8 [226; 128; 169]; utf8 [226; 128; 175];
        utf8 [226; 129; 159]; utf8 [227; 128; 128]].

(** [s] without its prefix [p], when it starts with [p]. *)
Fixpoint drop_prefix (p s : string) : option string :=
  match p, s with
  | EmptyString, _ => Some s
  | String a p', String b s' =>
      if Ascii.eqb a b then drop_prefix p' s' else None
  | String _ _, EmptyString => None
  end.

(** [s] without its first character, when that is one of [spaces]. *)
Fixpoint drop_space (spaces : list string) (s : string) : option string :=
  match spaces with
  | [] => None
  | p :: spaces' =>
      match drop_prefix p s with
      | Some s' => Some s'
      | None => drop_space spaces' s
      end
  end.

(** Every step removes at least one byte, so [String.length s] steps are
    enough (see [lstrip_is_done]). *)
Fixpoint strip_front (spaces : list string) (fuel : nat) (s : string) : string :=
  match fuel with
  | O => s
  | S fuel' =>
      match drop_space spaces s with
      | Some s' => strip_front spaces fuel' s'
      | None => s
      end
  end.

Fixpoint string_rev (s : string) : string :=
  match s with
  | EmptyString => EmptyString
  | String c s' => string_rev s' +++ String c EmptyString
  end.

Definition lstrip (s : string) : string :=
  strip_front whitespace (String.length s) s.

(** From the end, the bytes of a character are met in reverse.  UTF-8 is
    self-synchronising: the encoding of one character never ends the
    encoding of another, so a match at the end is a whitespace character. *)
Definition rstrip (s : string) : string :=
  string_rev (strip_front (map string_rev whitespace) (String.length s)
                          (string_rev s)).

Definition py_strip (s : string) : string := rstrip (lstrip s).

(** ** Exceptions *)

(** [botocore.exceptions.ClientError]: the service answered with an error.
    [str(e)] is botocore's message format. *)
Record client_error := {
  error_code : string;
  error_message : string;
  operation_name : string
}.

(** What a statement of the script can raise: a [ClientError], or any other
    exception (a [WaiterError], a connection error of botocore, a
    [TypeError] of the interpreter).  The distinction matters because the
    functions of the script catch [ClientError] only, while [main] catches
    [Exception]. *)
Inductive exn :=
| ClientError (e : client_error)
| OtherException (cls msg : string).

Definition str_of_client_error (e : client_error) : string :=
  "An error occurred (" +++ error_code e +++ ") when calling the "
    +++ operation_name e +++ " operation: " +++ error_message e.

Definition str_of_exn (x : exn) : string :=
  match x with
  | ClientError e => str_of_client_error e
  | OtherException _ msg => msg
  end.

Inductive result (A : Type) :=
| Ok (a : A)
| Raise (x : exn).
Arguments Ok {A} a.
Arguments Raise {A} x.

(** ** The EC2 surface the script touches *)

(** [{"Key": ..., "Value": ...}] *)
Record tag := { Key : string; Value : string }.

(** An entry of [rt.associations_attribute]; [a.get('Main')] is [None] when
    the key is absent. *)
Record association := {
  Main : option bool;
  RouteTableAssociationId : string;
  SubnetId : option string;
  GatewayId : option string
}.

Record route := {
  destination_cidr_block : option string;
  gateway_id : option string;
  nat_gateway_id : option string
}.

(** What the script reads of a [Vpc], [Subnet], [RouteTable] and
    [InternetGateway] resource.  [tags] is [None] when the service returned
    no tag set. *)
Record vpc_data := { vpc_cidr_block : string; vpc_state : string }.

Record subnet_data := {
  subnet_id : string;
  subnet_tags : option (list tag);
  subnet_cidr_block : string;
  subnet_availability_zone : string
}.

Record route_table_data := {
  route_table_id : string;
  route_table_tags : option (list tag);
  routes : list route;
  associations_attribute : option (list association)
}.

Record internet_gateway_data := {
  internet_gateway_id : string;
  internet_gateway_tags : option (list tag)
}.

(** The provider operations.  All of them are issued by the script except
    [DisassociateRouteTable], which belongs to the same surface and is
    listed so that its absence from a run can be stated. *)
Inductive op :=
| CreateVpc (CidrBlock : string)
| CreateTags (resource : string) (Tags : list tag)
| WaitUntilVpcAvailable (VpcId : string)
| ModifyVpcAttribute (VpcId : string) (EnableDnsHostnames : bool)
| CreateInternetGateway
| AttachInternetGateway (VpcId InternetGatewayId : string)
| CreateSubnet (VpcId CidrBlock AvailabilityZone : string)
| ModifySubnetAttribute (Subnet : string) (MapPublicIpOnLaunch : bool)
| CreateRouteTable (VpcId : string)
| CreateRoute (RouteTableId DestinationCidrBlock Gateway : string)
| AssociateRouteTable (RouteTableId Subnet : string)
| DisassociateRouteTable (AssociationId : string)
| DescribeVpc (VpcId : string)
| DescribeSubnets (VpcId : string)
| DescribeInternetGateways (VpcId : string)
| DescribeRouteTables (VpcId : string)
| DeleteSubnet (Subnet : string)
| DetachInternetGateway (VpcId InternetGatewayId : string)
| DeleteInternetGateway (InternetGatewayId : string)
| DeleteRouteTable (RouteTableId : string)
| DeleteVpc (VpcId : string).

(** The type of the value an operation returns.  A create call returns the
    new resource, of which the script only uses the [id]. *)
Definition response (o : op) : Type :=
  match o with
  | CreateVpc _ | CreateInternetGateway | CreateSubnet _ _ _
  | CreateRouteTable _ | AssociateRouteTable _ _ => string
  | DescribeVpc _ => vpc_data
  | DescribeSubnets _ => list subnet_data
  | DescribeInternetGateways _ => list internet_gateway_data
  | DescribeRouteTables _ => list route_table_data
  | _ => unit
  end.

(** One provider call as it happened: the operation and its outcome. *)
Inductive event :=
| Ev (o : op) (r : result (response o)).

Definition op_of (e : event) : op :=
  match e with Ev o _ => o end.

Definition ev_ok (e : event) : bool :=
  match e with Ev _ (Ok _) => true | Ev _ (Raise _) => false end.

Definition ev_raised (e : event) : option exn :=
  match e with Ev _ (Ok _) => None | Ev _ (Raise x) => Some x end.

(** ** The script, against an arbitrary provider *)

Section Script.

(** The provider: a state (everything that exists on the service side) and
    the effect of each operation on it. *)
Variable world : Type.
Variable perform : forall o : op, world -> result (response o) * world.

(** A run: the result, the provider's final state, the provider calls in
    the order they were issued, and the printed lines. *)
Record run (A : Type) := Run {
  result_of : result A;
  world_of : world;
  calls_of : list event;
  output_of : list string
}.

Definition M (A : Type) : Type := world -> run A.

Definition ret {A} (a : A) : M A :=
  fun w => Run (Ok a) w [] [].

Definition raise {A} (x : exn) : M A :=
  fun w => Run (Raise x) w [] [].

Definition bind {A B} (m : M A) (f : A -> M B) : M B :=
  fun w =>
    let r1 := m w in
    match result_of r1 with
    | Ok a =>
        let r2 := f a (world_of r1) in
        Run (result_of r2) (world_of r2)
            (calls_of r1 ++ calls_of r2) (output_of r1 ++ output_of r2)
    | Raise x => Run (Raise x) (world_of r1) (calls_of r1) (output_of r1)
    end.

Notation "x <- m ;; k" := (bind m (fun x => k))
  (at level 100, m at next level, right associativity).
Notation "m ;; k" := (bind m (fun _ => k))
  (at level 100, right associativity).

(** A provider call: performed in the current state and recorded, whether
    it succeeds or raises. *)
Definition call (o : op) : M (response o) :=
  fun w =>
    let (r, w') := perform o w in
    Run r w' [Ev o r] [].

Definition print (line : string) : M unit :=
  fun w => Run (Ok tt) w [] [line].

(** [try: body  except ClientError as e: handler e] *)
Definition try_except_ClientError {A} (body : M A)
    (handler : client_error -> M A) : M A :=
  fun w =>
    let r1 := body w in
    match result_of r1 with
    | Raise (ClientError e) =>
        let r2 := handler e (world_of r1) in
        Run (result_of r2) (world_of r2)
            (calls_of r1 ++ calls_of r2) (output_of r1 ++ output_of r2)
    | _ => r1
    end.

(** [try: body  except Exception as e: handler e] *)
Definition try_except_Exception {A} (body : M A) (handler : exn -> M A) : M A :=
  fun w =>
    let r1 := body w in
    match result_of r1 with
    | Raise x =>
        let r2 := handler x (world_of r1) in
        Run (result_of r2) (world_of r2)
            (calls_of r1 ++ calls_of r2) (output_of r1 ++ output_of r2)
    | Ok _ => r1
    end.

(** [for x in xs: body x] *)
Fixpoint for_each {X} (xs : list X) (body : X -> M unit) : M unit :=
  match xs with
  | [] => ret tt
  | x :: xs' => body x ;; for_each xs' body
  end.

Definition when (b : bool) (m : M unit) : M unit :=
  if b then m else ret tt.

(** [{"Key": "Name", "Value": name}] *)
Definition name_tag (name : string) : tag := {| Key := "Name"; Value := name |}.

(** *** [create_vpc] *)
Definition create_vpc : M string :=
  print "Creating VPC..." ;;
  try_except_ClientError
    (vpc <- call (CreateVpc "10.0.0.0/16") ;;
     call (CreateTags vpc [name_tag "tutorial-vpc"]) ;;
     call (WaitUntilVpcAvailable vpc) ;;
     call (ModifyVpcAttribute vpc true) ;;
     print ("✓ VPC created: " +++ vpc) ;;
     ret vpc)
    (fun e =>
       print ("Error creating VPC: " +++ str_of_client_error e) ;;
       raise (ClientError e)).

(** *** [create_internet_gateway] *)
Definition create_internet_gateway (vpc : string) : M string :=
  print (nl +++ "Creating Internet Gateway...") ;;
  try_except_ClientError
    (igw <- call CreateInternetGateway ;;
     call (CreateTags igw [name_tag "tutorial-igw"]) ;;
     call (AttachInternetGateway vpc igw) ;;
     print ("✓ Internet Gateway created and attached: " +++ igw) ;;
     ret igw)
    (fun e =>
       print ("Error creating Internet Gateway: " +++ str_of_client_error e) ;;
       raise (ClientError e)).

(** *** [create_subnet] *)
Definition create_subnet (vpc cidr availability_zone name : string)
    (is_public : bool) : M string :=
  print (nl +++ "Creating " +++ (if is_public then "public" else "private")
            +++ " subnet: " +++ name +++ "...") ;;
  try_except_ClientError
    (subnet <- call (CreateSubnet vpc cidr availability_zone) ;;
     call (CreateTags subnet [name_tag name]) ;;
     when is_public (call (ModifySubnetAttribute subnet true)) ;;
     print ("✓ Subnet created: " +++ subnet +++ " (" +++ cidr +++ ")") ;;
     ret subnet)
    (fun e =>
       print ("Error creating subnet: " +++ str_of_client_error e) ;;
       raise (ClientError e)).

(** *** [create_route_table]

    [igw] and [subnet] default to [None]; a resource object is truthy, so
    [if igw:] tests that the argument was supplied. *)
Definition create_route_table (vpc name : string)
    (igw subnet : option string) : M string :=
  print (nl +++ "Creating route table: " +++ name +++ "...") ;;
  try_except_ClientError
    (route_table <- call (CreateRouteTable vpc) ;;
     call (CreateTags route_table [name_tag name]) ;;
     match igw with
     | Some g =>
         call (CreateRoute route_table "0.0.0.0/0" g) ;;
         print "  ✓ Added route to Internet Gateway"
     | None => ret tt
     end ;;
     match subnet with
     | Some s =>
         call (AssociateRouteTable route_table s) ;;
         print ("  ✓ Associated with subnet " +++ s)
     | None => ret tt
     end ;;
     print ("✓ Route table created: " +++ route_table) ;;
     ret route_table)
    (fun e =>
       print ("Error creating route table: " +++ str_of_client_error e) ;;
       raise (ClientError e)).

(** *** [list_vpc_resources] *)

(** [next((tag['Value'] for tag in tags if tag['Key'] == 'Name'), default)];
    iterating [None] is a [TypeError]. *)
Fixpoint first_name (tags : list tag) (default : string) : string :=
  match tags with
  | [] => default
  | t :: tags' => if String.eqb (Key t) "Name" then Value t
                  else first_name tags' default
  end.

Definition name_of (tags : option (list tag)) (default : string) : M string :=
  match tags with
  | Some ts => ret (first_name ts default)
  | None => raise (OtherException "TypeError" "'NoneType' object is not iterable")
  end.

Definition str_of_option (o : option string) : string :=
  match o with Some s => s | None => "None" end.

Definition option_str_eqb (a : option string) (b : string) : bool :=
  match a with Some s => String.eqb s b | None => false end.

Definition list_vpc_resources (vpc_id : string) : M unit :=
  print (nl +++ str_repeat "=" 60) ;;
  print "VPC Resources Summary" ;;
  print (str_repeat "=" 60) ;;
  print (nl +++ "VPC: " +++ vpc_id) ;;
  vpc <- call (DescribeVpc vpc_id) ;;
  print ("  CIDR Block: " +++ vpc_cidr_block vpc) ;;
  print ("  State: " +++ vpc_state vpc) ;;
  print (nl +++ "Subnets:") ;;
  subnets <- call (DescribeSubnets vpc_id) ;;
  for_each subnets (fun subnet =>
    name <- name_of (subnet_tags subnet) "N/A" ;;
    print ("  - " +++ subnet_id subnet +++ ": " +++ name +++ " ("
             +++ subnet_cidr_block subnet +++ ") in "
             +++ subnet_availability_zone subnet)) ;;
  print (nl +++ "Route Tables:") ;;
  route_tables <- call (DescribeRouteTables vpc_id) ;;
  for_each route_tables (fun rt =>
    name <- name_of (route_table_tags rt) "Main" ;;
    print ("  - " +++ route_table_id rt +++ ": " +++ name) ;;
    for_each (routes rt) (fun route =>
      when (negb (option_str_eqb (destination_cidr_block route)
                                 (vpc_cidr_block vpc)))
        (let dest := py_or (gateway_id route)
                           (py_or (nat_gateway_id route) "local") in
         print ("    → " +++ str_of_option (destination_cidr_block route)
                  +++ " -> " +++ dest)))) ;;
  print (nl +++ "Internet Gateways:") ;;
  igws <- call (DescribeInternetGateways vpc_id) ;;
  for_each igws (fun igw =>
    name <- name_of (internet_gateway_tags igw) "N/A" ;;
    print ("  - " +++ internet_gateway_id igw +++ ": " +++ name)).

(** *** [cleanup_vpc] *)

(** [any(a.get('Main') for a in associations)] *)
Definition any_main (associations : list association) : bool :=
  existsb (fun a => match Main a with Some true => true | _ => false end)
          associations.

(** [not rt.associations_attribute or
     not any(a.get('Main') for a in rt.associations_attribute)] *)
Definition not_main (rt : route_table_data) : bool :=
  match associations_attribute rt with
  | None => true
  | Some [] => true
  | Some associations => negb (any_main associations)
  end.

Definition cleanup_vpc (vpc_id : string) : M unit :=
  print (nl +++ str_repeat "=" 60) ;;
  print "CLEANUP - Deleting VPC and associated resources" ;;
  print (str_repeat "=" 60) ;;
  try_except_ClientError
    (print (nl +++ "Deleting subnets...") ;;
     subnets <- call (DescribeSubnets vpc_id) ;;
     for_each subnets (fun subnet =>
       call (DeleteSubnet (subnet_id subnet)) ;;
       print ("  ✓ Deleted subnet: " +++ subnet_id subnet)) ;;
     print (nl +++ "Deleting Internet Gateways...") ;;
     igws <- call (DescribeInternetGateways vpc_id) ;;
     for_each igws (fun igw =>
       call (DetachInternetGateway vpc_id (internet_gateway_id igw)) ;;
       call (DeleteInternetGateway (internet_gateway_id igw)) ;;
       print ("  ✓ Deleted Internet Gateway: " +++ internet_gateway_id igw)) ;;
     print (nl +++ "Deleting route tables...") ;;
     route_tables <- call (DescribeRouteTables vpc_id) ;;
     for_each route_tables (fun rt =>
       when (not_main rt)
         (call (DeleteRouteTable (route_table_id rt)) ;;
          print ("  ✓ Deleted route table: " +++ route_table_id rt))) ;;
     print (nl +++ "Deleting VPC...") ;;
     call (DeleteVpc vpc_id) ;;
     print ("✓ Deleted VPC: " +++ vpc_id) ;;
     print (nl +++ "✓ Cleanup complete!"))
    (fun e =>
       print ("Error during cleanup: " +++ str_of_client_error e) ;;
       raise (ClientError e)).

(** *** [main]

    [response] is what [input] returns at the prompt (the prompt itself is
    written to the output like a printed line).  The [try] block
    is split after its first statement because the handler reads [vpc_id],
    which is [None] until [create_vpc] has returned; the handler re-raises,
    so the two blocks in sequence behave as the one of the source. *)
Definition main_handler {A} (vpc_id : option string) (x : exn) : M A :=
  print (nl +++ "Error: " +++ str_of_exn x) ;;
  when (match vpc_id with Some v => str_truthy v | None => false end)
    (print (nl +++ "To clean up, you can run: cleanup_vpc('"
              +++ str_of_option vpc_id +++ "')")) ;;
  raise x.

Definition main (response : string) : M unit :=
  print (str_repeat "=" 60) ;;
  print "AWS VPC Tutorial" ;;
  print (str_repeat "=" 60) ;;
  vpc <- try_except_Exception create_vpc (main_handler None) ;;
  let vpc_id := vpc in
  try_except_Exception
    (igw <- create_internet_gateway vpc ;;
     public_subnet_1 <- create_subnet vpc "10.0.1.0/24" "us-east-2a"
                          "tutorial-public-subnet-1" true ;;
     public_subnet_2 <- create_subnet vpc "10.0.2.0/24" "us-east-2b"
                          "tutorial-public-subnet-2" true ;;
     private_subnet_1 <- create_subnet vpc "10.0.10.0/24" "us-east-2a"
                          "tutorial-private-subnet-1" false ;;
     public_rt <- create_route_table vpc "tutorial-public-rt"
                    (Some igw) (Some public_subnet_1) ;;
     call (AssociateRouteTable public_rt public_subnet_2) ;;
     print ("  ✓ Associated public route table with " +++ public_subnet_2) ;;
     private_rt <- create_route_table vpc "tutorial-private-rt"
                     None (Some private_subnet_1) ;;
     list_vpc_resources vpc_id ;;
     print (nl +++ str_repeat "=" 60) ;;
     print (nl +++ "Do you want to clean up these resources? (yes/no): ") ;;
     if String.eqb (py_lower (py_strip response)) "yes"
     then cleanup_vpc vpc_id
     else
       print (nl +++ "Resources left running. VPC ID: " +++ vpc_id) ;;
       print "To clean up later, run: cleanup_vpc('{vpc_id}')")
    (main_handler (Some vpc_id)).

End Script.

Arguments ret {world A} a _.
Arguments raise {world A} x _.

(** ** A reference model of the provider

    A small EC2: it allocates identifiers, keeps the resources and their
    relations, and rejects the calls the real service rejects (unknown
    identifiers, CIDR conflicts, deletions that leave dependants behind).
    It is used for the concrete runs; the general theorems do not depend
    on it. *)
Module Mock.

(** *** CIDR blocks *)

Definition digit_of (c : ascii) : option N :=
  let n := N_of_ascii c in
  if ((48 <=? n) && (n <=? 57))%N then Some (n - 48)%N else None.

Fixpoint parse_digits (s : string) (acc : N) : option N :=
  match s with
  | EmptyString => Some acc
  | String c s' =>
      match digit_of c with
      | Some d => parse_digits s' (acc * 10 + d)%N
      | None => None
      end
  end.

Definition parse_number (s : string) : option N :=
  match s with
  | EmptyString => None
  | _ => parse_digits s 0%N
  end.

(** The pieces of [s] between occurrences of [sep]. *)
Fixpoint split_on (sep : ascii) (s : string) : list string :=
  match s with
  | EmptyString => [EmptyString]
  | String c s' =>
      if Ascii.eqb c sep then EmptyString :: split_on sep s'
      else match split_on sep s' with
           | [] => [String c EmptyString]
           | p :: ps => String c p :: ps
           end
  end.

Definition octet (s : string) : option N :=
  match parse_number s with
  | Some n => if (n <=? 255)%N then Some n else None
  | None => None
  end.

(** ["a.b.c.d/len"] as the address and the prefix length. *)
Definition parse_cidr (s : string) : option (N * N) :=
  match split_on "/"%char s with
  | [addr; len] =>
      match split_on "."%char addr, parse_number len with
      | [a; b; c; d], Some l =>
          match octet a, octet b, octet c, octet d with
          | Some a, Some b, Some c, Some d =>
              if (l <=? 32)%N
              then Some (((a * 256 + b) * 256 + c) * 256 + d, l)%N
              else None
          | _, _, _, _ => None
          end
      | _, _ => None
      end
  | _ => None
  end.

(** First and last address of a block. *)
Definition cidr_range (c : N * N) : N * N :=
  let size := (2 ^ (32 - snd c))%N in
  let first := (fst c / size * size)%N in
  (first, first + size - 1)%N.

Definition cidr_overlap (a b : N * N) : bool :=
  let (a1, a2) := cidr_range a in
  let (b1, b2) := cidr_range b in
  ((a1 <=? b2) && (b1 <=? a2))%N.

Definition cidr_within (a b : N * N) : bool :=
  let (a1, a2) := cidr_range a in
  let (b1, b2) := cidr_range b in
  ((b1 <=? a1) && (a2 <=? b2))%N.

(** *** Resources *)

Record vpc_rec := {
  v_id : string; v_cidr : string; v_tags : list tag; v_dns_hostnames : bool
}.

Record subnet_rec := {
  s_id : string; s_vpc : string; s_cidr : string; s_az : string;
  s_tags : list tag; s_map_public_ip : bool;
  s_interfaces : nat  (* network interfaces living in the subnet *)
}.

Record igw_rec := {
  g_id : string; g_tags : list tag; g_attached : option string
}.

Record rtb_rec := {
  r_id : string; r_vpc : string; r_tags : list tag;
  r_routes : list route; r_associations : list association
}.

Record ec2 := {
  next_id : nat;
  vpcs : list vpc_rec;
  subnets : list subnet_rec;
  igws : list igw_rec;
  rtbs : list rtb_rec
}.

Definition empty : ec2 :=
  {| next_id := 1; vpcs := []; subnets := []; igws := []; rtbs := [] |}.

Definition fresh (prefix : string) (n : nat) : string :=
  prefix +++ "-" +++ NilZero.string_of_uint (Nat.to_uint n).

Definition op_name (o : op) : string :=
  match o with
  | CreateVpc _ => "CreateVpc"
  | CreateTags _ _ => "CreateTags"
  | WaitUntilVpcAvailable _ => "DescribeVpcs"
  | ModifyVpcAttribute _ _ => "ModifyVpcAttribute"
  | CreateInternetGateway => "CreateInternetGateway"
  | AttachInternetGateway _ _ => "AttachInternetGateway"
  | CreateSubnet _ _ _ => "CreateSubnet"
  | ModifySubnetAttribute _ _ => "ModifySubnetAttribute"
  | CreateRouteTable _ => "CreateRouteTable"
  | CreateRoute _ _ _ => "CreateRoute"
  | AssociateRouteTable _ _ => "AssociateRouteTable"
  | DisassociateRouteTable _ => "DisassociateRouteTable"
  | DescribeVpc _ => "DescribeVpcs"
  | DescribeSubnets _ => "DescribeSubnets"
  | DescribeInternetGateways _ => "DescribeInternetGateways"
  | DescribeRouteTables _ => "DescribeRouteTables"
  | DeleteSubnet _ => "DeleteSubnet"
  | DetachInternetGateway _ _ => "DetachInternetGateway"
  | DeleteInternetGateway _ => "DeleteInternetGateway"
  | DeleteRouteTable _ => "DeleteRouteTable"
  | DeleteVpc _ => "DeleteVpc"
  end.

Definition failure {A} (o : op) (code msg : string) : result A :=
  Raise (ClientError {| error_code := code; error_message := msg;
                        operation_name := op_name o |}).

Definition find_vpc (w : ec2) (id : string) : option vpc_rec :=
  find (fun v => String.eqb (v_id v) id) (vpcs w).
Definition find_subnet (w : ec2) (id : string) : option subnet_rec :=
  find (fun s => String.eqb (s_id s) id) (subnets w).
Definition find_igw (w : ec2) (id : string) : option igw_rec :=
  find (fun g => String.eqb (g_id g) id) (igws w).
Definition find_rtb (w : ec2) (id : string) : option rtb_rec :=
  find (fun r => String.eqb (r_id r) id) (rtbs w).

Definition subnets_of (w : ec2) (vpc : string) : list subnet_rec :=
  filter (fun s => String.eqb (s_vpc s) vpc) (subnets w).
Definition igws_of (w : ec2) (vpc : string) : list igw_rec :=
  filter (fun g => match g_attached g with
                   | Some v => String.eqb v vpc
                   | None => false
                   end) (igws w).
Definition rtbs_of (w : ec2) (vpc : string) : list rtb_rec :=
  filter (fun r => String.eqb (r_vpc r) vpc) (rtbs w).

Definition is_main (r : rtb_rec) : bool := any_main (r_associations r).

(** Tags are merged by key. *)
Definition merge_tags (old new : list tag) : list tag :=
  filter (fun t => negb (existsb (fun n => String.eqb (Key n) (Key t)) new)) old
    ++ new.

Definition with_vpcs (w : ec2) (l : list vpc_rec) : ec2 :=
  {| next_id := next_id w; vpcs := l; subnets := subnets w;
     igws := igws w; rtbs := rtbs w |}.
Definition with_subnets (w : ec2) (l : list subnet_rec) : ec2 :=
  {| next_id := next_id w; vpcs := vpcs w; subnets := l;
     igws := igws w; rtbs := rtbs w |}.
Definition with_igws (w : ec2) (l : list igw_rec) : ec2 :=
  {| next_id := next_id w; vpcs := vpcs w; subnets := subnets w;
     igws := l; rtbs := rtbs w |}.
Definition with_rtbs (w : ec2) (l : list rtb_rec) : ec2 :=
  {| next_id := next_id w; vpcs := vpcs w; subnets := subnets w;
     igws := igws w; rtbs := l |}.
Definition bump (w : ec2) (k : nat) : ec2 :=
  {| next_id := next_id w + k; vpcs := vpcs w; subnets := subnets w;
     igws := igws w; rtbs := rtbs w |}.

Definition set_tags (w : ec2) (id : string) (ts : list tag) : option ec2 :=
  if existsb (fun v => String.eqb (v_id v) id) (vpcs w) then
    Some (with_vpcs w (map (fun v =>
      if String.eqb (v_id v) id
      then {| v_id := v_id v; v_cidr := v_cidr v;
              v_tags := merge_tags (v_tags v) ts;
              v_dns_hostnames := v_dns_hostnames v |}
      else v) (vpcs w)))
  else if existsb (fun s => String.eqb (s_id s) id) (subnets w) then
    Some (with_subnets w (map (fun s =>
      if String.eqb (s_id s) id
      then {| s_id := s_id s; s_vpc := s_vpc s; s_cidr := s_cidr s;
              s_az := s_az s; s_tags := merge_tags (s_tags s) ts;
              s_map_public_ip := s_map_public_ip s;
              s_interfaces := s_interfaces s |}
      else s) (subnets w)))
  else if existsb (fun g => String.eqb (g_id g) id) (igws w) then
    Some (with_igws w (map (fun g =>
      if String.eqb (g_id g) id
      then {| g_id := g_id g; g_tags := merge_tags (g_tags g) ts;
              g_attached := g_attached g |}
      else g) (igws w)))
  else if existsb (fun r => String.eqb (r_id r) id) (rtbs w) then
    Some (with_rtbs w (map (fun r =>
      if String.eqb (r_id r) id
      then {| r_id := r_id r; r_vpc := r_vpc r;
              r_tags := merge_tags (r_tags r) ts;
              r_routes := r_routes r; r_associations := r_associations r |}
      else r) (rtbs w)))
  else None.

Definition availability_zones : list string :=
  ["us-east-2a"; "us-east-2b"; "us-east-2c"].

Definition local_route (cidr : string) : route :=
  {| destination_cidr_block := Some cidr; gateway_id := Some "local";
     nat_gateway_id := None |}.

Definition describe_subnet (s : subnet_rec) : subnet_data :=
  {| subnet_id := s_id s; subnet_tags := Some (s_tags s);
     subnet_cidr_block := s_cidr s; subnet_availability_zone := s_az s |}.
Definition describe_igw (g : igw_rec) : internet_gateway_data :=
  {| internet_gateway_id := g_id g; internet_gateway_tags := Some (g_tags g) |}.
Definition describe_rtb (r : rtb_rec) : route_table_data :=
  {| route_table_id := r_id r; route_table_tags := Some (r_tags r);
     routes := r_routes r; associations_attribute := Some (r_associations r) |}.

Definition assoc_of_subnet (id : string) (a : association) : bool :=
  match SubnetId a with Some s => String.eqb s id | None => false end.

Definition drop_associations (keep : association -> bool) (r : rtb_rec) : rtb_rec :=
  {| r_id := r_id r; r_vpc := r_vpc r; r_tags := r_tags r;
     r_routes := r_routes r;
     r_associations := filter keep (r_associations r) |}.

(** *** The operations *)

Definition uncapitalize (s : string) : string :=
  match s with
  | EmptyString => EmptyString
  | String c s' => String (lower_ascii c) s'
  end.

Definition not_found {A} (o : op) (kind id : string) : result A :=
  failure o ("Invalid" +++ kind +++ "ID.NotFound")
          ("The " +++ uncapitalize kind +++ " ID '" +++ id +++ "' does not exist").

Definition do_create_vpc (o : op) (cidr : string) (w : ec2)
    : result string * ec2 :=
  match parse_cidr cidr with
  | Some (_, len) =>
      if ((16 <=? len) && (len <=? 28))%N then
        let n := next_id w in
        let id := fresh "vpc" n in
        let main_rtb :=
          {| r_id := fresh "rtb" (n + 1); r_vpc := id; r_tags := [];
             r_routes := [local_route cidr];
             r_associations :=
               [{| Main := Some true;
                   RouteTableAssociationId := fresh "rtbassoc" (n + 2);
                   SubnetId := None; GatewayId := None |}] |} in
        (Ok id,
         {| next_id := n + 3;
            vpcs := vpcs w ++ [{| v_id := id; v_cidr := cidr; v_tags := [];
                                  v_dns_hostnames := false |}];
            subnets := subnets w; igws := igws w;
            rtbs := rtbs w ++ [main_rtb] |})
      else (failure o "InvalidVpc.Range"
                    ("The CIDR '" +++ cidr +++ "' is invalid."), w)
  | None => (failure o "InvalidParameterValue"
                     ("Value (" +++ cidr +++ ") for parameter cidrBlock is invalid."), w)
  end.

Definition do_create_subnet (o : op) (vpc cidr az : string) (w : ec2)
    : result string * ec2 :=
  match find_vpc w vpc with
  | None => (not_found o "Vpc" vpc, w)
  | Some v =>
      match parse_cidr cidr, parse_cidr (v_cidr v) with
      | Some c, Some vc =>
          if negb (existsb (String.eqb az) availability_zones) then
            (failure o "InvalidParameterValue"
                     ("Value (" +++ az +++ ") for parameter availabilityZone is invalid."), w)
          else if negb (cidr_within c vc) then
            (failure o "InvalidSubnet.Range"
                     ("The CIDR '" +++ cidr +++ "' is invalid."), w)
          else if existsb (fun s => match parse_cidr (s_cidr s) with
                                    | Some sc => cidr_overlap c sc
                                    | None => false
                                    end) (subnets_of w vpc) then
            (failure o "InvalidSubnet.Conflict"
                     ("The CIDR '" +++ cidr +++ "' conflicts with another subnet"), w)
          else
            let id := fresh "subnet" (next_id w) in
            (Ok id,
             bump (with_subnets w (subnets w ++
               [{| s_id := id; s_vpc := vpc; s_cidr := cidr; s_az := az;
                   s_tags := []; s_map_public_ip := false;
                   s_interfaces := 0 |}])) 1)
      | _, _ => (failure o "InvalidParameterValue"
                         ("Value (" +++ cidr +++ ") for parameter cidrBlock is invalid."), w)
      end
  end.

Definition do_attach (o : op) (vpc igw : string) (w : ec2) : result unit * ec2 :=
  match find_vpc w vpc, find_igw w igw with
  | None, _ => (not_found o "Vpc" vpc, w)
  | _, None => (not_found o "InternetGateway" igw, w)
  | Some _, Some g =>
      match g_attached g, igws_of w vpc with
      | Some _, _ =>
          (failure o "Resource.AlreadyAssociated"
                   ("resource " +++ igw +++ " is already attached to network"), w)
      | None, _ :: _ =>
          (failure o "InvalidParameterValue"
                   ("Network " +++ vpc +++ " already has an internet gateway attached"), w)
      | None, [] =>
          (Ok tt, with_igws w (map (fun g' =>
             if String.eqb (g_id g') igw
             then {| g_id := g_id g'; g_tags := g_tags g'; g_attached := Some vpc |}
             else g') (igws w)))
      end
  end.

Definition do_create_route (o : op) (rt dest gw : string) (w : ec2)
    : result unit * ec2 :=
  match find_rtb w rt, find_igw w gw with
  | None, _ => (not_found o "RouteTable" rt, w)
  | _, None => (not_found o "Gateway" gw, w)
  | Some r, Some _ =>
      if existsb (fun x => option_str_eqb (destination_cidr_block x) dest)
                 (r_routes r)
      then (failure o "RouteAlreadyExists"
                    ("The route identified by " +++ dest +++ " already exists."), w)
      else
        (Ok tt, with_rtbs w (map (fun r' =>
           if String.eqb (r_id r') rt
           then {| r_id := r_id r'; r_vpc := r_vpc r'; r_tags := r_tags r';
                   r_routes := r_routes r' ++
                     [{| destination_cidr_block := Some dest;
                         gateway_id := Some gw; nat_gateway_id := None |}];
                   r_associations := r_associations r' |}
           else r') (rtbs w)))
  end.

Definition do_associate (o : op) (rt subnet : string) (w : ec2)
    : result string * ec2 :=
  match find_rtb w rt, find_subnet w subnet with
  | None, _ => (not_found o "RouteTable" rt, w)
  | _, None => (not_found o "Subnet" subnet, w)
  | Some r, Some s =>
      if negb (String.eqb (r_vpc r) (s_vpc s)) then
        (failure o "InvalidParameterValue"
                 ("Route table " +++ rt +++ " and subnet " +++ subnet
                    +++ " belong to different networks"), w)
      else if existsb (fun r' => existsb (assoc_of_subnet subnet)
                                         (r_associations r')) (rtbs w) then
        (failure o "Resource.AlreadyAssociated"
                 ("the specified association for route table " +++ rt
                    +++ " conflicts with an existing association"), w)
      else
        let id := fresh "rtbassoc" (next_id w) in
        (Ok id,
         bump (with_rtbs w (map (fun r' =>
           if String.eqb (r_id r') rt
           then {| r_id := r_id r'; r_vpc := r_vpc r'; r_tags := r_tags r';
                   r_routes := r_routes r';
                   r_associations := r_associations r' ++
                     [{| Main := Some false; RouteTableAssociationId := id;
                         SubnetId := Some subnet; GatewayId := None |}] |}
           else r') (rtbs w))) 1)
  end.

Definition do_disassociate (o : op) (a : string) (w : ec2) : result unit * ec2 :=
  let has := fun x => String.eqb (RouteTableAssociationId x) a in
  match find (fun r => existsb has (r_associations r)) (rtbs w) with
  | None => (not_found o "Association" a, w)
  | Some r =>
      if existsb (fun x => has x && any_main [x]) (r_associations r)
      then (failure o "InvalidParameterValue"
                    "cannot disassociate the main route table association", w)
      else (Ok tt, with_rtbs w
                     (map (drop_associations (fun x => negb (has x))) (rtbs w)))
  end.

Definition do_delete_subnet (o : op) (id : string) (w : ec2) : result unit * ec2 :=
  match find_subnet w id with
  | None => (not_found o "Subnet" id, w)
  | Some s =>
      match s_interfaces s with
      | S _ => (failure o "DependencyViolation"
                        ("The subnet '" +++ id
                           +++ "' has dependencies and cannot be deleted."), w)
      | O =>
          (Ok tt,
           {| next_id := next_id w; vpcs := vpcs w;
              subnets := filter (fun s' => negb (String.eqb (s_id s') id))
                                (subnets w);
              igws := igws w;
              rtbs := map (drop_associations
                             (fun a => negb (assoc_of_subnet id a))) (rtbs w) |})
      end
  end.

Definition do_detach (o : op) (vpc igw : string) (w : ec2) : result unit * ec2 :=
  match find_igw w igw with
  | None => (not_found o "InternetGateway" igw, w)
  | Some g =>
      if option_str_eqb (g_attached g) vpc then
        (Ok tt, with_igws w (map (fun g' =>
           if String.eqb (g_id g') igw
           then {| g_id := g_id g'; g_tags := g_tags g'; g_attached := None |}
           else g') (igws w)))
      else (failure o "Gateway.NotAttached"
                    ("resource " +++ igw +++ " is not attached to network "
                       +++ vpc), w)
  end.

Definition do_delete_igw (o : op) (igw : string) (w : ec2) : result unit * ec2 :=
  match find_igw w igw with
  | None => (not_found o "InternetGateway" igw, w)
  | Some g =>
      match g_attached g with
      | Some _ => (failure o "DependencyViolation"
                           ("The internetGateway '" +++ igw
                              +++ "' has dependencies and cannot be deleted."), w)
      | None => (Ok tt, with_igws w
                   (filter (fun g' => negb (String.eqb (g_id g') igw)) (igws w)))
      end
  end.

Definition do_delete_rtb (o : op) (rt : string) (w : ec2) : result unit * ec2 :=
  match find_rtb w rt with
  | None => (not_found o "RouteTable" rt, w)
  | Some r =>
      match r_associations r with
      | _ :: _ => (failure o "DependencyViolation"
                           ("The routeTable '" +++ rt
                              +++ "' has dependencies and cannot be deleted."), w)
      | [] => (Ok tt, with_rtbs w
                 (filter (fun r' => negb (String.eqb (r_id r') rt)) (rtbs w)))
      end
  end.

Definition do_delete_vpc (o : op) (vpc : string) (w : ec2) : result unit * ec2 :=
  match find_vpc w vpc with
  | None => (not_found o "Vpc" vpc, w)
  | Some _ =>
      match subnets_of w vpc, igws_of w vpc,
            filter (fun r => negb (is_main r)) (rtbs_of w vpc) with
      | [], [], [] =>
          (Ok tt,
           {| next_id := next_id w;
              vpcs := filter (fun v => negb (String.eqb (v_id v) vpc)) (vpcs w);
              subnets := subnets w; igws := igws w;
              rtbs := filter (fun r => negb (String.eqb (r_vpc r) vpc)) (rtbs w) |})
      | _, _, _ =>
          (failure o "DependencyViolation"
                   ("The vpc '" +++ vpc
                      +++ "' has dependencies and cannot be deleted."), w)
      end
  end.

Definition perform (o : op) : ec2 -> result (response o) * ec2 :=
  match o as o0 return ec2 -> result (response o0) * ec2 with
  | CreateVpc cidr => do_create_vpc (CreateVpc cidr) cidr
  | CreateTags id ts => fun w =>
      match set_tags w id ts with
      | Some w' => (Ok tt, w')
      | None => (failure (CreateTags id ts) "InvalidID"
                         ("The ID '" +++ id +++ "' is not valid"), w)
      end
  | WaitUntilVpcAvailable vpc => fun w =>
      match find_vpc w vpc with
      | Some _ => (Ok tt, w)
      | None => (Raise (OtherException "WaiterError"
                   ("Waiter VpcAvailable failed: The vpc ID '" +++ vpc
                      +++ "' does not exist")), w)
      end
  | ModifyVpcAttribute vpc b => fun w =>
      match find_vpc w vpc with
      | Some _ =>
          (Ok tt, with_vpcs w (map (fun v =>
             if String.eqb (v_id v) vpc
             then {| v_id := v_id v; v_cidr := v_cidr v; v_tags := v_tags v;
                     v_dns_hostnames := b |}
             else v) (vpcs w)))
      | None => (not_found (ModifyVpcAttribute vpc b) "Vpc" vpc, w)
      end
  | CreateInternetGateway => fun w =>
      let id := fresh "igw" (next_id w) in
      (Ok id, bump (with_igws w (igws w ++
                 [{| g_id := id; g_tags := []; g_attached := None |}])) 1)
  | AttachInternetGateway vpc igw =>
      do_attach (AttachInternetGateway vpc igw) vpc igw
  | CreateSubnet vpc cidr az => do_create_subnet (CreateSubnet vpc cidr az) vpc cidr az
  | ModifySubnetAttribute id b => fun w =>
      match find_subnet w id with
      | Some _ =>
          (Ok tt, with_subnets w (map (fun s =>
             if String.eqb (s_id s) id
             then {| s_id := s_id s; s_vpc := s_vpc s; s_cidr := s_cidr s;
                     s_az := s_az s; s_tags := s_tags s;
                     s_map_public_ip := b; s_interfaces := s_interfaces s |}
             else s) (subnets w)))
      | None => (not_found (ModifySubnetAttribute id b) "Subnet" id, w)
      end
  | CreateRouteTable vpc => fun w =>
      match find_vpc w vpc with
      | Some v =>
          let id := fresh "rtb" (next_id w) in
          (Ok id, bump (with_rtbs w (rtbs w ++
                     [{| r_id := id; r_vpc := vpc; r_tags := [];
                         r_routes := [local_route (v_cidr v)];
                         r_associations := [] |}])) 1)
      | None => (not_found (CreateRouteTable vpc) "Vpc" vpc, w)
      end
  | CreateRoute rt dest gw => do_create_route (CreateRoute rt dest gw) rt dest gw
  | AssociateRouteTable rt s => do_associate (AssociateRouteTable rt s) rt s
  | DisassociateRouteTable a => do_disassociate (DisassociateRouteTable a) a
  | DescribeVpc vpc => fun w =>
      match find_vpc w vpc with
      | Some v => (Ok {| vpc_cidr_block := v_cidr v; vpc_state := "available" |}, w)
      | None => (not_found (DescribeVpc vpc) "Vpc" vpc, w)
      end
  | DescribeSubnets vpc => fun w => (Ok (map describe_subnet (subnets_of w vpc)), w)
  | DescribeInternetGateways vpc => fun w => (Ok (map describe_igw (igws_of w vpc)), w)
  | DescribeRouteTables vpc => fun w => (Ok (map describe_rtb (rtbs_of w vpc)), w)
  | DeleteSubnet id => do_delete_subnet (DeleteSubnet id) id
  | DetachInternetGateway vpc igw => do_detach (DetachInternetGateway vpc igw) vpc igw
  | DeleteInternetGateway igw => do_delete_igw (DeleteInternetGateway igw) igw
  | DeleteRouteTable rt => do_delete_rtb (DeleteRouteTable rt) rt
  | DeleteVpc vpc => do_delete_vpc (DeleteVpc vpc) vpc
  end.

End Mock.

(** ** Reading the record of a run *)

Definition is_create (o : op) : bool :=
  match o with
  | CreateVpc _ | CreateInternetGateway | CreateSubnet _ _ _
  | CreateRouteTable _ => true
  | _ => false
  end.

Definition is_lookup (o : op) : bool :=
  match o with
  | DescribeVpc _ | DescribeSubnets _ | DescribeInternetGateways _
  | DescribeRouteTables _ => true
  | _ => false
  end.

Definition is_delete (o : op) : bool :=
  match o with
  | DeleteSubnet _ | DeleteInternetGateway _ | DeleteRouteTable _
  | DeleteVpc _ => true
  | _ => false
  end.

Definition is_disassociate (o : op) : bool :=
  match o with DisassociateRouteTable _ => true | _ => false end.

Definition is_delete_vpc (e : event) : bool :=
  match op_of e with DeleteVpc _ => true | _ => false end.
Definition is_delete_igw (e : event) : bool :=
  match op_of e with DeleteInternetGateway _ => true | _ => false end.
Definition is_list_route_tables (e : event) : bool :=
  match op_of e with DescribeRouteTables _ => true | _ => false end.

(** Neither a create call nor a listing. *)
Definition quiet (e : event) : bool :=
  negb (is_create (op_of e)) && negb (is_lookup (op_of e)).

(** The identifier a successful create call returned. *)
Definition created_id (e : event) : option string :=
  match e with
  | Ev o r =>
      match o as o0 return result (response o0) -> option string with
      | CreateVpc _ | CreateInternetGateway | CreateSubnet _ _ _
      | CreateRouteTable _ =>
          fun r => match r with Ok id => Some id | Raise _ => None end
      | _ => fun _ => None
      end r
  end.

(** The identifier a successful delete call removed. *)
Definition deleted_id (e : event) : option string :=
  match e with
  | Ev (DeleteSubnet id) (Ok _) | Ev (DeleteInternetGateway id) (Ok _)
  | Ev (DeleteRouteTable id) (Ok _) | Ev (DeleteVpc id) (Ok _) => Some id
  | _ => None
  end.

Fixpoint pick {A B} (f : A -> option B) (l : list A) : list B :=
  match l with
  | [] => []
  | a :: l' => match f a with
               | Some b => b :: pick f l'
               | None => pick f l'
               end
  end.

Definition created_ids (l : list event) : list string := pick created_id l.
Definition deleted_ids (l : list event) : list string := pick deleted_id l.

(** The route tables a successful listing returned. *)
Definition listed_route_tables (e : event) : option (list route_table_data) :=
  match e with
  | Ev o r =>
      match o as o0
            return result (response o0) -> option (list route_table_data) with
      | DescribeRouteTables _ =>
          fun r => match r with Ok rts => Some rts | Raise _ => None end
      | _ => fun _ => None
      end r
  end.

(** *** The plan a teardown follows

    The calls of a teardown in which every call succeeds, given what the
    three listings return. *)
Definition delete_subnet_calls (s : subnet_data) : list event :=
  [Ev (DeleteSubnet (subnet_id s)) (Ok tt)].

Definition delete_igw_calls (vpc_id : string) (g : internet_gateway_data)
    : list event :=
  [Ev (DetachInternetGateway vpc_id (internet_gateway_id g)) (Ok tt);
   Ev (DeleteInternetGateway (internet_gateway_id g)) (Ok tt)].

Definition delete_route_table_calls (rt : route_table_data) : list event :=
  if not_main rt then [Ev (DeleteRouteTable (route_table_id rt)) (Ok tt)]
  else [].

Definition subnets_phase (vpc_id : string) (ss : list subnet_data) : list event :=
  Ev (DescribeSubnets vpc_id) (Ok ss) :: flat_map delete_subnet_calls ss.

Definition igws_phase (vpc_id : string) (gs : list internet_gateway_data)
    : list event :=
  Ev (DescribeInternetGateways vpc_id) (Ok gs)
    :: flat_map (delete_igw_calls vpc_id) gs.

Definition route_tables_phase (vpc_id : string) (rts : list route_table_data)
    : list event :=
  Ev (DescribeRouteTables vpc_id) (Ok rts)
    :: flat_map delete_route_table_calls rts.

Definition teardown_plan (vpc_id : string) (ss : list subnet_data)
    (gs : list internet_gateway_data) (rts : list route_table_data)
    : list event :=
  subnets_phase vpc_id ss ++ igws_phase vpc_id gs
    ++ route_tables_phase vpc_id rts ++ [Ev (DeleteVpc vpc_id) (Ok tt)].

(** [runs_as plan calls r]: the run issued the calls of [plan] in order,
    either all of them, each succeeding, and returned; or up to one that
    the provider rejected, and raised what the provider raised. *)
Inductive runs_as : list event -> list event -> result unit -> Prop :=
| runs_done : runs_as [] [] (Ok tt)
| runs_ok e plan calls r :
    ev_ok e = true -> runs_as plan calls r ->
    runs_as (e :: plan) (e :: calls) r
| runs_fail o a x plan :
    runs_as (Ev o (Ok a) :: plan) [Ev o (Raise x)] (Raise x).

(** Errors are not collected: a run that raises stopped at the call that
    failed, and every call before it succeeded. *)
Definition fail_stop {A} (calls : list event) (r : result A) : Prop :=
  match r with
  | Ok _ => forallb ev_ok calls = true
  | Raise x => exists pre o,
      calls = pre ++ [Ev o (Raise x)] /\ forallb ev_ok pre = true
  end.

(** The main route table of a VPC, as the provider marks it: one of its
    associations carries [Main = True]. *)
Definition main_table (rt : route_table_data) : Prop :=
  exists associations a,
    associations_attribute rt = Some associations
    /\ In a associations /\ Main a = Some true.

(** Calls that take something away: a detachment or a deletion. *)
Definition removes (o : op) : bool :=
  match o with
  | DetachInternetGateway _ _ => true
  | _ => is_delete o
  end.

(** Order of dependencies: every identifier a call names was returned
    earlier in the same run, by a successful create call or, for a call
    that detaches or deletes, by a successful listing. *)

(** The identifiers of resources that a call names. *)
Definition refers_to (o : op) : list string :=
  match o with
  | CreateVpc _ | CreateInternetGateway => []
  | CreateTags id _ => [id]
  | WaitUntilVpcAvailable v | ModifyVpcAttribute v _ | CreateSubnet v _ _
  | CreateRouteTable v => [v]
  | AttachInternetGateway v g | DetachInternetGateway v g => [v; g]
  | ModifySubnetAttribute s _ => [s]
  | CreateRoute rt _ g => [rt; g]
  | AssociateRouteTable rt s => [rt; s]
  | DisassociateRouteTable a => [a]
  | DescribeVpc v | DescribeSubnets v | DescribeRouteTables v
  | DescribeInternetGateways v => [v]
  | DeleteSubnet s => [s]
  | DeleteInternetGateway g => [g]
  | DeleteRouteTable rt => [rt]
  | DeleteVpc v => [v]
  end.

(** The identifiers a successful listing returned. *)
Definition listed_ids (e : event) : list string :=
  match e with
  | Ev o r =>
      match o as o0 return result (response o0) -> list string with
      | DescribeSubnets _ =>
          fun r => match r with Ok ss => map subnet_id ss | Raise _ => [] end
      | DescribeInternetGateways _ =>
          fun r => match r with
                   | Ok gs => map internet_gateway_id gs
                   | Raise _ => []
                   end
      | DescribeRouteTables _ =>
          fun r => match r with Ok rts => map route_table_id rts | Raise _ => [] end
      | _ => fun _ => []
      end r
  end.

Definition known_after (known : list string) (e : event) : list string :=
  match created_id e with
  | Some id => id :: known
  | None => known
  end.

Definition named_in (id : string) (known : list string) : bool :=
  existsb (String.eqb id) known.

(** [created] and [listed] are the identifiers returned so far. *)
Fixpoint dependencies_first (created listed : list string) (l : list event)
    : bool :=
  match l with
  | [] => true
  | e :: l' =>
      forallb (fun id => named_in id created
                         || (removes (op_of e) && named_in id listed))
              (refers_to (op_of e))
        && dependencies_first (known_after created e) (listed_ids e ++ listed) l'
  end.

(** Teardown order: the kind of resource each successful delete removed. *)
Inductive kind := VPC | InternetGateway | Subnet | RouteTable.

Definition deleted_kind (e : event) : option kind :=
  match e with
  | Ev (DeleteSubnet _) (Ok _) => Some Subnet
  | Ev (DeleteInternetGateway _) (Ok _) => Some InternetGateway
  | Ev (DeleteRouteTable _) (Ok _) => Some RouteTable
  | Ev (DeleteVpc _) (Ok _) => Some VPC
  | _ => None
  end.

Definition kind_created_by (o : op) : option kind :=
  match o with
  | CreateVpc _ => Some VPC
  | CreateInternetGateway => Some InternetGateway
  | CreateSubnet _ _ _ => Some Subnet
  | CreateRouteTable _ => Some RouteTable
  | _ => None
  end.

Definition created_kind (e : event) : option kind :=
  if ev_ok e then kind_created_by (op_of e) else None.

(** Order of a run by kind of resource: the kinds that [kind_of] reads off
    the calls never go down in [rank]. *)
Fixpoint ordered (rank : kind -> nat) (kind_of : event -> option kind)
    (floor : nat) (l : list event) : bool :=
  match l with
  | [] => true
  | e :: l' =>
      match kind_of e with
      | Some k => (floor <=? rank k)%nat && ordered rank kind_of (rank k) l'
      | None => ordered rank kind_of floor l'
      end
  end.

(** The order in which [main] creates. *)
Definition creation_rank (k : kind) : nat :=
  match k with VPC => 0 | InternetGateway => 1 | Subnet => 2 | RouteTable => 3 end.

(** The order in which [cleanup_vpc] deletes. *)
Definition teardown_rank (k : kind) : nat :=
  match k with Subnet => 0 | InternetGateway => 1 | RouteTable => 2 | VPC => 3 end.

(** The calls of a teardown: listings, detachments and deletions. *)
Definition is_teardown (o : op) : bool :=
  match o with
  | DetachInternetGateway _ _ => true
  | _ => is_lookup o || is_delete o
  end.

(** ** Concrete runs against the reference provider *)
Module Scenario.
Import Mock.

(** Resources carrying a given Name tag. *)
Definition named (name : string) (tags : list tag) : bool :=
  existsb (fun t => String.eqb (Key t) "Name" && String.eqb (Value t) name) tags.

(** The tutorial run on an empty account, without cleanup, and the same
    run again on what the first left behind. *)
Definition first_run : run ec2 unit := main perform "no" empty.
Definition provisioned : ec2 := world_of first_run.
Definition second_run : run ec2 unit := main perform "no" provisioned.

(** The tutorial run with cleanup, and what it leaves behind. *)
Definition full_run : run ec2 unit := main perform "yes" empty.
Definition torn_down : ec2 := world_of full_run.

(** The provisioned network, torn down. *)
Definition teardown : run ec2 unit := cleanup_vpc perform "vpc-1" provisioned.

(** The route tables that teardown listed. *)
Definition listed : list route_table_data :=
  hd [] (pick listed_route_tables (calls_of teardown)).

(** The provisioned network with a network interface living in the first
    subnet (an instance was launched there). *)
Definition busy_world : ec2 :=
  with_subnets provisioned (map (fun s =>
    if String.eqb (s_id s) "subnet-5"
    then {| s_id := s_id s; s_vpc := s_vpc s; s_cidr := s_cidr s;
            s_az := s_az s; s_tags := s_tags s;
            s_map_public_ip := s_map_public_ip s; s_interfaces := 1 |}
    else s) (subnets provisioned)).

(** A VPC whose second route table is associated with a virtual private
    gateway (an edge association), which no step of the teardown removes. *)
Definition edge_world : ec2 :=
  {| next_id := 7;
     vpcs := [{| v_id := "vpc-1"; v_cidr := "10.0.0.0/16";
                 v_tags := [name_tag "tutorial-vpc"]; v_dns_hostnames := true |}];
     subnets := [];
     igws := [];
     rtbs := [{| r_id := "rtb-2"; r_vpc := "vpc-1"; r_tags := [];
                 r_routes := [local_route "10.0.0.0/16"];
                 r_associations :=
                   [{| Main := Some true; RouteTableAssociationId := "rtbassoc-3";
                       SubnetId := None; GatewayId := None |}] |};
              {| r_id := "rtb-4"; r_vpc := "vpc-1";
                 r_tags := [name_tag "tutorial-edge-rt"];
                 r_routes := [local_route "10.0.0.0/16"];
                 r_associations :=
                   [{| Main := Some false; RouteTableAssociationId := "rtbassoc-6";
                       SubnetId := None; GatewayId := Some "vgw-5" |}] |}] |}.

Definition edge_teardown : run ec2 unit := cleanup_vpc perform "vpc-1" edge_world.

Definition route_table_in_use : exn :=
  ClientError {| error_code := "DependencyViolation";
                 error_message :=
                   "The routeTable 'rtb-4' has dependencies and cannot be deleted.";
                 operation_name := "DeleteRouteTable" |}.

Definition subnet_in_use : exn :=
  ClientError {| error_code := "DependencyViolation";
                 error_message :=
                   "The subnet 'subnet-5' has dependencies and cannot be deleted.";
                 operation_name := "DeleteSubnet" |}.

Definition vpc_not_found : client_error :=
  {| error_code := "InvalidVpcID.NotFound";
     error_message := "The vpc ID 'vpc-1' does not exist";
     operation_name := "DeleteVpc" |}.

Definition subnet_conflict : exn :=
  ClientError {| error_code := "InvalidSubnet.Conflict";
                 error_message :=
                   "The CIDR '10.0.1.0/25' conflicts with another subnet";
                 operation_name := "CreateSubnet" |}.

(** A VPC with its internet gateway and one subnet, no route table yet. *)
Definition networked : ec2 :=
  world_of (bind (create_vpc perform) (fun vpc =>
            bind (create_internet_gateway perform vpc) (fun _ =>
            create_subnet perform vpc "10.0.1.0/24" "us-east-2a"
                          "tutorial-public-subnet-1" true)) empty).

End Scenario.

(** ** Further readings of a run *)

(** [l] ends with the lines (or calls) [s]. *)
Definition ends_with {T} (l s : list T) : Prop := exists pre, l = pre ++ s.

(** The calls [cleanup_vpc] may make for a VPC: listings, the detachment
    of a gateway and the final delete for that VPC only, and deletions of
    subnets, gateways and route tables. *)
Definition teardown_call_for (vpc_id : string) (o : op) : bool :=
  match o with
  | DescribeSubnets v | DescribeInternetGateways v | DescribeRouteTables v
  | DeleteVpc v | DetachInternetGateway v _ => String.eqb v vpc_id
  | DeleteSubnet _ | DeleteInternetGateway _ | DeleteRouteTable _ => true
  | _ => false
  end.

Definition is_delete_subnet (e : event) : bool :=
  match op_of e with DeleteSubnet _ => true | _ => false end.
Definition is_gateway_removal (e : event) : bool :=
  match op_of e with
  | DetachInternetGateway _ _ | DeleteInternetGateway _ => true
  | _ => false
  end.
Definition is_delete_route_table (e : event) : bool :=
  match op_of e with DeleteRouteTable _ => true | _ => false end.

(** How a create function reports an error: after its announcement, a
    [ClientError] is printed once under the function's label; any other
    exception is not printed by the function. *)
Definition reported {A} (announcement label : string) (out : list string)
    (r : result A) : Prop :=
  match r with
  | Raise (ClientError e) => out = [announcement; label +++ str_of_client_error e]
  | Raise (OtherException _ _) => out = [announcement]
  | Ok _ => True
  end.

(** Calls that only add to what exists: neither a listing nor a removal. *)
Definition builds (e : event) : bool := negb (is_teardown (op_of e)).

(** A listed resource whose tag set is present. *)
Definition has_tags (tags : option (list tag)) : bool :=
  match tags with Some _ => true | None => false end.

(** The exception of [for tag in None]. *)
Definition not_iterable : exn :=
  OtherException "TypeError" "'NoneType' object is not iterable".

(** The four listings of the summary, in order. *)
Definition summary_ops (vpc_id : string) : list op :=
  [DescribeVpc vpc_id; DescribeSubnets vpc_id; DescribeRouteTables vpc_id;
   DescribeInternetGateways vpc_id].

(** What the summary prints, as a function of the four answers.  A
    resource without a Name tag is shown under the default of its kind;
    under a route table come its routes other than the one whose
    destination is the block of the VPC, each with its gateway, else its
    NAT gateway, else [local]. *)
Definition tags_or_nil (tags : option (list tag)) : list tag :=
  match tags with Some ts => ts | None => [] end.

Definition subnet_line (s : subnet_data) : string :=
  "  - " +++ subnet_id s +++ ": "
    +++ first_name (tags_or_nil (subnet_tags s)) "N/A" +++ " ("
    +++ subnet_cidr_block s +++ ") in " +++ subnet_availability_zone s.

Definition route_shown (cidr : string) (r : route) : bool :=
  negb (option_str_eqb (destination_cidr_block r) cidr).

Definition route_line (r : route) : string :=
  "    → " +++ str_of_option (destination_cidr_block r) +++ " -> "
    +++ py_or (gateway_id r) (py_or (nat_gateway_id r) "local").

Definition route_table_lines (cidr : string) (rt : route_table_data)
    : list string :=
  ("  - " +++ route_table_id rt +++ ": "
     +++ first_name (tags_or_nil (route_table_tags rt)) "Main")
    :: map route_line (filter (route_shown cidr) (routes rt)).

Definition gateway_line (g : internet_gateway_data) : string :=
  "  - " +++ internet_gateway_id g +++ ": "
    +++ first_name (tags_or_nil (internet_gateway_tags g)) "N/A".

Definition summary_lines (vpc_id : string) (vpc : vpc_data)
    (ss : list subnet_data) (rts : list route_table_data)
    (gs : list internet_gateway_data) : list string :=
  [nl +++ str_repeat "=" 60; "VPC Resources Summary"; str_repeat "=" 60;
   nl +++ "VPC: " +++ vpc_id;
   "  CIDR Block: " +++ vpc_cidr_block vpc;
   "  State: " +++ vpc_state vpc;
   nl +++ "Subnets:"]
    ++ map subnet_line ss
    ++ [nl +++ "Route Tables:"]
    ++ flat_map (route_table_lines (vpc_cidr_block vpc)) rts
    ++ [nl +++ "Internet Gateways:"]
    ++ map gateway_line gs.

(** The test [main] applies to the answer at the prompt. *)
Definition answered_yes (response : string) : bool :=
  String.eqb (py_lower (py_strip response)) "yes".

(** The VPC that [create_vpc] returned to [main], read off the calls of
    the run: the identifier the first call produced, provided the four
    calls of [create_vpc] all succeeded. *)
Definition returned_vpc (l : list event) : option string :=
  match l with
  | e1 :: e2 :: e3 :: e4 :: _ =>
      if forallb ev_ok [e1; e2; e3; e4] then created_id e1 else None
  | _ => None
  end.

(** What [main] prints when it catches an exception. *)
Definition error_line (x : exn) : string := nl +++ "Error: " +++ str_of_exn x.
Definition cleanup_hint (vpc_id : string) : string :=
  nl +++ "To clean up, you can run: cleanup_vpc('" +++ vpc_id +++ "')".

(** The calls by which [main] builds the network, all successful, with the
    identifiers the provider returned: the VPC [v], the gateway [g], the
    public subnets [s1] and [s2], the private subnet [s3], the public route
    table [t1], the private route table [t2] and the three associations. *)
Definition provisioning (v g s1 s2 s3 t1 t2 a1 a2 a3 : string) : list event :=
  [Ev (CreateVpc "10.0.0.0/16") (Ok v);
   Ev (CreateTags v [name_tag "tutorial-vpc"]) (Ok tt);
   Ev (WaitUntilVpcAvailable v) (Ok tt);
   Ev (ModifyVpcAttribute v true) (Ok tt);
   Ev CreateInternetGateway (Ok g);
   Ev (CreateTags g [name_tag "tutorial-igw"]) (Ok tt);
   Ev (AttachInternetGateway v g) (Ok tt);
   Ev (CreateSubnet v "10.0.1.0/24" "us-east-2a") (Ok s1);
   Ev (CreateTags s1 [name_tag "tutorial-public-subnet-1"]) (Ok tt);
   Ev (ModifySubnetAttribute s1 true) (Ok tt);
   Ev (CreateSubnet v "10.0.2.0/24" "us-east-2b") (Ok s2);
   Ev (CreateTags s2 [name_tag "tutorial-public-subnet-2"]) (Ok tt);
   Ev (ModifySubnetAttribute s2 true) (Ok tt);
   Ev (CreateSubnet v "10.0.10.0/24" "us-east-2a") (Ok s3);
   Ev (CreateTags s3 [name_tag "tutorial-private-subnet-1"]) (Ok tt);
   Ev (CreateRouteTable v) (Ok t1);
   Ev (CreateTags t1 [name_tag "tutorial-public-rt"]) (Ok tt);
   Ev (CreateRoute t1 "0.0.0.0/0" g) (Ok tt);
   Ev (AssociateRouteTable t1 s1) (Ok a1);
   Ev (AssociateRouteTable t1 s2) (Ok a2);
   Ev (CreateRouteTable v) (Ok t2);
   Ev (CreateTags t2 [name_tag "tutorial-private-rt"]) (Ok tt);
   Ev (AssociateRouteTable t2 s3) (Ok a3)].

(** ** Providers that fail

    The reference provider rejects nothing the tutorial does.  To run the
    script against a failure, these providers answer some calls in their
    own way and leave the rest to the reference provider. *)
Module Faults.

(** A provider that rejects the calls selected by [bad] with [x]. *)
Definition rejecting (bad : op -> bool) (x : exn) (o : op) (w : Mock.ec2)
    : result (response o) * Mock.ec2 :=
  if bad o then (Raise x, w) else Mock.perform o w.

Definition is_create_gateway (o : op) : bool :=
  match o with CreateInternetGateway => true | _ => false end.

Definition is_wait (o : op) : bool :=
  match o with WaitUntilVpcAvailable _ => true | _ => false end.

Definition gateway_limit : exn :=
  ClientError {| error_code := "InternetGatewayLimitExceeded";
                 error_message :=
                   "The maximum number of internet gateways has been reached.";
                 operation_name := "CreateInternetGateway" |}.

Definition no_such_vpc : client_error :=
  {| error_code := "InvalidVpcID.NotFound";
     error_message := "The vpc ID 'vpc-1' does not exist";
     operation_name := "DescribeVpcs" |}.

Definition waiter_timeout : exn :=
  OtherException "WaiterError"
                 "Waiter VpcAvailable failed: Max attempts exceeded".

(** The account has reached its limit of internet gateways. *)
Definition no_more_gateways := rejecting is_create_gateway gateway_limit.

(** The new VPC never becomes available. *)
Definition never_available := rejecting is_wait waiter_timeout.

(** A provider that, as boto3 does, gives [None] for the tags of a subnet
    that has none. *)
Definition untag (s : subnet_data) : subnet_data :=
  match subnet_tags s with
  | Some [] =>
      {| subnet_id := subnet_id s; subnet_tags := None;
         subnet_cidr_block := subnet_cidr_block s;
         subnet_availability_zone := subnet_availability_zone s |}
  | _ => s
  end.

Definition bare_tags (o : op) : Mock.ec2 -> result (response o) * Mock.ec2 :=
  match o as o0 return Mock.ec2 -> result (response o0) * Mock.ec2 with
  | DescribeSubnets vpc => fun w =>
      match Mock.perform (DescribeSubnets vpc) w with
      | (Ok ss, w') => (Ok (map untag ss), w')
      | other => other
      end
  | o0 => Mock.perform o0
  end.

(** The tutorial's network with one more subnet, created without tags. *)
Definition with_untagged_subnet : Mock.ec2 :=
  snd (Mock.perform (CreateSubnet "vpc-1" "10.0.20.0/24" "us-east-2b")
                    Scenario.provisioned).

(** An account with the tutorial's VPC and nothing else of the tutorial. *)
Definition fresh_vpc : Mock.ec2 :=
  world_of (create_vpc Mock.perform Mock.empty).

(** The tutorial against these providers, and the summary of the VPC with
    the untagged subnet. *)
Definition limit_run : run Mock.ec2 unit :=
  main no_more_gateways "yes" Mock.empty.
Definition stuck_run : run Mock.ec2 unit :=
  main never_available "yes" Mock.empty.
Definition bare_summary : run Mock.ec2 unit :=
  list_vpc_resources bare_tags "vpc-1" with_untagged_subnet.

End Faults.

(** ** Reasoning about runs *)

Unset Implicit Arguments.

(** *** Stripping the answer

    [lstrip] and [rstrip] stop because nothing is left to strip, not
    because they ran out of steps. *)

Lemma drop_prefix_length p : forall s s',
  drop_prefix p s = Some s' ->
  String.length s = String.length p + String.length s'.
Proof.
  induction p as [|a p IH]; intros [|b s] s' H; simpl in *;
    try discriminate; try (injection H as <-; reflexivity).
  destruct (Ascii.eqb a b); [|discriminate]. now rewrite (IH _ _ H).
Qed.

Lemma drop_space_shorter spaces :
  Forall (fun p => p <> "") spaces -> forall s s',
  drop_space spaces s = Some s' -> String.length s' < String.length s.
Proof.
  induction 1 as [|p spaces Hp _ IH]; intros s s' H; simpl in H;
    [discriminate|].
  destruct (drop_prefix p s) eqn:E; [|now apply IH].
  injection H as <-. apply drop_prefix_length in E.
  destruct p; [now contradiction Hp|]. simpl in E. lia.
Qed.

Lemma strip_front_done spaces :
  Forall (fun p => p <> "") spaces -> forall fuel s,
  String.length s <= fuel ->
  drop_space spaces (strip_front spaces fuel s) = None.
Proof.
  intros Hs. induction fuel as [|fuel IH]; intros s Hl; simpl.
  - destruct (drop_space spaces s) eqn:E; [|reflexivity].
    apply drop_space_shorter in E; [lia | exact Hs].
  - destruct (drop_space spaces s) eqn:E; [|exact E].
    apply IH. apply drop_space_shorter in E; [lia | exact Hs].
Qed.

Lemma append_empty s : s +++ "" = s.
Proof. induction s as [|c s IH]; simpl; [reflexivity | now rewrite IH]. Qed.

Lemma append_associative a b c : (a +++ b) +++ c = a +++ (b +++ c).
Proof. induction a as [|x a IH]; simpl; [reflexivity | now rewrite IH]. Qed.

Lemma length_of_append a b :
  String.length (a +++ b) = String.length a + String.length b.
Proof. induction a as [|x a IH]; simpl; [reflexivity | now rewrite IH]. Qed.

Lemma string_rev_append a b :
  string_rev (a +++ b) = string_rev b +++ string_rev a.
Proof.
  induction a as [|x a IH]; simpl; [now rewrite append_empty|].
  now rewrite IH, append_associative.
Qed.

Lemma string_rev_involutive s : string_rev (string_rev s) = s.
Proof.
  induction s as [|c s IH]; simpl; [reflexivity|].
  rewrite string_rev_append, IH. reflexivity.
Qed.

Lemma string_rev_length s : String.length (string_rev s) = String.length s.
Proof.
  induction s as [|c s IH]; simpl; [reflexivity|].
  rewrite length_of_append, IH. simpl. lia.
Qed.

Lemma whitespace_nonempty : Forall (fun p => p <> "") whitespace.
Proof. vm_compute. repeat (constructor; [discriminate|]). constructor. Qed.

Lemma reversed_whitespace_nonempty :
  Forall (fun p => p <> "") (map string_rev whitespace).
Proof. vm_compute. repeat (constructor; [discriminate|]). constructor. Qed.

(** What [lstrip] returns starts with no whitespace character. *)
Lemma lstrip_is_done s : drop_space whitespace (lstrip s) = None.
Proof.
  apply strip_front_done; [apply whitespace_nonempty | apply Nat.le_refl].
Qed.

(** What [rstrip] returns ends with no whitespace character. *)
Lemma rstrip_is_done s :
  drop_space (map string_rev whitespace) (string_rev (rstrip s)) = None.
Proof.
  unfold rstrip. rewrite string_rev_involutive.
  apply strip_front_done; [apply reversed_whitespace_nonempty|].
  now rewrite string_rev_length.
Qed.

Section Logic.

Variable world : Type.
Variable perform : forall o : op, world -> result (response o) * world.

(** [observes m Q]: whatever the provider's state, the calls, the output
    and the result of [m] satisfy [Q]. *)
Definition observes {A} (m : M world A)
    (Q : list event -> list string -> result A -> Prop) : Prop :=
  forall w, Q (calls_of (m w)) (output_of (m w)) (result_of (m w)).

Lemma observes_mono {A} (m : M world A) (P Q : _ -> _ -> _ -> Prop) :
  observes m P -> (forall l o r, P l o r -> Q l o r) -> observes m Q.
Proof. intros H HPQ w. apply HPQ, H. Qed.

Lemma observes_ret {A} (a : A) Q : Q [] [] (Ok a) -> observes (ret a) Q.
Proof. intros H w. exact H. Qed.

Lemma observes_raise {A} (x : exn) (Q : _ -> _ -> result A -> Prop) :
  Q [] [] (Raise x) -> observes (raise x) Q.
Proof. intros H w. exact H. Qed.

Lemma observes_print line Q : Q [] [line] (Ok tt) -> observes (print line) Q.
Proof. intros H w. exact H. Qed.

Lemma observes_call (o : op) Q :
  (forall r, Q [Ev o r] [] r) -> observes (call perform o) Q.
Proof.
  intros H w. unfold call. destruct (perform o w) as [r w']. apply H.
Qed.

Lemma observes_bind {A B} (m : M world A) (f : A -> M world B) Q :
  observes m (fun l o r =>
    match r with
    | Ok a => observes (f a) (fun l' o' r' => Q (l ++ l') (o ++ o') r')
    | Raise x => Q l o (Raise x)
    end) ->
  observes (bind m f) Q.
Proof.
  intros H w. specialize (H w). unfold bind.
  destruct (result_of (m w)) as [a|x]; [apply H | exact H].
Qed.

Lemma observes_try_ClientError {A} (body : M world A) handler Q :
  observes body (fun l o r =>
    match r with
    | Raise (ClientError e) =>
        observes (handler e) (fun l' o' r' => Q (l ++ l') (o ++ o') r')
    | _ => Q l o r
    end) ->
  observes (try_except_ClientError body handler) Q.
Proof.
  intros H w. specialize (H w). unfold try_except_ClientError.
  destruct (result_of (body w)) as [a|[e|c s]] eqn:E;
    try (rewrite E; exact H).
  apply H.
Qed.

Lemma observes_try_Exception {A} (body : M world A) handler Q :
  observes body (fun l o r =>
    match r with
    | Raise x =>
        observes (handler x) (fun l' o' r' => Q (l ++ l') (o ++ o') r')
    | Ok a => Q l o (Ok a)
    end) ->
  observes (try_except_Exception body handler) Q.
Proof.
  intros H w. specialize (H w). unfold try_except_Exception.
  destruct (result_of (body w)) as [a|x] eqn:E; [rewrite E; exact H | apply H].
Qed.

Lemma observes_when (b : bool) (m : M world unit) Q :
  (b = true -> observes m Q) -> (b = false -> Q [] [] (Ok tt)) ->
  observes (when b m) Q.
Proof.
  destruct b; intros H1 H2; [apply H1 | apply observes_ret, H2]; reflexivity.
Qed.

(** *** Runs that follow a plan *)

Lemma runs_as_app_ok p1 l1 p2 l2 r :
  runs_as p1 l1 (Ok tt) -> runs_as p2 l2 r -> runs_as (p1 ++ p2) (l1 ++ l2) r.
Proof.
  intros H1 H2. remember (Ok tt) as r1 eqn:E.
  induction H1; simpl; try discriminate; auto using runs_as.
Qed.

Lemma runs_as_app_fail p1 l1 x p2 :
  runs_as p1 l1 (Raise x) -> runs_as (p1 ++ p2) l1 (Raise x).
Proof.
  intros H1. remember (Raise x) as r1 eqn:E.
  induction H1; simpl; try discriminate; auto using runs_as.
Qed.

Lemma for_each_runs_as {X} (plan : X -> list event) (body : X -> M world unit) xs :
  (forall x, observes (body x) (fun l _ r => runs_as (plan x) l r)) ->
  observes (for_each xs body) (fun l _ r => runs_as (flat_map plan xs) l r).
Proof.
  intros Hbody. induction xs as [|x xs IH]; simpl.
  - apply observes_ret. constructor.
  - apply observes_bind. eapply observes_mono; [apply Hbody|].
    intros l o [[]|e] H; cbv beta iota.
    + eapply observes_mono; [apply IH|]. cbv beta. intros l' _ r' H'.
      now apply runs_as_app_ok.
    + now apply runs_as_app_fail.
Qed.

Ltac step :=
  lazymatch goal with
  | |- observes (bind _ _) _ => apply observes_bind
  | |- observes (print _) _ => apply observes_print
  | |- observes (ret _) _ => apply observes_ret
  | |- observes (raise _) _ => apply observes_raise
  | |- observes (call _ ?o) _ => apply (observes_call o); intros [?|?]
  | |- observes (try_except_ClientError _ _) _ => apply observes_try_ClientError
  | |- observes (try_except_Exception _ _) _ => apply observes_try_Exception
  end; cbv beta iota.

Ltac unit_responses :=
  repeat match goal with
  | a : response ?o |- _ =>
      let t := eval simpl in (response o) in
      match t with unit => simpl in a; destruct a end
  end.

Ltac follows := unit_responses; simpl app; repeat constructor.


Ltac step_more :=
  lazymatch goal with
  | |- match ?x with ClientError _ => _ | OtherException _ _ => _ end =>
      is_var x; destruct x; cbv beta iota
  | |- _ => step
  end.

Ltac plan_step :=
  first [ apply runs_done
        | apply runs_fail
        | apply runs_ok; [reflexivity|]
        | apply runs_as_app_ok; [eassumption|]
        | apply runs_as_app_fail; eassumption ].

Ltac choose_plan :=
  lazymatch goal with
  | ss : response (DescribeSubnets _),
    gs : response (DescribeInternetGateways _),
    rts : response (DescribeRouteTables _) |- _ => exists ss, gs, rts
  | ss : response (DescribeSubnets _),
    gs : response (DescribeInternetGateways _) |- _ => exists ss, gs, []
  | ss : response (DescribeSubnets _) |- _ => exists ss, [], []
  | |- _ => exists [], [], []
  end.

Ltac plan_leaf :=
  choose_plan; unit_responses;
  unfold teardown_plan, subnets_phase, igws_phase, route_tables_phase;
  simpl app; rewrite ?app_nil_r; simpl flat_map; simpl app;
  repeat plan_step.

Ltac through_loop p :=
  eapply observes_mono;
  [ apply for_each_runs_as with (plan := p);
    intros ?; repeat step; follows
  | cbv beta; intros ? ? [[]|?] ?; cbv beta iota ].

Theorem cleanup_vpc_follows_plan (vpc_id : string) :
  observes (cleanup_vpc perform vpc_id)
    (fun l _ r => exists ss gs rts, runs_as (teardown_plan vpc_id ss gs rts) l r).
Proof.
  unfold cleanup_vpc. repeat step_more; try solve [plan_leaf].
  through_loop delete_subnet_calls; repeat step_more; try solve [plan_leaf].
  through_loop (delete_igw_calls vpc_id); repeat step_more; try solve [plan_leaf].
  eapply observes_mono.
  - apply for_each_runs_as with (plan := delete_route_table_calls).
    intros rt. unfold delete_route_table_calls.
    apply observes_when; intros ->; [repeat step; follows | constructor].
  - cbv beta; intros ? ? [[]|?] ?; cbv beta iota;
      repeat step_more; try solve [plan_leaf].
Qed.
(** *** What following a plan implies *)

Lemma runs_as_fail_stop p l r : runs_as p l r -> fail_stop l r.
Proof.
  induction 1 as [|e p l r He H IH|o a x p]; simpl.
  - reflexivity.
  - destruct r as [u|x]; simpl in *.
    + now rewrite He, IH.
    + destruct IH as (pre & o & -> & Hpre).
      exists (e :: pre), o. simpl. now rewrite He, Hpre.
  - now exists [], o.
Qed.

(** A position in the record of the run is the same position in the plan. *)
Lemma runs_as_split p l r pre e post :
  runs_as p l r -> l = pre ++ e :: post ->
  exists e' post',
    p = pre ++ e' :: post' /\ forallb ev_ok pre = true /\
    runs_as (e' :: post') (e :: post) r.
Proof.
  intros H. revert pre. induction H as [|e0 p l r He H IH|o a x p]; intros pre E.
  - now destruct pre.
  - destruct pre as [|e1 pre]; simpl in E; injection E as <- ->.
    + exists e0, p. repeat split; auto using runs_as.
    + destruct (IH pre eq_refl) as (e' & post' & -> & Hpre & H').
      exists e', post'. simpl. rewrite He, Hpre. auto.
  - destruct pre as [|e1 pre]; simpl in E.
    + injection E as <- <-. exists (Ev o (Ok a)), p. repeat split; constructor.
    + injection E as _ E. now destruct pre.
Qed.

Lemma runs_as_head e' post' e post r :
  runs_as (e' :: post') (e :: post) r ->
  op_of e' = op_of e /\
  ((e' = e /\ ev_ok e = true /\ runs_as post' post r) \/
   (post = [] /\ exists x, ev_raised e = Some x /\ r = Raise x)).
Proof.
  inversion 1; subst; simpl; auto.
  split; auto. right. split; auto. now exists x.
Qed.

(** *** Positions in a concatenation *)

Lemma not_in_segment {T} (p : T -> bool) (l pre post : list T) e :
  forallb (fun x => negb (p x)) l = true -> l = pre ++ e :: post ->
  p e = true -> False.
Proof.
  intros H -> He. rewrite forallb_app in H. simpl in H. rewrite He in H.
  simpl in H. now rewrite andb_false_r in H.
Qed.

Lemma split_in_front {T} (p : T -> bool) (l2 l3 pre post : list T) e :
  l2 ++ l3 = pre ++ e :: post -> p e = true ->
  forallb (fun x => negb (p x)) l3 = true ->
  exists q2, l2 = pre ++ e :: q2 /\ post = q2 ++ l3.
Proof.
  intros E He H3. revert pre E.
  induction l2 as [|t l2 IH]; intros pre E; simpl in E.
  - exfalso. eapply not_in_segment; eauto.
  - destruct pre as [|t' pre]; simpl in E; injection E as -> E.
    + now exists l2.
    + destruct (IH pre E) as (q2 & -> & ->). now exists q2.
Qed.

Lemma split_in_segment {T} (p : T -> bool) (l1 l2 l3 pre post : list T) e :
  l1 ++ l2 ++ l3 = pre ++ e :: post -> p e = true ->
  forallb (fun x => negb (p x)) l1 = true ->
  forallb (fun x => negb (p x)) l3 = true ->
  exists q1 q2, l2 = q1 ++ e :: q2 /\ pre = l1 ++ q1 /\ post = q2 ++ l3.
Proof.
  intros E He H1 H3. revert pre E.
  induction l1 as [|t l1 IH]; intros pre E; simpl in E.
  - destruct (@split_in_front _ p _ _ _ _ _ E He H3) as (q2 & -> & ->).
    now exists pre, q2.
  - simpl in H1. apply andb_true_iff in H1 as [Ht H1].
    destruct pre as [|t' pre]; simpl in E; injection E as -> E.
    + now rewrite He in Ht.
    + destruct (IH H1 pre E) as (q1 & q2 & -> & -> & ->). now exists q1, q2.
Qed.

Lemma forallb_flat_map {X T} (q : T -> bool) (f : X -> list T) xs :
  (forall x, forallb q (f x) = true) -> forallb q (flat_map f xs) = true.
Proof.
  intros H. induction xs as [|x xs IH]; simpl; [reflexivity|].
  now rewrite forallb_app, H, IH.
Qed.

(** *** Positions in the teardown plan *)

Lemma plan_delete_vpc_last vpc_id ss gs rts pre e post :
  teardown_plan vpc_id ss gs rts = pre ++ e :: post -> is_delete_vpc e = true ->
  e = Ev (DeleteVpc vpc_id) (Ok tt) /\ post = [] /\
  pre = subnets_phase vpc_id ss ++ igws_phase vpc_id gs
          ++ route_tables_phase vpc_id rts.
Proof.
  intros E He. unfold teardown_plan in E. rewrite !app_assoc in E.
  rewrite <- (app_nil_r [Ev (DeleteVpc vpc_id) (Ok tt)]) in E.
  apply split_in_segment with (p := is_delete_vpc) in E; auto.
  - destruct E as (q1 & q2 & E & -> & ->).
    destruct q1 as [|t [|t' q1]]; try discriminate. injection E as <- <-.
    now rewrite !app_nil_r, <- app_assoc.
  - rewrite !forallb_app. unfold subnets_phase, igws_phase, route_tables_phase.
    simpl. rewrite !forallb_flat_map; auto.
    intros rt. unfold delete_route_table_calls. now destruct (not_main rt).
Qed.
Lemma igw_calls_split vpc_id gs q e post g :
  flat_map (delete_igw_calls vpc_id) gs = q ++ e :: post ->
  op_of e = DeleteInternetGateway g ->
  exists q', q = q' ++ [Ev (DetachInternetGateway vpc_id g) (Ok tt)].
Proof.
  revert q. induction gs as [|g0 gs IH]; intros q E He; simpl in E.
  - now destruct q.
  - destruct q as [|t [|t' q]]; simpl in E.
    + injection E as <- _. discriminate.
    + injection E as <- <- _. simpl in He. injection He as <-. now exists [].
    + injection E as <- <- E. destruct (IH q E He) as (q' & ->).
      now exists (Ev (DetachInternetGateway vpc_id (internet_gateway_id g0)) (Ok tt)
                  :: Ev (DeleteInternetGateway (internet_gateway_id g0)) (Ok tt)
                  :: q').
Qed.

Lemma delete_route_table_calls_quiet (q : event -> bool) :
  (forall rt, q (Ev (DeleteRouteTable rt) (Ok tt)) = true) ->
  forall rt, forallb q (delete_route_table_calls rt) = true.
Proof.
  intros H rt. unfold delete_route_table_calls.
  destruct (not_main rt); simpl; [now rewrite H | reflexivity].
Qed.

Lemma plan_detach_before_delete vpc_id ss gs rts pre e post g :
  teardown_plan vpc_id ss gs rts = pre ++ e :: post ->
  op_of e = DeleteInternetGateway g ->
  exists pre', pre = pre' ++ [Ev (DetachInternetGateway vpc_id g) (Ok tt)].
Proof.
  intros E He.
  assert (E' : (subnets_phase vpc_id ss
                  ++ [Ev (DescribeInternetGateways vpc_id) (Ok gs)])
               ++ flat_map (delete_igw_calls vpc_id) gs
               ++ (route_tables_phase vpc_id rts
                     ++ [Ev (DeleteVpc vpc_id) (Ok tt)])
               = pre ++ e :: post).
  { rewrite <- E. unfold teardown_plan, igws_phase.
    now rewrite <- !app_assoc. }
  apply split_in_segment with (p := is_delete_igw) in E'.
  - destruct E' as (q1 & q2 & E1 & -> & _).
    destruct (igw_calls_split _ _ _ _ _ _ E1 He) as (q' & ->).
    exists ((subnets_phase vpc_id ss
               ++ [Ev (DescribeInternetGateways vpc_id) (Ok gs)]) ++ q').
    now rewrite <- !app_assoc.
  - unfold is_delete_igw. now rewrite He.
  - rewrite forallb_app. unfold subnets_phase. simpl.
    now rewrite forallb_flat_map.
  - rewrite forallb_app. unfold route_tables_phase. simpl.
    rewrite forallb_flat_map; auto.
    now apply delete_route_table_calls_quiet.
Qed.

Lemma plan_route_tables_listing vpc_id ss gs rts pre e post :
  teardown_plan vpc_id ss gs rts = pre ++ e :: post ->
  is_list_route_tables e = true ->
  e = Ev (DescribeRouteTables vpc_id) (Ok rts) /\
  pre = subnets_phase vpc_id ss ++ igws_phase vpc_id gs /\
  post = flat_map delete_route_table_calls rts ++ [Ev (DeleteVpc vpc_id) (Ok tt)].
Proof.
  intros E He.
  assert (E' : (subnets_phase vpc_id ss ++ igws_phase vpc_id gs)
               ++ [Ev (DescribeRouteTables vpc_id) (Ok rts)]
               ++ (flat_map delete_route_table_calls rts
                     ++ [Ev (DeleteVpc vpc_id) (Ok tt)])
               = pre ++ e :: post).
  { rewrite <- E. unfold teardown_plan, route_tables_phase.
    now rewrite <- !app_assoc. }
  apply split_in_segment with (p := is_list_route_tables) in E'; auto.
  - destruct E' as (q1 & q2 & E1 & -> & ->).
    destruct q1 as [|t [|t' q1]]; try discriminate. injection E1 as <- <-.
    now rewrite app_nil_r.
  - rewrite forallb_app. unfold subnets_phase, igws_phase. simpl.
    now rewrite !forallb_flat_map.
  - rewrite forallb_app. simpl. rewrite forallb_flat_map; auto.
    now apply delete_route_table_calls_quiet.
Qed.

(** The events of a run are events of the plan, up to the outcome of the
    last one. *)
Lemma runs_as_ops (q : op -> bool) p l r :
  runs_as p l r -> forallb (fun e => q (op_of e)) p = true ->
  forallb (fun e => q (op_of e)) l = true.
Proof.
  induction 1 as [|e p l r He H IH|o a x p]; simpl; auto.
  - intros Hp. apply andb_true_iff in Hp as [-> Hp]. now rewrite IH.
  - intros Hp. apply andb_true_iff in Hp as [-> _]. reflexivity.
Qed.

Lemma plan_ops (q : op -> bool) vpc_id ss gs rts :
  q (DescribeSubnets vpc_id) = true ->
  q (DescribeInternetGateways vpc_id) = true ->
  q (DescribeRouteTables vpc_id) = true ->
  q (DeleteVpc vpc_id) = true ->
  (forall s, q (DeleteSubnet s) = true) ->
  (forall g, q (DetachInternetGateway vpc_id g) = true) ->
  (forall g, q (DeleteInternetGateway g) = true) ->
  (forall rt, q (DeleteRouteTable rt) = true) ->
  forallb (fun e => q (op_of e)) (teardown_plan vpc_id ss gs rts) = true.
Proof.
  intros H1 H2 H3 H4 H5 H6 H7 H8.
  unfold teardown_plan, subnets_phase, igws_phase, route_tables_phase.
  rewrite !forallb_app. simpl. rewrite H1, H2, H3, H4.
  rewrite !forallb_flat_map; auto.
  - now apply (delete_route_table_calls_quiet (fun e => q (op_of e))).
  - intros g. simpl. now rewrite H6, H7.
  - intros s. simpl. now rewrite H5.
Qed.

Lemma cleanup_vpc_fail_stop vpc_id :
  observes (cleanup_vpc perform vpc_id) (fun l _ r => fail_stop l r).
Proof.
  eapply observes_mono; [apply cleanup_vpc_follows_plan|].
  intros l _ r (ss & gs & rts & H). eapply runs_as_fail_stop; eauto.
Qed.

Lemma cleanup_vpc_never_disassociates vpc_id :
  observes (cleanup_vpc perform vpc_id)
    (fun l _ _ => forallb (fun e => negb (is_disassociate (op_of e))) l = true).
Proof.
  eapply observes_mono; [apply cleanup_vpc_follows_plan|].
  intros l _ r (ss & gs & rts & H).
  apply (runs_as_ops (fun o => negb (is_disassociate o)) _ _ _ H).
  now apply (plan_ops (fun o => negb (is_disassociate o))).
Qed.

(** A [ClientError] leaving [cleanup_vpc] was printed on its way out. *)
Lemma cleanup_vpc_prints_error vpc_id :
  observes (cleanup_vpc perform vpc_id)
    (fun _ out r =>
       match r with
       | Raise (ClientError e) =>
           last out "" = "Error during cleanup: " +++ str_of_client_error e
       | _ => True
       end).
Proof.
  unfold cleanup_vpc. do 7 step.
  intros w. destruct (result_of _) as [a|[e|c s]]; auto.
  repeat step. rewrite app_nil_r, !app_assoc. apply last_last.
Qed.
(** ** Teardown *)

(** C7.  In every run of [cleanup_vpc], a delete call for a VPC is the last
    call of the run and is the VPC being cleaned up; before it the run
    listed the subnets, the attached internet gateways and the route tables
    of the VPC and, with success each time, deleted every listed subnet,
    detached and deleted every listed gateway, and deleted every listed
    route table that is not the main one. *)
Theorem delete_vpc_comes_last (w : world) (vpc_id v : string)
    (pre post : list event) (r : result unit) :
  calls_of (cleanup_vpc perform vpc_id w) = pre ++ Ev (DeleteVpc v) r :: post ->
  v = vpc_id /\ post = [] /\
  exists ss gs rts,
    pre = subnets_phase vpc_id ss ++ igws_phase vpc_id gs
            ++ route_tables_phase vpc_id rts.
Proof.
  intros E.
  destruct (cleanup_vpc_follows_plan vpc_id w) as (ss & gs & rts & H).
  destruct (runs_as_split _ _ _ _ _ _ H E) as (e' & post' & Ep & _ & H').
  apply runs_as_head in H' as [Hop H'].
  apply plan_delete_vpc_last in Ep as (-> & -> & ->);
    [|unfold is_delete_vpc; now rewrite Hop].
  simpl in Hop. injection Hop as <-. split; [reflexivity|]. split.
  - destruct H' as [(_ & _ & H')|[-> _]]; [now inversion H' | reflexivity].
  - now exists ss, gs, rts.
Qed.

(** C8.  In every run of [cleanup_vpc], a delete call for an internet
    gateway comes directly after a successful call detaching that gateway
    from the VPC. *)
Theorem gateway_detached_before_delete (w : world) (vpc_id g : string)
    (pre post : list event) (r : result unit) :
  calls_of (cleanup_vpc perform vpc_id w)
    = pre ++ Ev (DeleteInternetGateway g) r :: post ->
  exists pre', pre = pre' ++ [Ev (DetachInternetGateway vpc_id g) (Ok tt)].
Proof.
  intros E.
  destruct (cleanup_vpc_follows_plan vpc_id w) as (ss & gs & rts & H).
  destruct (runs_as_split _ _ _ _ _ _ H E) as (e' & post' & Ep & _ & H').
  apply runs_as_head in H' as [Hop _].
  eapply plan_detach_before_delete; eauto.
Qed.

Lemma delete_route_table_calls_filter rts :
  flat_map delete_route_table_calls rts
  = map (fun rt => Ev (DeleteRouteTable (route_table_id rt)) (Ok tt))
        (filter not_main rts).
Proof.
  induction rts as [|rt rts IH]; simpl; [reflexivity|].
  unfold delete_route_table_calls at 1.
  destruct (not_main rt); simpl; now rewrite IH.
Qed.

Lemma runs_as_in p l r e :
  runs_as p l r -> In e l ->
  exists pre e' post,
    p = pre ++ e' :: post /\ op_of e' = op_of e /\
    (forall c, In c pre -> In c l).
Proof.
  intros H Hin. apply in_split in Hin as (pre & post & E).
  destruct (runs_as_split _ _ _ _ _ _ H E) as (e' & post' & Ep & _ & H').
  apply runs_as_head in H' as [Hop _].
  exists pre, e', post'. repeat split; auto.
  intros c Hc. rewrite E. apply in_or_app. now left.
Qed.

Lemma any_main_spec associations :
  any_main associations = true
  <-> exists a, In a associations /\ Main a = Some true.
Proof.
  unfold any_main. rewrite existsb_exists.
  split; intros (a & Ha & H); exists a; (split; [exact Ha|]).
  - now destruct (Main a) as [[|]|].
  - now rewrite H.
Qed.

(** The test of the script selects the tables that are not the main one. *)
Lemma not_main_spec rt : not_main rt = true <-> ~ main_table rt.
Proof.
  unfold not_main, main_table.
  destruct (associations_attribute rt) as [[|a0 l]|].
  - split; [|reflexivity]. intros _ (l & a & E & Ha & _).
    injection E as <-. destruct Ha.
  - rewrite negb_true_iff, <- not_true_iff_false, any_main_spec. split.
    + intros H (l' & a & E & Ha & Hm). injection E as <-. apply H. now exists a.
    + intros H (a & Ha & Hm). apply H. now exists (a0 :: l), a.
  - split; [|reflexivity]. intros _ (l & a & E & _). discriminate.
Qed.

Lemma route_table_deletes_are_listed vpc_id rts post r :
  runs_as
    (map (fun rt => Ev (DeleteRouteTable (route_table_id rt)) (Ok tt))
         (filter not_main rts)
       ++ [Ev (DeleteVpc vpc_id) (Ok tt)])
    post r ->
  forall t a, In (Ev (DeleteRouteTable t) a) post ->
  exists rt, In rt rts /\ route_table_id rt = t /\ ~ main_table rt.
Proof.
  intros H t a Hin.
  destruct (runs_as_in _ _ _ _ H Hin) as (pre & e' & post' & Ep & Hop & _).
  assert (He' : In e' (map (fun rt => Ev (DeleteRouteTable (route_table_id rt))
                                         (Ok tt)) (filter not_main rts)
                         ++ [Ev (DeleteVpc vpc_id) (Ok tt)])).
  { rewrite Ep. apply in_or_app. right. now left. }
  apply in_app_or in He' as [He'|[<-|[]]]; [|discriminate].
  apply in_map_iff in He' as (rt & <- & Hrt).
  apply filter_In in Hrt as [Hrt Hnm]. simpl in Hop. injection Hop as <-.
  exists rt. repeat split; auto. now apply not_main_spec.
Qed.

Lemma after_route_tables_listing vpc_id w pre v rts post :
  calls_of (cleanup_vpc perform vpc_id w)
    = pre ++ Ev (DescribeRouteTables v) (Ok rts) :: post ->
  runs_as
    (map (fun rt => Ev (DeleteRouteTable (route_table_id rt)) (Ok tt))
         (filter not_main rts)
       ++ [Ev (DeleteVpc vpc_id) (Ok tt)])
    post (result_of (cleanup_vpc perform vpc_id w)).
Proof.
  intros E.
  destruct (cleanup_vpc_follows_plan vpc_id w) as (ss & gs & rts' & H).
  destruct (runs_as_split _ _ _ _ _ _ H E) as (e' & post' & Ep & _ & H').
  apply runs_as_head in H' as [Hop [(-> & _ & H')|(_ & x & Hx & _)]];
    [|discriminate].
  apply plan_route_tables_listing in Ep as (Ee & _ & ->); [|reflexivity].
  apply (f_equal listed_route_tables) in Ee. simpl in Ee. injection Ee as ->.
  now rewrite <- delete_route_table_calls_filter.
Qed.

Lemma before_route_tables_listing vpc_id w pre v rts post :
  calls_of (cleanup_vpc perform vpc_id w)
    = pre ++ Ev (DescribeRouteTables v) (Ok rts) :: post ->
  forallb (fun e => negb (is_delete_route_table e)) pre = true.
Proof.
  intros E.
  destruct (cleanup_vpc_follows_plan vpc_id w) as (ss & gs & rts' & H).
  destruct (runs_as_split _ _ _ _ _ _ H E) as (e' & post' & Ep & _ & H').
  apply runs_as_head in H' as [Hop _].
  apply plan_route_tables_listing in Ep as (_ & -> & _);
    [|destruct e' as [[] ?]; try discriminate; reflexivity].
  unfold subnets_phase, igws_phase. rewrite forallb_app. cbn [forallb].
  rewrite !forallb_flat_map; auto.
Qed.

(** C9.  In every run of [cleanup_vpc], no disassociation call is issued,
    and once the route tables are listed the rest of the run is: a delete
    call for each listed route table that the script's test lets through,
    in the order listed, then the delete call for the VPC; the run goes
    through these calls until one fails.  The test lets a table through
    exactly when none of its associations is marked Main (a table without
    associations included), so every route-table delete of the whole run
    names a listed table that has no association marked Main: a table with
    such an association gets no call. *)
Theorem main_route_table_is_skipped (w : world) (vpc_id v : string)
    (pre post : list event) (rts : list route_table_data) :
  calls_of (cleanup_vpc perform vpc_id w)
    = pre ++ Ev (DescribeRouteTables v) (Ok rts) :: post ->
  runs_as
    (map (fun rt => Ev (DeleteRouteTable (route_table_id rt)) (Ok tt))
         (filter not_main rts)
       ++ [Ev (DeleteVpc vpc_id) (Ok tt)])
    post (result_of (cleanup_vpc perform vpc_id w))
  /\ forallb (fun e => negb (is_disassociate (op_of e)))
             (calls_of (cleanup_vpc perform vpc_id w)) = true
  /\ (forall rt,
        not_main rt = true
        <-> ~ exists associations a,
                associations_attribute rt = Some associations
                /\ In a associations /\ Main a = Some true)
  /\ (forall t a,
        In (Ev (DeleteRouteTable t) a) (calls_of (cleanup_vpc perform vpc_id w)) ->
        exists rt, In rt rts /\ route_table_id rt = t
                   /\ ~ exists associations a,
                          associations_attribute rt = Some associations
                          /\ In a associations /\ Main a = Some true).
Proof.
  intros E. pose proof (after_route_tables_listing _ _ _ _ _ _ E) as H.
  split; [exact H|]. split; [apply cleanup_vpc_never_disassociates|].
  split; [exact not_main_spec|].
  intros t a Hin. rewrite E in Hin.
  apply in_app_or in Hin as [Hin|[Hin|Hin]].
  - pose proof (before_route_tables_listing _ _ _ _ _ _ E) as Hpre.
    rewrite forallb_forall in Hpre. apply Hpre in Hin. discriminate.
  - discriminate.
  - exact (route_table_deletes_are_listed _ _ _ _ H t a Hin).
Qed.

(** C3 (as the script behaves).  [cleanup_vpc] never issues a
    disassociation call.  Once the route tables are listed, it issues the
    delete of each listed table that has no association marked Main, one
    after the other and with no call in between, whatever other
    associations the listing shows for it.  When the provider rejects the
    delete of a route table, that call is the last of the run (it is not
    tried again), every call before it succeeded, [cleanup_vpc] raises what
    the provider raised, and a [ClientError] has been printed on the last
    line as an error during cleanup. *)
Theorem rejected_route_table_delete_ends_cleanup (w : world) (vpc_id : string) :
  forallb (fun e => negb (is_disassociate (op_of e)))
          (calls_of (cleanup_vpc perform vpc_id w)) = true
  /\ (forall pre v rts post,
        calls_of (cleanup_vpc perform vpc_id w)
          = pre ++ Ev (DescribeRouteTables v) (Ok rts) :: post ->
        runs_as
          (map (fun rt => Ev (DeleteRouteTable (route_table_id rt)) (Ok tt))
               (filter not_main rts)
             ++ [Ev (DeleteVpc vpc_id) (Ok tt)])
          post (result_of (cleanup_vpc perform vpc_id w)))
  /\ (forall rt,
        not_main rt = true
        <-> ~ exists associations a,
                associations_attribute rt = Some associations
                /\ In a associations /\ Main a = Some true)
  /\ (forall pre rt x post,
        calls_of (cleanup_vpc perform vpc_id w)
          = pre ++ Ev (DeleteRouteTable rt) (Raise x) :: post ->
        post = [] /\ result_of (cleanup_vpc perform vpc_id w) = Raise x
        /\ forallb ev_ok pre = true
        /\ match x with
           | ClientError e =>
               last (output_of (cleanup_vpc perform vpc_id w)) ""
               = "Error during cleanup: " +++ str_of_client_error e
           | OtherException _ _ => True
           end).
Proof.
  split; [apply cleanup_vpc_never_disassociates|].
  split; [intros pre v rts post; apply after_route_tables_listing|].
  split; [exact not_main_spec|].
  intros pre rt x post E.
  destruct (cleanup_vpc_follows_plan vpc_id w) as (ss & gs & rts & H).
  destruct (runs_as_split _ _ _ _ _ _ H E) as (e' & post' & Ep & Hpre & H').
  apply runs_as_head in H' as [_ [(_ & He & _)|(-> & x' & Hx & Hr)]];
    [discriminate|].
  simpl in Hx. injection Hx as <-.
  repeat split; auto.
  pose proof (cleanup_vpc_prints_error vpc_id w) as Hout. cbv beta in Hout.
  rewrite Hr in Hout. now destruct x.
Qed.
(** ** Errors *)

Lemma fail_stop_cons {A} e l (r : result A) :
  ev_ok e = true -> fail_stop l r -> fail_stop (e :: l) r.
Proof.
  intros He. destruct r as [a|x]; simpl.
  - now intros ->; rewrite He.
  - intros (pre & o & -> & Hpre). exists (e :: pre), o. simpl.
    now rewrite He, Hpre.
Qed.

Lemma fail_stop_last {A} o x : @fail_stop A [Ev o (Raise x)] (Raise x).
Proof. now exists [], o. Qed.

Lemma fail_stop_nil {A} (a : A) : fail_stop [] (Ok a).
Proof. reflexivity. Qed.

Ltac stops :=
  simpl app;
  repeat first [ apply fail_stop_nil
               | apply fail_stop_last
               | apply fail_stop_cons; [reflexivity|] ].

Ltac walk :=
  repeat first
    [ step_more
    | lazymatch goal with
      | |- observes (create_vpc _) _ => unfold create_vpc
      | |- observes (create_internet_gateway _ _) _ =>
          unfold create_internet_gateway
      | |- observes (create_subnet _ _ _ _ _ _) _ => unfold create_subnet
      | |- observes (create_route_table _ _ _ _ _) _ =>
          unfold create_route_table
      | |- observes (main_handler _ _) _ => unfold main_handler
      | |- observes (when ?b _) _ =>
          apply observes_when; intros ?; try discriminate; cbv beta iota
      | |- observes (match ?x with Some _ => _ | None => _ end) _ =>
          destruct x
      | |- observes (if ?c then _ else _) _ => destruct c eqn:?
      end ].

Lemma create_vpc_fail_stop :
  observes (create_vpc perform) (fun l _ r => fail_stop l r).
Proof. walk; stops. Qed.

Lemma create_internet_gateway_fail_stop vpc :
  observes (create_internet_gateway perform vpc) (fun l _ r => fail_stop l r).
Proof. walk; stops. Qed.

Lemma create_subnet_fail_stop vpc cidr az name is_public :
  observes (create_subnet perform vpc cidr az name is_public)
           (fun l _ r => fail_stop l r).
Proof. walk; stops. Qed.

Lemma create_route_table_fail_stop vpc name igw subnet :
  observes (create_route_table perform vpc name igw subnet)
           (fun l _ r => fail_stop l r).
Proof. walk; stops. Qed.

(** C4 (as the script behaves).  Errors are not collected: in
    [cleanup_vpc] and in each create function, the first call the provider
    rejects is the last call of the run.  A run that returns made only
    successful calls; a run that raises made successful calls and then the
    rejected one, and raises what that call raised. *)
Theorem first_failure_is_raised (w : world) (vpc_id : string)
    (cidr az name : string) (is_public : bool) (igw subnet : option string) :
  let cleanup := cleanup_vpc perform vpc_id w in
  let vpc := create_vpc perform w in
  let gateway := create_internet_gateway perform vpc_id w in
  let sub := create_subnet perform vpc_id cidr az name is_public w in
  let table := create_route_table perform vpc_id name igw subnet w in
  fail_stop (calls_of cleanup) (result_of cleanup)
  /\ fail_stop (calls_of vpc) (result_of vpc)
  /\ fail_stop (calls_of gateway) (result_of gateway)
  /\ fail_stop (calls_of sub) (result_of sub)
  /\ fail_stop (calls_of table) (result_of table).
Proof.
  repeat split.
  - apply cleanup_vpc_fail_stop.
  - apply create_vpc_fail_stop.
  - apply create_internet_gateway_fail_stop.
  - apply create_subnet_fail_stop.
  - apply create_route_table_fail_stop.
Qed.

(** C5 (as the script behaves).  A delete call that the provider rejects,
    whatever the reason, ends [cleanup_vpc]: it is the last call, the
    function raises what the call raised, and a [ClientError] is printed
    as an error before it is raised again. *)
Theorem rejected_delete_is_raised (w : world) (vpc_id : string)
    (e : event) (x : exn) :
  In e (calls_of (cleanup_vpc perform vpc_id w)) ->
  is_delete (op_of e) = true ->
  ev_raised e = Some x ->
  result_of (cleanup_vpc perform vpc_id w) = Raise x
  /\ (exists pre, calls_of (cleanup_vpc perform vpc_id w) = pre ++ [e])
  /\ match x with
     | ClientError ce =>
         last (output_of (cleanup_vpc perform vpc_id w)) ""
         = "Error during cleanup: " +++ str_of_client_error ce
     | OtherException _ _ => True
     end.
Proof.
  intros Hin _ Hx.
  assert (Hok : ev_ok e = false) by (destruct e as [o [a|y]]; now inversion Hx).
  pose proof (cleanup_vpc_fail_stop vpc_id w) as Hfs.
  pose proof (cleanup_vpc_prints_error vpc_id w) as Hout. cbv beta in Hfs, Hout.
  revert Hin Hfs Hout. generalize (cleanup_vpc perform vpc_id w) as run.
  intros [[u|y] w' l out] Hin Hfs Hout; simpl in *.
  - rewrite forallb_forall in Hfs. apply Hfs in Hin. congruence.
  - destruct Hfs as (pre & o & E & Hpre). rewrite E in Hin.
    apply in_app_or in Hin as [Hin|[<-|[]]].
    + rewrite forallb_forall in Hpre. apply Hpre in Hin. congruence.
    + simpl in Hx. injection Hx as ->. repeat split; eauto.
Qed.
(** ** Provisioning *)

Ltac first_call := cbn [app]; eexists; eexists; repeat split; reflexivity.

Lemma create_vpc_first_call :
  observes (create_vpc perform) (fun l out res =>
    exists r rest,
      l = Ev (CreateVpc "10.0.0.0/16") r :: rest
      /\ forallb quiet rest = true
      /\ match res with
         | Ok id => r = Ok id /\ last out "" = "✓ VPC created: " +++ id
         | Raise _ => True
         end).
Proof. walk; first_call. Qed.

Lemma create_subnet_first_call vpc cidr az name is_public :
  observes (create_subnet perform vpc cidr az name is_public) (fun l out res =>
    exists r rest,
      l = Ev (CreateSubnet vpc cidr az) r :: rest
      /\ forallb quiet rest = true
      /\ match res with
         | Ok id => r = Ok id
                    /\ last out ""
                       = "✓ Subnet created: " +++ id +++ " (" +++ cidr +++ ")"
         | Raise _ => True
         end).
Proof. walk; first_call. Qed.

(** C1 (as the script behaves).  [create_vpc] and [create_subnet] do not
    look for an existing resource: whatever the provider holds, the first
    call of each is its create call, no listing is issued and no second
    create call either.  When the function returns, it returns the
    identifier that create call produced and reports it as created. *)
Theorem create_is_unconditional (w : world)
    (vpc cidr az name : string) (is_public : bool) :
  let v := create_vpc perform w in
  let s := create_subnet perform vpc cidr az name is_public w in
  (exists r rest,
     calls_of v = Ev (CreateVpc "10.0.0.0/16") r :: rest
     /\ forallb quiet rest = true
     /\ match result_of v with
        | Ok id => r = Ok id
                   /\ last (output_of v) "" = "✓ VPC created: " +++ id
        | Raise _ => True
        end)
  /\ (exists r rest,
        calls_of s = Ev (CreateSubnet vpc cidr az) r :: rest
        /\ forallb quiet rest = true
        /\ match result_of s with
           | Ok id => r = Ok id
                      /\ last (output_of s) ""
                         = "✓ Subnet created: " +++ id +++ " (" +++ cidr +++ ")"
           | Raise _ => True
           end).
Proof.
  split; [apply create_vpc_first_call | apply create_subnet_first_call].
Qed.
Lemma create_subnet_rejection vpc cidr az name is_public :
  observes (create_subnet perform vpc cidr az name is_public) (fun l out res =>
    exists r rest,
      l = Ev (CreateSubnet vpc cidr az) r :: rest
      /\ match r with
         | Raise x =>
             rest = [] /\ res = Raise x
             /\ match x with
                | ClientError e =>
                    last out "" = "Error creating subnet: "
                                    +++ str_of_client_error e
                | OtherException _ _ => True
                end
         | Ok id => match res with Ok id' => id' = id | Raise _ => True end
         end).
Proof. walk; first_call. Qed.

(** C6 (as the script behaves).  [create_subnet] checks nothing about the
    CIDR block itself: for any block, the first thing it does is the
    provider's create call with that block.  A block the provider rejects
    ends the function there: no other call follows, the provider's
    exception is raised, and a [ClientError] is printed first. *)
Theorem create_subnet_asks_the_provider (w : world)
    (vpc cidr az name : string) (is_public : bool) :
  let s := create_subnet perform vpc cidr az name is_public w in
  exists r rest,
    calls_of s = Ev (CreateSubnet vpc cidr az) r :: rest
    /\ match r with
       | Raise x =>
           rest = [] /\ result_of s = Raise x
           /\ match x with
              | ClientError e =>
                  last (output_of s) "" = "Error creating subnet: "
                                            +++ str_of_client_error e
              | OtherException _ _ => True
              end
       | Ok id => match result_of s with Ok id' => id' = id | Raise _ => True end
       end.
Proof. apply create_subnet_rejection. Qed.

Lemma create_route_table_shape vpc name igw subnet :
  observes (create_route_table perform vpc name igw subnet) (fun l out res =>
    match res with
    | Ok rt =>
        exists rest,
          l = Ev (CreateRouteTable vpc) (Ok rt)
                :: Ev (CreateTags rt [name_tag name]) (Ok tt) :: rest
          /\ map op_of rest
             = match igw with
               | Some g => [CreateRoute rt "0.0.0.0/0" g]
               | None => []
               end
               ++ match subnet with
                  | Some s => [AssociateRouteTable rt s]
                  | None => []
                  end
          /\ forallb ev_ok rest = true
    | Raise _ => True
    end).
Proof.
  walk; try exact I; unit_responses; cbn [app]; eexists; repeat split.
Qed.

(** C10.  When [create_route_table] returns a route table, the calls it
    made are: the creation of the table in the VPC; the tagging of the
    table with its Name; a single route from 0.0.0.0/0 to the internet
    gateway when, and only when, one was passed; an association with the
    subnet when, and only when, one was passed; each of them successful,
    in this order, and nothing else. *)
Theorem create_route_table_calls (w : world) (vpc name : string)
    (igw subnet : option string) (rt : string) :
  result_of (create_route_table perform vpc name igw subnet w) = Ok rt ->
  exists rest,
    calls_of (create_route_table perform vpc name igw subnet w)
      = Ev (CreateRouteTable vpc) (Ok rt)
          :: Ev (CreateTags rt [name_tag name]) (Ok tt) :: rest
    /\ map op_of rest
       = match igw with
         | Some g => [CreateRoute rt "0.0.0.0/0" g]
         | None => []
         end
         ++ match subnet with
            | Some s => [AssociateRouteTable rt s]
            | None => []
            end
    /\ forallb ev_ok rest = true.
Proof.
  intros E. pose proof (create_route_table_shape vpc name igw subnet w) as H.
  cbv beta in H. now rewrite E in H.
Qed.
(** ** The whole script *)

Lemma for_each_no_calls {X} (body : X -> M world unit) xs :
  (forall x, observes (body x) (fun l _ _ => l = [])) ->
  observes (for_each xs body) (fun l _ _ => l = []).
Proof.
  intros Hbody. induction xs as [|x xs IH]; simpl.
  - now apply observes_ret.
  - apply observes_bind. eapply observes_mono; [apply Hbody|].
    intros l o [[]|e] ->; cbv beta iota; [|reflexivity].
    eapply observes_mono; [apply IH|]. now intros l' _ _ ->.
Qed.

Ltac quiet_loop :=
  eapply observes_mono;
  [ apply for_each_no_calls; intros ?
  | cbv beta; intros ? ? [[]|?] ->; cbv beta iota ].

Lemma name_of_no_calls tags default :
  observes (@name_of world tags default) (fun l _ _ => l = []).
Proof. unfold name_of. destruct tags; now intros w. Qed.

Lemma bind_no_calls {A B} (m : M world A) (f : A -> M world B) :
  observes m (fun l _ _ => l = []) ->
  (forall a, observes (f a) (fun l _ _ => l = [])) ->
  observes (bind m f) (fun l _ _ => l = []).
Proof.
  intros Hm Hf. apply observes_bind. eapply observes_mono; [apply Hm|].
  intros l o [a|x] ->; cbv beta iota; [|reflexivity].
  eapply observes_mono; [apply Hf|]. now intros l' _ _ ->.
Qed.

Lemma print_no_calls line : observes (@print world line) (fun l _ _ => l = []).
Proof. now intros w. Qed.

Lemma when_no_calls b (m : M world unit) :
  observes m (fun l _ _ => l = []) -> observes (when b m) (fun l _ _ => l = []).
Proof. destruct b; [auto | now intros _ w]. Qed.

Ltac no_calls :=
  repeat first [ apply bind_no_calls | intros ? | apply name_of_no_calls
               | apply for_each_no_calls | apply print_no_calls
               | apply when_no_calls ].

Lemma list_vpc_resources_lookups vpc_id :
  observes (list_vpc_resources perform vpc_id)
    (fun l _ _ => forallb (fun e => is_lookup (op_of e)) l = true).
Proof.
  unfold list_vpc_resources. walk; try reflexivity.
  quiet_loop; [no_calls|walk; try reflexivity..].
  quiet_loop; [no_calls|walk; try reflexivity..].
  quiet_loop; [no_calls|walk; try reflexivity..].
Qed.
(** *** Order of the calls *)

Lemma forallb_impl {T} (p q : T -> bool) l :
  (forall x, p x = true -> q x = true) ->
  forallb p l = true -> forallb q l = true.
Proof.
  intros H. induction l as [|x l IH]; simpl; [reflexivity|].
  intros Hl. apply andb_true_iff in Hl as [Hx Hl]. now rewrite H, IH.
Qed.

Lemma ordered_skip rank kind_of floor l l' :
  forallb (fun e => match kind_of e with None => true | Some _ => false end) l
    = true ->
  ordered rank kind_of floor (l ++ l') = ordered rank kind_of floor l'.
Proof.
  induction l as [|e l IH]; simpl; [reflexivity|].
  destruct (kind_of e); [discriminate | exact IH].
Qed.

Lemma ordered_lower rank kind_of floor floor' l :
  floor <= floor' -> ordered rank kind_of floor' l = true ->
  ordered rank kind_of floor l = true.
Proof.
  revert floor floor'. induction l as [|e l IH]; simpl; intros f f' Hf;
    [reflexivity|].
  destruct (kind_of e) as [k|]; [|now apply IH].
  intros H. apply andb_true_iff in H as [H1 H2]. apply Nat.leb_le in H1.
  rewrite H2, andb_true_r. apply Nat.leb_le. lia.
Qed.

(** A stretch of deletions of one kind, each call either not a deletion or
    a deletion of that kind. *)
Lemma ordered_stretch rank kind_of k floor l l' :
  forallb (fun e => match kind_of e with
                    | None => true
                    | Some k' => (rank k' =? rank k)%nat
                    end) l = true ->
  floor <= rank k -> ordered rank kind_of (rank k) l' = true ->
  ordered rank kind_of floor (l ++ l') = true.
Proof.
  revert floor. induction l as [|e l IH]; simpl; intros f Hl Hf H'.
  - eapply ordered_lower; eauto.
  - apply andb_true_iff in Hl as [He Hl].
    destruct (kind_of e) as [k'|]; [|now apply IH].
    apply Nat.eqb_eq in He. rewrite He.
    apply andb_true_iff. split; [now apply Nat.leb_le|].
    apply IH; auto.
Qed.

Lemma runs_as_ordered rank kind_of p l r :
  (forall o x, kind_of (Ev o (Raise x)) = None) ->
  runs_as p l r ->
  forall floor, ordered rank kind_of floor p = true ->
                ordered rank kind_of floor l = true.
Proof.
  intros Hfail. induction 1 as [|e p l r He H IH|o a x p]; simpl; auto.
  - intros f. destruct (kind_of e) as [k|]; [|apply IH].
    intros Hp. apply andb_true_iff in Hp as [-> Hp]. now apply IH.
  - intros f _. now rewrite Hfail.
Qed.

Lemma teardown_plan_ordered vpc_id ss gs rts :
  ordered teardown_rank deleted_kind 0 (teardown_plan vpc_id ss gs rts) = true.
Proof.
  unfold teardown_plan, subnets_phase, igws_phase, route_tables_phase.
  cbn [app ordered deleted_kind].
  apply (ordered_stretch teardown_rank deleted_kind Subnet); auto.
  { now apply forallb_flat_map. }
  cbn [app ordered deleted_kind].
  apply (ordered_stretch teardown_rank deleted_kind InternetGateway);
    [| simpl; lia |].
  { now apply forallb_flat_map. }
  cbn [app ordered deleted_kind].
  apply (ordered_stretch teardown_rank deleted_kind RouteTable);
    [| simpl; lia | reflexivity].
  apply forallb_flat_map. intros rt. unfold delete_route_table_calls.
  now destruct (not_main rt).
Qed.

Lemma failed_call_deletes_nothing o x : deleted_kind (Ev o (Raise x)) = None.
Proof. now destruct o. Qed.

Lemma cleanup_vpc_order vpc_id :
  observes (cleanup_vpc perform vpc_id) (fun l _ _ =>
    forallb (fun e => is_teardown (op_of e)) l = true
    /\ ordered teardown_rank deleted_kind 0 l = true).
Proof.
  eapply observes_mono; [apply cleanup_vpc_follows_plan|].
  intros l _ r (ss & gs & rts & H). split.
  - apply (runs_as_ops is_teardown _ _ _ H). now apply (plan_ops is_teardown).
  - eapply runs_as_ordered;
      eauto using teardown_plan_ordered, failed_call_deletes_nothing.
Qed.

Lemma named_in_In id l : named_in id l = true <-> In id l.
Proof.
  unfold named_in. rewrite existsb_exists. split.
  - intros (x & Hx & E). apply String.eqb_eq in E. now subst.
  - intros H. exists id. split; [exact H | apply String.eqb_refl].
Qed.

Lemma dependencies_first_cons c li e l :
  dependencies_first c li (e :: l) = true <->
  (forall id, In id (refers_to (op_of e)) ->
     In id c \/ (removes (op_of e) = true /\ In id li))
  /\ dependencies_first (known_after c e) (listed_ids e ++ li) l = true.
Proof.
  cbn [dependencies_first]. rewrite andb_true_iff, forallb_forall.
  split; intros [H1 H2]; (split; [|exact H2]); intros id Hid;
    specialize (H1 id Hid).
  - apply orb_true_iff in H1 as [H1|H1]; [left; now apply named_in_In|].
    apply andb_true_iff in H1 as [Hr H1]. right. split; [exact Hr|].
    now apply named_in_In.
  - apply orb_true_iff. destruct H1 as [H1|[Hr H1]]; [left|right].
    + now apply named_in_In.
    + rewrite Hr. now apply named_in_In.
Qed.

Lemma known_after_grows c e : incl c (known_after c e).
Proof.
  unfold known_after. destruct (created_id e); [|apply incl_refl].
  intros x Hx. now right.
Qed.

Lemma known_after_incl c c' e :
  incl c c' -> incl (known_after c e) (known_after c' e).
Proof.
  unfold known_after. destruct (created_id e); [|auto].
  intros H x [->|Hx]; [now left | right; now apply H].
Qed.

(** What is known only grows. *)
Lemma dependencies_first_mono l : forall c li c' li',
  incl c c' -> incl li li' ->
  dependencies_first c li l = true -> dependencies_first c' li' l = true.
Proof.
  induction l as [|e l IH]; intros c li c' li' Hc Hli H; [reflexivity|].
  apply dependencies_first_cons in H as [Hr Hl].
  apply dependencies_first_cons. split.
  - intros id Hid. destruct (Hr id Hid) as [?|[? ?]]; [left|right]; auto.
  - eapply IH; [| |exact Hl].
    + now apply known_after_incl.
    + apply incl_app; [apply incl_appl, incl_refl | now apply incl_appr].
Qed.

Lemma dependencies_first_app l1 l2 : forall c li,
  dependencies_first c li l1 = true ->
  (forall c' li', incl c c' -> incl li li' ->
                  dependencies_first c' li' l2 = true) ->
  dependencies_first c li (l1 ++ l2) = true.
Proof.
  induction l1 as [|e l1 IH]; cbn [app]; intros c li H1 H2.
  - apply H2; apply incl_refl.
  - apply dependencies_first_cons in H1 as [Hr Hl].
    apply dependencies_first_cons. split; [exact Hr|].
    apply IH; [exact Hl|]. intros c' li' Hc Hli. apply H2.
    + eapply incl_tran; [apply known_after_grows | exact Hc].
    + eapply incl_tran; [apply incl_appr, incl_refl | exact Hli].
Qed.

Lemma dependencies_first_each l : forall c li,
  (forall e, In e l -> forall id, In id (refers_to (op_of e)) ->
     In id c \/ (removes (op_of e) = true /\ In id li)) ->
  dependencies_first c li l = true.
Proof.
  induction l as [|e l IH]; intros c li H; [reflexivity|].
  apply dependencies_first_cons. split.
  - apply H. now left.
  - apply IH. intros e' He' id Hid.
    destruct (H e' (or_intror He') id Hid) as [?|[? ?]]; [left|right].
    + now apply known_after_grows.
    + split; [assumption|]. apply in_or_app. now right.
Qed.

(** A run names what its plan names. *)
Lemma runs_as_dependencies p l r :
  runs_as p l r -> forall c li,
  dependencies_first c li p = true -> dependencies_first c li l = true.
Proof.
  induction 1 as [|e p l r He H IH|o a x p]; intros c li Hp; auto.
  - apply dependencies_first_cons in Hp as [Hr Hl].
    apply dependencies_first_cons. split; auto.
  - apply dependencies_first_cons in Hp as [Hr _].
    apply dependencies_first_cons. split; [exact Hr | reflexivity].
Qed.

(** A listing of the VPC followed by calls that remove what it listed. *)
Lemma phase_dependencies c li e calls rest :
  (forall id, In id (refers_to (op_of e)) -> In id c) ->
  created_id e = None ->
  (forall e', In e' calls ->
     removes (op_of e') = true
     /\ forall id, In id (refers_to (op_of e')) ->
          In id c \/ In id (listed_ids e)) ->
  (forall c', incl c c' -> forall li', dependencies_first c' li' rest = true) ->
  dependencies_first c li (e :: calls ++ rest) = true.
Proof.
  intros He Hc Hcalls Hrest. apply dependencies_first_cons. split.
  - intros id Hid. left. now apply He.
  - unfold known_after. rewrite Hc. apply dependencies_first_app.
    + apply dependencies_first_each. intros e' He' id Hid.
      destruct (Hcalls e' He') as [Hr Hids].
      destruct (Hids id Hid) as [?|?]; [now left | right].
      split; [exact Hr|]. apply in_or_app. now left.
    + intros c' li' Hc' _. now apply Hrest.
Qed.

Lemma teardown_plan_dependencies vpc_id ss gs rts : forall c li,
  In vpc_id c ->
  dependencies_first c li (teardown_plan vpc_id ss gs rts) = true.
Proof.
  intros c li Hv.
  unfold teardown_plan, subnets_phase, igws_phase, route_tables_phase.
  cbn [app]. apply phase_dependencies; try reflexivity.
  { intros id [<-|[]]. exact Hv. }
  { intros e He. apply in_flat_map in He as (s & Hs & [<-|[]]).
    split; [reflexivity|]. intros id [<-|[]]. right.
    now apply (in_map subnet_id). }
  intros c1 Hc1 l1. cbn [app]. apply phase_dependencies; try reflexivity.
  { intros id [<-|[]]. now apply Hc1. }
  { intros e He. apply in_flat_map in He as (g & Hg & [<-|[<-|[]]]);
      (split; [reflexivity|]); cbn [refers_to op_of].
    - intros id [<-|[<-|[]]]; [left; now apply Hc1 | right].
      now apply (in_map internet_gateway_id).
    - intros id [<-|[]]. right. now apply (in_map internet_gateway_id). }
  intros c2 Hc2 l2. cbn [app]. apply phase_dependencies; try reflexivity.
  { intros id [<-|[]]. now apply Hc2, Hc1. }
  { intros e He. apply in_flat_map in He as (rt & Hrt & He).
    unfold delete_route_table_calls in He.
    destruct (not_main rt); [|destruct He]. destruct He as [<-|[]].
    split; [reflexivity|]. intros id [<-|[]]. right.
    now apply (in_map route_table_id). }
  intros c3 Hc3 l3. apply dependencies_first_cons. split; [|reflexivity].
  intros id [<-|[]]. left. now apply Hc3, Hc2, Hc1.
Qed.

Lemma cleanup_vpc_dependencies vpc_id :
  observes (cleanup_vpc perform vpc_id) (fun l _ _ =>
    forall c li, In vpc_id c -> dependencies_first c li l = true).
Proof.
  eapply observes_mono; [apply cleanup_vpc_follows_plan|].
  intros l _ r (ss & gs & rts & H) c li Hv.
  apply (runs_as_dependencies _ _ _ H).
  now apply teardown_plan_dependencies.
Qed.

Ltac names_the_vpc :=
  intros ? ? ?; cbn [app];
  repeat (apply dependencies_first_cons;
          split; [ cbn [refers_to op_of]; intros ? [<-|[]]; now left
                 | cbn [known_after created_id] ]);
  reflexivity.

Lemma list_vpc_resources_dependencies vpc_id :
  observes (list_vpc_resources perform vpc_id) (fun l _ _ =>
    forall c li, In vpc_id c -> dependencies_first c li l = true).
Proof.
  unfold list_vpc_resources. walk; try names_the_vpc.
  quiet_loop; [no_calls|walk; try names_the_vpc..].
  quiet_loop; [no_calls|walk; try names_the_vpc..].
  quiet_loop; [no_calls|walk; try names_the_vpc..].
Qed.

Lemma teardown_creates_nothing l :
  forallb (fun e => is_teardown (op_of e)) l = true ->
  forallb (fun e => match created_kind e with None => true | Some _ => false end) l
    = true.
Proof.
  apply forallb_impl. intros [o r] H. unfold created_kind.
  destruct (ev_ok (Ev o r)); [|reflexivity].
  now destruct o.
Qed.

Lemma lookups_are_teardown l :
  forallb (fun e => is_lookup (op_of e)) l = true ->
  forallb (fun e => is_teardown (op_of e)) l = true.
Proof. apply forallb_impl. intros [o r] H. now destruct o. Qed.

Lemma lookups_delete_nothing l :
  forallb (fun e => is_lookup (op_of e)) l = true ->
  forallb (fun e => match deleted_kind e with None => true | Some _ => false end) l
    = true.
Proof. apply forallb_impl. intros [o r] H. now destruct o. Qed.

Lemma dependencies_first_step c li e l :
  (forall id, In id (refers_to (op_of e)) -> In id c) ->
  dependencies_first (known_after c e) (listed_ids e ++ li) l = true ->
  dependencies_first c li (e :: l) = true.
Proof.
  intros H Hl. apply dependencies_first_cons. split; [|exact Hl].
  intros id Hid. left. now apply H.
Qed.

Lemma ordered_inert rank kind_of floor l :
  forallb (fun e => match kind_of e with None => true | Some _ => false end) l
    = true ->
  ordered rank kind_of floor l = true.
Proof.
  intros H. rewrite <- (app_nil_r l). now rewrite ordered_skip.
Qed.

Ltac known_ids :=
  cbn [refers_to op_of In]; intros ? ?;
  repeat match goal with
         | H : _ \/ _ |- _ => destruct H
         | H : False |- _ => destruct H
         end; subst; cbn [In]; auto 20.

Ltac by_dependencies :=
  lazymatch goal with
  | H : forall c li, In _ c -> dependencies_first c li ?l = true
    |- dependencies_first _ _ ?l = true => apply H; cbn [In]; auto 20
  end.

Ltac order_leaf :=
  cbn [app]; rewrite ?app_nil_r; split; [|split];
  [ repeat (apply dependencies_first_step;
            [known_ids | cbn [known_after created_id listed_ids app]]);
    first [ reflexivity
          | by_dependencies
          | apply dependencies_first_app;
            [ by_dependencies
            | intros ? ? ? _;
              lazymatch goal with
              | Hc : incl _ ?c,
                H : forall c li, In _ c -> dependencies_first c li ?l = true
                |- dependencies_first ?c _ ?l = true =>
                  apply H, Hc; cbn [In]; auto 20
              end ] ]
  | cbn [ordered created_kind ev_ok op_of kind_created_by creation_rank
         Nat.leb andb];
    rewrite ?ordered_skip
      by auto using lookups_are_teardown, teardown_creates_nothing;
    first [ reflexivity
          | apply ordered_inert;
            auto using lookups_are_teardown, teardown_creates_nothing ]
  | cbn [ordered deleted_kind];
    rewrite ?ordered_skip by auto using lookups_delete_nothing;
    first [ reflexivity
          | assumption
          | apply ordered_inert; auto using lookups_delete_nothing ] ].

Lemma list_vpc_resources_order vpc_id :
  observes (list_vpc_resources perform vpc_id) (fun l _ _ =>
    forallb (fun e => is_lookup (op_of e)) l = true
    /\ forall c li, In vpc_id c -> dependencies_first c li l = true).
Proof.
  intros w. split.
  - apply list_vpc_resources_lookups.
  - apply list_vpc_resources_dependencies.
Qed.

Lemma cleanup_vpc_order_in_main vpc_id :
  observes (cleanup_vpc perform vpc_id) (fun l _ _ =>
    (forallb (fun e => is_teardown (op_of e)) l = true
     /\ ordered teardown_rank deleted_kind 0 l = true)
    /\ forall c li, In vpc_id c -> dependencies_first c li l = true).
Proof.
  intros w. split.
  - apply cleanup_vpc_order.
  - apply cleanup_vpc_dependencies.
Qed.

Lemma main_order response :
  observes (main perform response) (fun l _ _ =>
    dependencies_first [] [] l = true
    /\ ordered creation_rank created_kind 0 l = true
    /\ ordered teardown_rank deleted_kind 0 l = true).
Proof.
  unfold main.
  repeat first
    [ step_more
    | lazymatch goal with
      | |- observes (list_vpc_resources _ _) _ =>
          eapply observes_mono;
          [ apply list_vpc_resources_order
          | cbv beta; intros ? ? [[]|?] [? ?]; cbv beta iota ]
      | |- observes (cleanup_vpc _ _) _ =>
          eapply observes_mono;
          [ apply cleanup_vpc_order_in_main
          | cbv beta; intros ? ? [[]|?] [[? ?] ?]; cbv beta iota ]
      | |- observes (create_vpc _) _ => unfold create_vpc
      | |- observes (create_internet_gateway _ _) _ =>
          unfold create_internet_gateway
      | |- observes (create_subnet _ _ _ _ _ _) _ => unfold create_subnet
      | |- observes (create_route_table _ _ _ _ _) _ =>
          unfold create_route_table
      | |- observes (main_handler _ _) _ => unfold main_handler
      | |- observes (when ?b _) _ =>
          apply observes_when; intros ?; try discriminate; cbv beta iota
      | |- observes (if ?c then _ else _) _ => destruct c eqn:?
      end ].
  all: order_leaf.
Qed.

(** C2 (as the script behaves).  The script has no dependency graph: the
    order is the order of its statements.  In every run of [main], every
    identifier a call names was returned earlier in the run: by a
    successful create call or, for the calls of the teardown that detach
    or delete, by one of its listings.  The resources are created in the
    order VPC, internet gateway, subnets, route tables, and they are
    deleted in the order subnets, internet gateways, route tables, VPC.
    [cleanup_vpc] on its own deletes in that same order, and names only
    the VPC it was given and what its listings returned. *)
Theorem provisioning_and_teardown_order (w : world) (response vpc_id : string) :
  let calls := calls_of (main perform response w) in
  dependencies_first [] [] calls = true
  /\ ordered creation_rank created_kind 0 calls = true
  /\ ordered teardown_rank deleted_kind 0 calls = true
  /\ ordered teardown_rank deleted_kind 0
             (calls_of (cleanup_vpc perform vpc_id w)) = true
  /\ dependencies_first [vpc_id] []
                        (calls_of (cleanup_vpc perform vpc_id w)) = true.
Proof.
  cbv zeta. rewrite <- !and_assoc. split; [split|].
  - rewrite !and_assoc. apply main_order.
  - apply cleanup_vpc_order.
  - apply cleanup_vpc_dependencies. now left.
Qed.

(** ** More about teardown *)

Lemma runs_as_returns p l : runs_as p l (Ok tt) -> l = p.
Proof.
  intros H. remember (Ok tt) as r eqn:E.
  induction H; try discriminate; [reflexivity | now rewrite IHruns_as].
Qed.

Ltac last_line := rewrite ?app_nil_r; repeat rewrite app_assoc; apply last_last.

Lemma observes_anything {A} (m : M world A) : observes m (fun _ _ _ => True).
Proof. now intros w. Qed.

Ltac past_loop :=
  eapply observes_mono;
  [ apply observes_anything | cbv beta; intros ? ? [[]|?] _; cbv beta iota ].

Lemma cleanup_vpc_last_line vpc_id :
  observes (cleanup_vpc perform vpc_id) (fun _ out r =>
    match r with
    | Ok _ => last out "" = nl +++ "✓ Cleanup complete!"
    | Raise _ => True
    end).
Proof.
  unfold cleanup_vpc. repeat step_more; try exact I.
  past_loop; repeat step_more; try exact I.
  past_loop; repeat step_more; try exact I.
  past_loop; repeat step_more; try exact I.
  last_line.
Qed.

(** X1.  When [cleanup_vpc] returns, it went through the whole teardown:
    the three listings, a successful delete of every listed subnet, a
    successful detach and delete of every listed gateway, a successful
    delete of every listed route table without a Main association, and the
    successful delete of the VPC; its last line says the cleanup is
    complete. *)
Theorem cleanup_returns_when_all_deleted (w : world) (vpc_id : string) :
  result_of (cleanup_vpc perform vpc_id w) = Ok tt ->
  (exists ss gs rts,
     calls_of (cleanup_vpc perform vpc_id w) = teardown_plan vpc_id ss gs rts)
  /\ last (output_of (cleanup_vpc perform vpc_id w)) ""
     = nl +++ "✓ Cleanup complete!".
Proof.
  intros E. split.
  - destruct (cleanup_vpc_follows_plan vpc_id w) as (ss & gs & rts & H).
    rewrite E in H. exists ss, gs, rts. now apply runs_as_returns.
  - pose proof (cleanup_vpc_last_line vpc_id w) as H. cbv beta in H.
    now rewrite E in H.
Qed.

(** X2.  [cleanup_vpc] only lists, detaches and deletes: it never creates,
    tags, modifies, attaches or associates anything, and its listings, its
    detachments and its VPC delete all name the VPC it was given. *)
Theorem cleanup_only_tears_down (w : world) (vpc_id : string) :
  forallb (fun e => teardown_call_for vpc_id (op_of e))
          (calls_of (cleanup_vpc perform vpc_id w)) = true.
Proof.
  destruct (cleanup_vpc_follows_plan vpc_id w) as (ss & gs & rts & H).
  apply (runs_as_ops (teardown_call_for vpc_id) _ _ _ H).
  apply (plan_ops (teardown_call_for vpc_id)); intros; simpl;
    auto using String.eqb_refl.
Qed.

Lemma plan_subnet_delete vpc_id ss gs rts pre e post :
  teardown_plan vpc_id ss gs rts = pre ++ e :: post ->
  is_delete_subnet e = true ->
  In (Ev (DescribeSubnets vpc_id) (Ok ss)) pre
  /\ exists s, In s ss /\ In e (delete_subnet_calls s).
Proof.
  intros E He.
  assert (E' : [Ev (DescribeSubnets vpc_id) (Ok ss)]
               ++ flat_map delete_subnet_calls ss
               ++ (igws_phase vpc_id gs ++ route_tables_phase vpc_id rts
                     ++ [Ev (DeleteVpc vpc_id) (Ok tt)])
               = pre ++ e :: post) by (rewrite <- E; reflexivity).
  apply split_in_segment with (p := is_delete_subnet) in E'; auto.
  - destruct E' as (q1 & q2 & E1 & -> & _). split; [now left|].
    apply in_flat_map. rewrite E1. apply in_or_app. right. now left.
  - unfold igws_phase, route_tables_phase. rewrite !forallb_app. simpl.
    rewrite !forallb_flat_map; auto.
    now apply delete_route_table_calls_quiet.
Qed.

Lemma plan_gateway_removal vpc_id ss gs rts pre e post :
  teardown_plan vpc_id ss gs rts = pre ++ e :: post ->
  is_gateway_removal e = true ->
  In (Ev (DescribeInternetGateways vpc_id) (Ok gs)) pre
  /\ exists g, In g gs /\ In e (delete_igw_calls vpc_id g).
Proof.
  intros E He.
  assert (E' : (subnets_phase vpc_id ss
                  ++ [Ev (DescribeInternetGateways vpc_id) (Ok gs)])
               ++ flat_map (delete_igw_calls vpc_id) gs
               ++ (route_tables_phase vpc_id rts
                     ++ [Ev (DeleteVpc vpc_id) (Ok tt)])
               = pre ++ e :: post).
  { rewrite <- E. unfold teardown_plan, igws_phase.
    now rewrite <- !app_assoc. }
  apply split_in_segment with (p := is_gateway_removal) in E'; auto.
  - destruct E' as (q1 & q2 & E1 & -> & _). split.
    + apply in_or_app. left. apply in_or_app. right. now left.
    + apply in_flat_map. rewrite E1. apply in_or_app. right. now left.
  - rewrite forallb_app. unfold subnets_phase. simpl.
    now rewrite forallb_flat_map.
  - rewrite forallb_app. unfold route_tables_phase. simpl.
    rewrite forallb_flat_map; auto.
    now apply delete_route_table_calls_quiet.
Qed.

Lemma plan_route_table_delete vpc_id ss gs rts pre e post :
  teardown_plan vpc_id ss gs rts = pre ++ e :: post ->
  is_delete_route_table e = true ->
  In (Ev (DescribeRouteTables vpc_id) (Ok rts)) pre
  /\ exists rt, In rt rts /\ In e (delete_route_table_calls rt).
Proof.
  intros E He.
  assert (E' : (subnets_phase vpc_id ss ++ igws_phase vpc_id gs
                  ++ [Ev (DescribeRouteTables vpc_id) (Ok rts)])
               ++ flat_map delete_route_table_calls rts
               ++ [Ev (DeleteVpc vpc_id) (Ok tt)]
               = pre ++ e :: post).
  { rewrite <- E. unfold teardown_plan, route_tables_phase.
    now rewrite <- !app_assoc. }
  apply split_in_segment with (p := is_delete_route_table) in E'; auto.
  - destruct E' as (q1 & q2 & E1 & -> & _). split.
    + apply in_or_app. left. apply in_or_app. right.
      apply in_or_app. right. now left.
    + apply in_flat_map. rewrite E1. apply in_or_app. right. now left.
  - rewrite !forallb_app. unfold subnets_phase, igws_phase. simpl.
    now rewrite !forallb_flat_map.
Qed.

(** X3.  [cleanup_vpc] deletes only what the provider listed under the VPC
    in the same run: a subnet delete names a subnet of the subnet listing,
    a gateway detach or delete names a gateway of the gateway listing, and
    a route-table delete names a listed route table that has no Main
    association. *)
Theorem cleanup_deletes_only_listed (w : world) (vpc_id : string) (e : event) :
  In e (calls_of (cleanup_vpc perform vpc_id w)) ->
  match op_of e with
  | DeleteSubnet s =>
      exists ss,
        In (Ev (DescribeSubnets vpc_id) (Ok ss))
           (calls_of (cleanup_vpc perform vpc_id w))
        /\ In s (map subnet_id ss)
  | DetachInternetGateway _ g | DeleteInternetGateway g =>
      exists gs,
        In (Ev (DescribeInternetGateways vpc_id) (Ok gs))
           (calls_of (cleanup_vpc perform vpc_id w))
        /\ In g (map internet_gateway_id gs)
  | DeleteRouteTable t =>
      exists rts rt,
        In (Ev (DescribeRouteTables vpc_id) (Ok rts))
           (calls_of (cleanup_vpc perform vpc_id w))
        /\ In rt rts /\ route_table_id rt = t /\ not_main rt = true
  | _ => True
  end.
Proof.
  intros Hin.
  destruct (cleanup_vpc_follows_plan vpc_id w) as (ss & gs & rts & H).
  destruct (runs_as_in _ _ _ _ H Hin) as (pre & e' & post & Ep & Hop & Hpre).
  destruct (op_of e) eqn:Ee; try exact I.
  - apply plan_subnet_delete in Ep as (Hl & s0 & Hs0 & [<-|[]]);
      [|unfold is_delete_subnet; now rewrite Hop].
    simpl in Hop. injection Hop as <-.
    exists ss. split; [now apply Hpre | now apply in_map].
  - apply plan_gateway_removal in Ep as (Hl & g0 & Hg0 & [<-|[<-|[]]]);
      [| |unfold is_gateway_removal; now rewrite Hop]; try discriminate.
    simpl in Hop. injection Hop as _ <-.
    exists gs. split; [now apply Hpre | now apply in_map].
  - apply plan_gateway_removal in Ep as (Hl & g0 & Hg0 & [<-|[<-|[]]]);
      [| |unfold is_gateway_removal; now rewrite Hop]; try discriminate.
    simpl in Hop. injection Hop as <-.
    exists gs. split; [now apply Hpre | now apply in_map].
  - apply plan_route_table_delete in Ep as (Hl & rt & Hrt & He');
      [|unfold is_delete_route_table; now rewrite Hop].
    unfold delete_route_table_calls in He'.
    destruct (not_main rt) eqn:Hnm; [|now destruct He'].
    destruct He' as [<-|[]]. simpl in Hop. injection Hop as <-.
    exists rts, rt. repeat split; auto.
Qed.

(** ** More about provisioning *)

Ltac shape := try exact I; unit_responses; cbn [app]; repeat split.

Lemma create_vpc_shape :
  observes (create_vpc perform) (fun l out res =>
    match res with
    | Ok vpc =>
        l = [Ev (CreateVpc "10.0.0.0/16") (Ok vpc);
             Ev (CreateTags vpc [name_tag "tutorial-vpc"]) (Ok tt);
             Ev (WaitUntilVpcAvailable vpc) (Ok tt);
             Ev (ModifyVpcAttribute vpc true) (Ok tt)]
        /\ out = ["Creating VPC..."; "✓ VPC created: " +++ vpc]
    | Raise _ => True
    end).
Proof. walk; shape. Qed.

(** X4.  When [create_vpc] returns a VPC, it made exactly four calls, all
    successful and in this order: create the VPC with block 10.0.0.0/16,
    tag it Name=tutorial-vpc, wait until it is available, enable DNS
    hostnames on it; and it printed the announcement and the identifier. *)
Theorem create_vpc_calls (w : world) (vpc : string) :
  result_of (create_vpc perform w) = Ok vpc ->
  calls_of (create_vpc perform w)
  = [Ev (CreateVpc "10.0.0.0/16") (Ok vpc);
     Ev (CreateTags vpc [name_tag "tutorial-vpc"]) (Ok tt);
     Ev (WaitUntilVpcAvailable vpc) (Ok tt);
     Ev (ModifyVpcAttribute vpc true) (Ok tt)]
  /\ output_of (create_vpc perform w)
     = ["Creating VPC..."; "✓ VPC created: " +++ vpc].
Proof.
  intros E. pose proof (create_vpc_shape w) as H. cbv beta in H.
  now rewrite E in H.
Qed.

Lemma create_internet_gateway_shape vpc :
  observes (create_internet_gateway perform vpc) (fun l out res =>
    match res with
    | Ok igw =>
        l = [Ev CreateInternetGateway (Ok igw);
             Ev (CreateTags igw [name_tag "tutorial-igw"]) (Ok tt);
             Ev (AttachInternetGateway vpc igw) (Ok tt)]
        /\ out = [nl +++ "Creating Internet Gateway...";
                  "✓ Internet Gateway created and attached: " +++ igw]
    | Raise _ => True
    end).
Proof. walk; shape. Qed.

(** X5.  When [create_internet_gateway] returns a gateway, it made exactly
    three calls, all successful and in this order: create the gateway, tag
    it Name=tutorial-igw, attach it to the VPC it was given; the gateway
    returned is the one attached. *)
Theorem create_internet_gateway_calls (w : world) (vpc igw : string) :
  result_of (create_internet_gateway perform vpc w) = Ok igw ->
  calls_of (create_internet_gateway perform vpc w)
  = [Ev CreateInternetGateway (Ok igw);
     Ev (CreateTags igw [name_tag "tutorial-igw"]) (Ok tt);
     Ev (AttachInternetGateway vpc igw) (Ok tt)]
  /\ output_of (create_internet_gateway perform vpc w)
     = [nl +++ "Creating Internet Gateway...";
        "✓ Internet Gateway created and attached: " +++ igw].
Proof.
  intros E. pose proof (create_internet_gateway_shape vpc w) as H.
  cbv beta in H. now rewrite E in H.
Qed.

Lemma create_subnet_shape vpc cidr az name is_public :
  observes (create_subnet perform vpc cidr az name is_public) (fun l out res =>
    match res with
    | Ok subnet =>
        l = Ev (CreateSubnet vpc cidr az) (Ok subnet)
              :: Ev (CreateTags subnet [name_tag name]) (Ok tt)
              :: (if is_public
                  then [Ev (ModifySubnetAttribute subnet true) (Ok tt)]
                  else [])
    | Raise _ => True
    end).
Proof. walk; subst; shape. Qed.

(** X6.  When [create_subnet] returns a subnet, it created it in the given
    VPC with the given block and zone and tagged it with the given Name;
    it then switched on public addresses at launch for that subnet when,
    and only when, the subnet was requested as public.  These are all its
    calls. *)
Theorem create_subnet_calls (w : world) (vpc cidr az name : string)
    (is_public : bool) (subnet : string) :
  result_of (create_subnet perform vpc cidr az name is_public w) = Ok subnet ->
  calls_of (create_subnet perform vpc cidr az name is_public w)
  = Ev (CreateSubnet vpc cidr az) (Ok subnet)
      :: Ev (CreateTags subnet [name_tag name]) (Ok tt)
      :: (if is_public
          then [Ev (ModifySubnetAttribute subnet true) (Ok tt)]
          else []).
Proof.
  intros E. pose proof (create_subnet_shape vpc cidr az name is_public w) as H.
  cbv beta in H. now rewrite E in H.
Qed.

Lemma create_vpc_reported :
  observes (create_vpc perform) (fun _ out r =>
    reported "Creating VPC..." "Error creating VPC: " out r).
Proof. walk; shape. Qed.

Lemma create_internet_gateway_reported vpc :
  observes (create_internet_gateway perform vpc) (fun _ out r =>
    reported (nl +++ "Creating Internet Gateway...")
             "Error creating Internet Gateway: " out r).
Proof. walk; shape. Qed.

Lemma create_subnet_reported vpc cidr az name is_public :
  observes (create_subnet perform vpc cidr az name is_public) (fun _ out r =>
    reported (nl +++ "Creating " +++ (if is_public then "public" else "private")
                 +++ " subnet: " +++ name +++ "...")
             "Error creating subnet: " out r).
Proof. walk; shape. Qed.

Lemma create_route_table_reported vpc name igw subnet :
  observes (create_route_table perform vpc name igw subnet) (fun _ out r =>
    match r with
    | Raise (ClientError e) =>
        last out "" = "Error creating route table: " +++ str_of_client_error e
    | Raise (OtherException _ _) =>
        forallb (fun line => negb (String.prefix "Error" line)) out = true
    | Ok _ => True
    end).
Proof. walk; shape. Qed.

(** X7.  A create function reports a [ClientError] once, under its own
    label, and raises it again; an exception of any other kind (a waiter
    that gave up, a lost connection) goes through without the function
    printing an error line. *)
Theorem create_errors_reported (w : world) (vpc cidr az name : string)
    (is_public : bool) (igw subnet : option string) :
  reported "Creating VPC..." "Error creating VPC: "
           (output_of (create_vpc perform w)) (result_of (create_vpc perform w))
  /\ reported (nl +++ "Creating Internet Gateway...")
              "Error creating Internet Gateway: "
              (output_of (create_internet_gateway perform vpc w))
              (result_of (create_internet_gateway perform vpc w))
  /\ reported (nl +++ "Creating " +++ (if is_public then "public" else "private")
                  +++ " subnet: " +++ name +++ "...")
              "Error creating subnet: "
              (output_of (create_subnet perform vpc cidr az name is_public w))
              (result_of (create_subnet perform vpc cidr az name is_public w))
  /\ match result_of (create_route_table perform vpc name igw subnet w) with
     | Raise (ClientError e) =>
         last (output_of (create_route_table perform vpc name igw subnet w)) ""
         = "Error creating route table: " +++ str_of_client_error e
     | Raise (OtherException _ _) =>
         forallb (fun line => negb (String.prefix "Error" line))
                 (output_of (create_route_table perform vpc name igw subnet w))
         = true
     | Ok _ => True
     end.
Proof.
  split; [apply create_vpc_reported|].
  split; [apply create_internet_gateway_reported|].
  split; [apply create_subnet_reported | apply create_route_table_reported].
Qed.

Lemma create_vpc_builds :
  observes (create_vpc perform) (fun l _ _ => forallb builds l = true).
Proof. walk; reflexivity. Qed.

Lemma create_internet_gateway_builds vpc :
  observes (create_internet_gateway perform vpc)
           (fun l _ _ => forallb builds l = true).
Proof. walk; reflexivity. Qed.

Lemma create_subnet_builds vpc cidr az name is_public :
  observes (create_subnet perform vpc cidr az name is_public)
           (fun l _ _ => forallb builds l = true).
Proof. walk; reflexivity. Qed.

Lemma create_route_table_builds vpc name igw subnet :
  observes (create_route_table perform vpc name igw subnet)
           (fun l _ _ => forallb builds l = true).
Proof. walk; reflexivity. Qed.

(** X8.  No create function undoes anything: whether it returns or raises,
    it has issued no listing, no detachment and no deletion.  What it
    created before a failure is left on the provider. *)
Theorem create_never_rolls_back (w : world) (vpc cidr az name : string)
    (is_public : bool) (igw subnet : option string) :
  forallb builds (calls_of (create_vpc perform w)) = true
  /\ forallb builds (calls_of (create_internet_gateway perform vpc w)) = true
  /\ forallb builds
             (calls_of (create_subnet perform vpc cidr az name is_public w)) = true
  /\ forallb builds
             (calls_of (create_route_table perform vpc name igw subnet w)) = true.
Proof.
  split; [apply create_vpc_builds|].
  split; [apply create_internet_gateway_builds|].
  split; [apply create_subnet_builds | apply create_route_table_builds].
Qed.

(** ** More about the summary *)

Lemma for_each_tagged {X} (tags : X -> option (list tag))
    (body : X -> M world unit) xs :
  (forall x, observes (body x) (fun l _ r =>
     l = [] /\ match r with
               | Ok _ => has_tags (tags x) = true
               | Raise e => e = not_iterable
               end)) ->
  observes (for_each xs body) (fun l _ r =>
    l = [] /\ match r with
              | Ok _ => forallb (fun x => has_tags (tags x)) xs = true
              | Raise e => e = not_iterable
              end).
Proof.
  intros Hbody. induction xs as [|x xs IH]; simpl.
  - now apply observes_ret.
  - apply observes_bind. eapply observes_mono; [apply Hbody|].
    intros l o [[]|e] [-> H]; cbv beta iota; [|now split].
    eapply observes_mono; [apply IH|]. cbv beta.
    intros l' _ [[]|e] [-> H']; split; auto. now rewrite H, H'.
Qed.

Lemma named_body_tagged {A} (tags : option (list tag)) default
    (rest : string -> M world A) :
  (forall name, observes (rest name) (fun l _ r =>
     l = [] /\ match r with Ok _ => True | Raise e => e = not_iterable end)) ->
  observes (bind (name_of tags default) rest) (fun l _ r =>
    l = [] /\ match r with
              | Ok _ => has_tags tags = true
              | Raise e => e = not_iterable
              end).
Proof.
  intros Hrest. apply observes_bind. unfold name_of.
  destruct tags as [ts|]; [apply observes_ret | apply observes_raise].
  - eapply observes_mono; [apply Hrest|]. cbv beta.
    intros l _ [a|e] [-> H]; split; auto.
  - now split.
Qed.

Lemma print_harmless line :
  observes (@print world line) (fun l _ r =>
    l = [] /\ match r with Ok _ => True | Raise e => e = not_iterable end).
Proof. now intros w. Qed.

Lemma routes_loop_harmless (rs : list route) body :
  (forall x, observes (body x) (fun l _ r => l = [] /\ r = Ok tt)) ->
  observes (for_each rs body) (fun l _ r =>
    l = [] /\ match r with Ok _ => True | Raise e => e = not_iterable end).
Proof.
  intros Hbody. induction rs as [|x rs IH]; simpl.
  - now apply observes_ret.
  - apply observes_bind. eapply observes_mono; [apply Hbody|].
    intros l o r [-> ->]. cbv beta iota.
    eapply observes_mono; [apply IH|]. cbv beta. now intros l' _ r' [-> H'].
Qed.

Ltac tagged_loop f :=
  eapply observes_mono;
  [ apply for_each_tagged with (tags := f); intros ?
  | cbv beta; intros ? ? [[]|?] [-> ?]; cbv beta iota ].

Lemma bind_harmless {A B} (m : M world A) (f : A -> M world B) :
  observes m (fun l _ r =>
    l = [] /\ match r with Ok _ => True | Raise e => e = not_iterable end) ->
  (forall a, observes (f a) (fun l _ r =>
    l = [] /\ match r with Ok _ => True | Raise e => e = not_iterable end)) ->
  observes (bind m f) (fun l _ r =>
    l = [] /\ match r with Ok _ => True | Raise e => e = not_iterable end).
Proof.
  intros Hm Hf. apply observes_bind. eapply observes_mono; [apply Hm|].
  intros l o [a|x] [-> H]; cbv beta iota; [|now split].
  eapply observes_mono; [apply Hf|]. now intros l' _ r' [-> H'].
Qed.

Lemma when_print_returns b line :
  observes (when b (@print world line)) (fun l _ r => l = [] /\ r = Ok tt).
Proof. destruct b; now intros w. Qed.

Ltac summary_leaf :=
  cbn [app map op_of]; split;
  [ first [ left; solve [stops]
          | right; split; [assumption | reflexivity]
          | do 4 eexists; repeat split; eassumption ]
  | eexists; reflexivity ].

Lemma list_vpc_resources_shape vpc_id :
  observes (list_vpc_resources perform vpc_id) (fun l _ r =>
    match r with
    | Ok _ =>
        exists vpc ss rts gs,
          l = [Ev (DescribeVpc vpc_id) (Ok vpc);
               Ev (DescribeSubnets vpc_id) (Ok ss);
               Ev (DescribeRouteTables vpc_id) (Ok rts);
               Ev (DescribeInternetGateways vpc_id) (Ok gs)]
          /\ forallb (fun s => has_tags (subnet_tags s)) ss = true
          /\ forallb (fun t => has_tags (route_table_tags t)) rts = true
          /\ forallb (fun g => has_tags (internet_gateway_tags g)) gs = true
    | Raise x =>
        (fail_stop l (@Raise unit x))
        \/ (x = not_iterable /\ forallb ev_ok l = true)
    end
    /\ exists rest, map op_of l ++ rest = summary_ops vpc_id).
Proof.
  unfold list_vpc_resources. walk; try solve [summary_leaf].
  tagged_loop subnet_tags;
    [ apply named_body_tagged; intros; apply print_harmless
    | walk; try solve [summary_leaf].. ].
  tagged_loop route_table_tags;
    [ apply named_body_tagged; intros; apply bind_harmless;
      [ apply print_harmless
      | intros; apply routes_loop_harmless; intros; apply when_print_returns ]
    | walk; try solve [summary_leaf].. ].
  tagged_loop internet_gateway_tags;
    [ apply named_body_tagged; intros; apply print_harmless
    | try solve [summary_leaf].. ].
Qed.

(** X9.  [list_vpc_resources] only reads: its calls are the four listings
    (the VPC, its subnets, its route tables, its gateways), in this order,
    or a beginning of them. *)
Theorem summary_only_lists (w : world) (vpc_id : string) :
  exists rest,
    map op_of (calls_of (list_vpc_resources perform vpc_id w)) ++ rest
    = summary_ops vpc_id.
Proof. apply list_vpc_resources_shape. Qed.

(** X10.  When [list_vpc_resources] returns, the four listings all
    succeeded and every subnet, route table and gateway listed came with a
    tag set. *)
Theorem summary_returns_when_all_tagged (w : world) (vpc_id : string) :
  result_of (list_vpc_resources perform vpc_id w) = Ok tt ->
  exists vpc ss rts gs,
    calls_of (list_vpc_resources perform vpc_id w)
    = [Ev (DescribeVpc vpc_id) (Ok vpc);
       Ev (DescribeSubnets vpc_id) (Ok ss);
       Ev (DescribeRouteTables vpc_id) (Ok rts);
       Ev (DescribeInternetGateways vpc_id) (Ok gs)]
    /\ forallb (fun s => has_tags (subnet_tags s)) ss = true
    /\ forallb (fun t => has_tags (route_table_tags t)) rts = true
    /\ forallb (fun g => has_tags (internet_gateway_tags g)) gs = true.
Proof.
  intros E. destruct (list_vpc_resources_shape vpc_id w) as [H _].
  now rewrite E in H.
Qed.

(** X11.  [list_vpc_resources] raises in two ways only: a listing failed,
    it is then the last call and its exception is the one raised; or every
    call succeeded and a listed resource had no tag set, and the exception
    is the [TypeError] of iterating [None]. *)
Theorem summary_failures (w : world) (vpc_id : string) (x : exn) :
  result_of (list_vpc_resources perform vpc_id w) = Raise x ->
  (exists pre o,
     calls_of (list_vpc_resources perform vpc_id w) = pre ++ [Ev o (Raise x)]
     /\ forallb ev_ok pre = true)
  \/ (x = not_iterable
      /\ forallb ev_ok (calls_of (list_vpc_resources perform vpc_id w)) = true).
Proof.
  intros E. destruct (list_vpc_resources_shape vpc_id w) as [H _].
  now rewrite E in H.
Qed.

Lemma for_each_lines {X} (f : X -> list string)
    (body : X -> M world unit) xs :
  (forall x, observes (body x) (fun l out r =>
     l = [] /\ match r with Ok _ => out = f x | Raise _ => True end)) ->
  observes (for_each xs body) (fun l out r =>
    l = [] /\ match r with Ok _ => out = flat_map f xs | Raise _ => True end).
Proof.
  intros Hbody. induction xs as [|x xs IH]; simpl.
  - now apply observes_ret.
  - apply observes_bind. eapply observes_mono; [apply Hbody|].
    intros l o [[]|e] [-> H]; cbv beta iota; [|now split].
    eapply observes_mono; [apply IH|]. cbv beta.
    intros l' o' [[]|e] [-> H']; split; auto. now rewrite H, H'.
Qed.

Lemma flat_map_single {X Y} (g : X -> Y) xs :
  flat_map (fun x => [g x]) xs = map g xs.
Proof. induction xs as [|x xs IH]; simpl; [reflexivity | now rewrite IH]. Qed.

Lemma routes_loop_lines (keep : route -> bool) (line : route -> string) rs :
  observes (for_each rs (fun r => when (keep r) (@print world (line r))))
    (fun l out r => l = [] /\ out = map line (filter keep rs) /\ r = Ok tt).
Proof.
  induction rs as [|x rs IH]; simpl.
  - now apply observes_ret.
  - apply observes_bind.
    apply (observes_mono _ (fun l out r =>
             l = [] /\ out = (if keep x then [line x] else []) /\ r = Ok tt)).
    { destruct (keep x); now intros w. }
    intros l o r (-> & -> & ->). cbv beta iota.
    eapply observes_mono; [apply IH|]. cbv beta.
    intros l' o' r' (-> & -> & ->). now destruct (keep x).
Qed.

Lemma subnet_body_lines (s : subnet_data) :
  observes (bind (name_of (subnet_tags s) "N/A") (fun name =>
              @print world ("  - " +++ subnet_id s +++ ": " +++ name +++ " ("
                              +++ subnet_cidr_block s +++ ") in "
                              +++ subnet_availability_zone s)))
    (fun l out r =>
       l = [] /\ match r with Ok _ => out = [subnet_line s] | Raise _ => True end).
Proof.
  unfold name_of, subnet_line. destruct (subnet_tags s); now intros w.
Qed.

Lemma gateway_body_lines (g : internet_gateway_data) :
  observes (bind (name_of (internet_gateway_tags g) "N/A") (fun name =>
              @print world ("  - " +++ internet_gateway_id g +++ ": " +++ name)))
    (fun l out r =>
       l = [] /\ match r with Ok _ => out = [gateway_line g] | Raise _ => True end).
Proof.
  unfold name_of, gateway_line. destruct (internet_gateway_tags g); now intros w.
Qed.

Lemma route_table_body_lines (cidr : string) (rt : route_table_data) :
  observes
    (bind (name_of (route_table_tags rt) "Main") (fun name =>
     bind (@print world ("  - " +++ route_table_id rt +++ ": " +++ name))
       (fun _ =>
     for_each (routes rt) (fun route =>
       when (route_shown cidr route) (@print world (route_line route))))))
    (fun l out r =>
       l = [] /\ match r with
                 | Ok _ => out = route_table_lines cidr rt
                 | Raise _ => True
                 end).
Proof.
  unfold name_of, route_table_lines.
  destruct (route_table_tags rt) as [ts|]; [|now intros w].
  apply observes_bind, observes_ret. cbv beta iota.
  apply observes_bind, observes_print. cbv beta iota.
  eapply observes_mono; [apply routes_loop_lines|]. cbv beta.
  intros l o r (-> & -> & ->). now split.
Qed.

Ltac lines_loop f body_lemma :=
  eapply observes_mono;
  [ apply (for_each_lines f); intros ?; apply body_lemma
  | cbv beta; intros ? ? [[]|?] [-> ?]; cbv beta iota ].

Lemma list_vpc_resources_lines vpc_id :
  observes (list_vpc_resources perform vpc_id) (fun l out r =>
    match r with
    | Ok _ =>
        exists vpc ss rts gs,
          l = [Ev (DescribeVpc vpc_id) (Ok vpc);
               Ev (DescribeSubnets vpc_id) (Ok ss);
               Ev (DescribeRouteTables vpc_id) (Ok rts);
               Ev (DescribeInternetGateways vpc_id) (Ok gs)]
          /\ out = summary_lines vpc_id vpc ss rts gs
    | Raise _ => True
    end).
Proof.
  unfold list_vpc_resources. walk; try exact I.
  lines_loop (fun s => [subnet_line s]) subnet_body_lines; [walk|]; try exact I.
  match goal with
  | vpc : response (DescribeVpc _) |- _ =>
      lines_loop (route_table_lines (vpc_cidr_block vpc))
                 (route_table_body_lines (vpc_cidr_block vpc))
  end; [walk|]; try exact I.
  lines_loop (fun g => [gateway_line g]) gateway_body_lines; try exact I.
  subst. do 4 eexists. split; [reflexivity|].
  unfold summary_lines. rewrite !flat_map_single. cbn [app].
  rewrite ?app_nil_r. reflexivity.
Qed.

(** X12.  When [list_vpc_resources] returns, what it printed is determined
    by the four answers it got: the header with the block and state of the
    VPC, one line per listed subnet, per route table one line followed by
    one line for each of its routes whose destination is not the block of
    the VPC, and one line per gateway, in the order listed. *)
Theorem summary_prints_the_listings (w : world) (vpc_id : string) :
  result_of (list_vpc_resources perform vpc_id w) = Ok tt ->
  exists vpc ss rts gs,
    calls_of (list_vpc_resources perform vpc_id w)
    = [Ev (DescribeVpc vpc_id) (Ok vpc);
       Ev (DescribeSubnets vpc_id) (Ok ss);
       Ev (DescribeRouteTables vpc_id) (Ok rts);
       Ev (DescribeInternetGateways vpc_id) (Ok gs)]
    /\ output_of (list_vpc_resources perform vpc_id w)
       = summary_lines vpc_id vpc ss rts gs.
Proof.
  intros E. pose proof (list_vpc_resources_lines vpc_id w) as H.
  cbv beta in H. now rewrite E in H.
Qed.

(** ** More about [main] *)

Ltac walk_main list_lemma cleanup_lemma :=
  repeat first
    [ step_more
    | lazymatch goal with
      | |- observes (list_vpc_resources _ _) _ =>
          eapply observes_mono;
          [ apply list_lemma
          | cbv beta; intros ? ? [[]|?] ?; cbv beta iota ]
      | |- observes (cleanup_vpc _ _) _ =>
          eapply observes_mono;
          [ apply cleanup_lemma
          | cbv beta; intros ? ? [[]|?] ?; cbv beta iota ]
      | |- observes (create_vpc _) _ => unfold create_vpc
      | |- observes (create_internet_gateway _ _) _ =>
          unfold create_internet_gateway
      | |- observes (create_subnet _ _ _ _ _ _) _ => unfold create_subnet
      | |- observes (create_route_table _ _ _ _ _) _ =>
          unfold create_route_table
      | |- observes (main_handler _ _) _ => unfold main_handler
      | |- observes (when ?b _) _ =>
          apply observes_when; intros ?; try discriminate; cbv beta iota
      | |- observes (if ?c then _ else _) _ =>
          destruct c eqn:?; try congruence
      end ].

Lemma lookups_remove_nothing l :
  forallb (fun e => is_lookup (op_of e)) l = true ->
  forallb (fun e => negb (removes (op_of e))) l = true.
Proof. apply forallb_impl. intros [o r] H. now destruct o. Qed.

Lemma main_declined response :
  answered_yes response = false ->
  observes (main perform response) (fun l _ _ =>
    forallb (fun e => negb (removes (op_of e))) l = true).
Proof.
  unfold answered_yes. intros Hno. unfold main.
  walk_main list_vpc_resources_lookups (@observes_anything unit);
    cbn [app]; rewrite ?app_nil_r; cbn [forallb op_of removes is_delete negb andb];
    auto using lookups_remove_nothing.
Qed.

(** X13.  Unless the answer at the prompt is [yes] (spaces around it
    stripped, case ignored), a run of [main] detaches nothing and deletes
    nothing, whatever else happens in it. *)
Theorem nothing_removed_unless_yes (w : world) (response : string) :
  answered_yes response = false ->
  forallb (fun e => negb (removes (op_of e))) (calls_of (main perform response w))
  = true.
Proof. intros H. now apply main_declined. Qed.

Lemma summary_returns_ok vpc_id :
  observes (list_vpc_resources perform vpc_id) (fun l _ r =>
    match r with Ok _ => forallb ev_ok l = true | Raise _ => True end).
Proof.
  eapply observes_mono; [apply list_vpc_resources_shape|].
  intros l _ [[]|x] [H _]; [|exact I].
  destruct H as (vpc & ss & rts & gs & -> & _). reflexivity.
Qed.

Lemma cleanup_returns_ok vpc_id :
  observes (cleanup_vpc perform vpc_id) (fun l _ r =>
    match r with Ok _ => forallb ev_ok l = true | Raise _ => True end).
Proof.
  eapply observes_mono; [apply cleanup_vpc_fail_stop|].
  intros l _ [[]|x] H; [exact H | exact I].
Qed.

Ltac find_line :=
  solve [ repeat first [ apply in_eq
                       | (apply in_or_app; left; apply in_eq)
                       | (apply in_or_app; right) ] ].

Lemma main_reports response :
  observes (main perform response) (fun l out r =>
    match r with
    | Ok _ => forallb ev_ok l = true
    | Raise x => In (error_line x) out
    end).
Proof.
  unfold main, error_line.
  walk_main summary_returns_ok cleanup_returns_ok;
    first [ find_line
          | cbn [app]; rewrite ?app_nil_r; cbn [forallb ev_ok andb];
            rewrite ?forallb_app;
            repeat match goal with H : forallb _ _ = true |- _ => rewrite H end;
            reflexivity ].
Qed.

(** X14.  [main] swallows no error: it returns normally only when every
    provider call of the run succeeded, and whatever exception ends the
    run has been printed on an [Error:] line before being raised again. *)
Theorem main_swallows_no_error (w : world) (response : string) :
  match result_of (main perform response w) with
  | Ok _ => forallb ev_ok (calls_of (main perform response w)) = true
  | Raise x => In (error_line x) (output_of (main perform response w))
  end.
Proof. apply main_reports. Qed.

Ltac read_returned_vpc :=
  lazymatch goal with
  | |- context [returned_vpc ?l] =>
      let v := eval cbn [app returned_vpc forallb ev_ok andb created_id] in
               (returned_vpc l) in
      change (returned_vpc l) with v
  end.

Lemma main_hint response :
  observes (main perform response) (fun l out r =>
    match r with
    | Ok _ => True
    | Raise x =>
        last out "" = match returned_vpc l with
                      | Some v => if str_truthy v then cleanup_hint v
                                  else error_line x
                      | None => error_line x
                      end
    end).
Proof.
  unfold main, error_line, cleanup_hint.
  walk_main (@observes_anything unit) (@observes_anything unit);
    try exact I; read_returned_vpc; cbv beta iota in *;
    repeat match goal with H : str_truthy _ = _ |- _ => rewrite H end;
    last_line.
Qed.

(** X15.  When a run of [main] ends in an exception, its last line is the
    cleanup hint naming the VPC if [create_vpc] had returned one (its four
    calls succeeded), and the [Error:] line itself otherwise: a VPC that
    was created but whose tagging, wait or attribute call failed is not
    mentioned. *)
Theorem failed_run_last_line (w : world) (response : string) (x : exn) :
  result_of (main perform response w) = Raise x ->
  last (output_of (main perform response w)) ""
  = match returned_vpc (calls_of (main perform response w)) with
    | Some v => if str_truthy v then cleanup_hint v else error_line x
    | None => error_line x
    end.
Proof.
  intros E. pose proof (main_hint response w) as H. cbv beta in H.
  now rewrite E in H.
Qed.

Lemma main_declined_output response :
  answered_yes response = false ->
  observes (main perform response) (fun l out r =>
    match r with
    | Ok _ => exists v,
        returned_vpc l = Some v
        /\ ends_with out
             [nl +++ "Resources left running. VPC ID: " +++ v;
              "To clean up later, run: cleanup_vpc('{vpc_id}')"]
    | Raise _ => True
    end).
Proof.
  unfold answered_yes. intros Hno. unfold main.
  walk_main (@observes_anything unit) (@observes_anything unit);
    try exact I.
  all: eexists; split; [read_returned_vpc; reflexivity|].
  all: unfold ends_with; eexists.
  all: rewrite ?app_nil_r; repeat rewrite app_assoc; rewrite <- app_assoc.
  all: reflexivity.
Qed.

(** X16.  A run of [main] that returns with an answer other than [yes]
    ends with two lines: the one that names the VPC left running, and a
    cleanup instruction in which the placeholder [{vpc_id}] stands
    unreplaced. *)
Theorem declined_run_last_lines (w : world) (response : string) :
  answered_yes response = false ->
  result_of (main perform response w) = Ok tt ->
  exists v,
    returned_vpc (calls_of (main perform response w)) = Some v
    /\ ends_with (output_of (main perform response w))
         [nl +++ "Resources left running. VPC ID: " +++ v;
          "To clean up later, run: cleanup_vpc('{vpc_id}')"].
Proof.
  intros Hno E. pose proof (main_declined_output response Hno w) as H.
  cbv beta in H. now rewrite E in H.
Qed.

Lemma summary_listing vpc_id :
  observes (list_vpc_resources perform vpc_id) (fun l _ r =>
    match r with
    | Ok _ => map op_of l = summary_ops vpc_id
    | Raise _ => True
    end).
Proof.
  eapply observes_mono; [apply list_vpc_resources_shape|].
  intros l _ [[]|x] [H _]; [|exact I].
  destruct H as (vpc & ss & rts & gs & -> & _). reflexivity.
Qed.

Lemma cleanup_whole_plan vpc_id :
  observes (cleanup_vpc perform vpc_id) (fun l _ r =>
    match r with
    | Ok _ => exists ss gs rts, l = teardown_plan vpc_id ss gs rts
    | Raise _ => True
    end).
Proof.
  eapply observes_mono; [apply cleanup_vpc_follows_plan|].
  intros l _ [[]|x] (ss & gs & rts & H); [|exact I].
  exists ss, gs, rts. now apply runs_as_returns.
Qed.

Lemma main_success response :
  observes (main perform response) (fun l _ r =>
    match r with
    | Ok _ => exists v g s1 s2 s3 t1 t2 a1 a2 a3 listing teardown,
        l = provisioning v g s1 s2 s3 t1 t2 a1 a2 a3 ++ listing ++ teardown
        /\ map op_of listing = summary_ops v
        /\ if answered_yes response
           then exists ss gs rts, teardown = teardown_plan v ss gs rts
           else teardown = []
    | Raise _ => True
    end).
Proof.
  unfold answered_yes, main.
  walk_main summary_listing cleanup_whole_plan; try exact I.
  all: unit_responses; cbn [app].
  all: do 12 eexists; split; [unfold provisioning; cbn [app]; reflexivity|].
  all: split; [eassumption|].
  all: first [assumption | reflexivity].
Qed.

(** X17.  A run of [main] that returns made exactly these calls, all
    successful: the twenty-three calls that build the network, each
    passing on the identifiers the earlier ones returned; the four
    listings of the summary; then, when the answer was [yes], the whole
    teardown of that VPC, and nothing otherwise. *)
Theorem successful_run_calls (w : world) (response : string) :
  result_of (main perform response w) = Ok tt ->
  exists v g s1 s2 s3 t1 t2 a1 a2 a3 listing teardown,
    calls_of (main perform response w)
    = provisioning v g s1 s2 s3 t1 t2 a1 a2 a3 ++ listing ++ teardown
    /\ map op_of listing = summary_ops v
    /\ if answered_yes response
       then exists ss gs rts, teardown = teardown_plan v ss gs rts
       else teardown = [].
Proof.
  intros E. pose proof (main_success response w) as H. cbv beta in H.
  now rewrite E in H.
Qed.

End Logic.
(** ** Concrete runs *)

Import Scenario.

(** C1, counterexample.  The tutorial is run twice with the same input.
    After the first run every resource exists under its Name tag (the
    subnets with their CIDR).  The second run still issues all seven
    create calls, returns seven new identifiers, reports them as created,
    and leaves two VPCs named tutorial-vpc. *)
Lemma rerun_creates_everything_again :
  result_of first_run = Ok tt
  /\ created_ids (calls_of first_run)
     = ["vpc-1"; "igw-4"; "subnet-5"; "subnet-6"; "subnet-7"; "rtb-8"; "rtb-11"]
  /\ map Mock.v_id (filter (fun v => named "tutorial-vpc" (Mock.v_tags v))
                           (Mock.vpcs provisioned)) = ["vpc-1"]
  /\ map Mock.s_id
         (filter (fun s => named "tutorial-public-subnet-1" (Mock.s_tags s)
                           && String.eqb (Mock.s_cidr s) "10.0.1.0/24")
                 (Mock.subnets provisioned)) = ["subnet-5"]
  /\ result_of second_run = Ok tt
  /\ length (filter (fun e => is_create (op_of e)) (calls_of second_run)) = 7
  /\ length (filter (fun e => is_create (op_of e)) (calls_of second_run)) <> 0
  /\ created_ids (calls_of second_run)
     = ["vpc-13"; "igw-16"; "subnet-17"; "subnet-18"; "subnet-19"; "rtb-20";
        "rtb-23"]
  /\ existsb (String.eqb "✓ VPC created: vpc-13") (output_of second_run) = true
  /\ map Mock.v_id (filter (fun v => named "tutorial-vpc" (Mock.v_tags v))
                           (Mock.vpcs (world_of second_run)))
     = ["vpc-1"; "vpc-13"].
Proof.
  repeat split; try (vm_compute; reflexivity). vm_compute. discriminate.
Qed.

(** C2, counterexample.  In the tutorial run with cleanup, the resources
    are deleted subnets first, then the gateway, then the route tables,
    then the VPC: not the reverse of the order in which they were created. *)
Lemma teardown_is_not_reverse_of_creation :
  created_ids (calls_of full_run)
  = ["vpc-1"; "igw-4"; "subnet-5"; "subnet-6"; "subnet-7"; "rtb-8"; "rtb-11"]
  /\ deleted_ids (calls_of full_run)
     = ["subnet-5"; "subnet-6"; "subnet-7"; "igw-4"; "rtb-8"; "rtb-11"; "vpc-1"]
  /\ deleted_ids (calls_of full_run) <> rev (created_ids (calls_of full_run)).
Proof.
  repeat split; try (vm_compute; reflexivity). vm_compute. discriminate.
Qed.

(** C3, witness.  The teardown of a VPC whose route table still has an
    association with a gateway: the table is listed, its delete is the
    next call, the provider rejects it. *)
Lemma rejected_route_table_delete_witness :
  (calls_of edge_teardown
   = firstn 2 (calls_of edge_teardown)
       ++ Ev (DescribeRouteTables "vpc-1")
             (Ok (hd [] (pick listed_route_tables (calls_of edge_teardown))))
       :: skipn 3 (calls_of edge_teardown)
   /\ calls_of edge_teardown
      = firstn 3 (calls_of edge_teardown)
          ++ Ev (DeleteRouteTable "rtb-4") (Raise route_table_in_use) :: [])
  /\ forallb (fun e => negb (is_disassociate (op_of e)))
             (calls_of edge_teardown) = true
  /\ runs_as
       (map (fun rt => Ev (DeleteRouteTable (route_table_id rt)) (Ok tt))
            (filter not_main
                    (hd [] (pick listed_route_tables (calls_of edge_teardown))))
          ++ [Ev (DeleteVpc "vpc-1") (Ok tt)])
       (skipn 3 (calls_of edge_teardown)) (result_of edge_teardown)
  /\ ([] = (@nil event)
      /\ result_of edge_teardown = Raise route_table_in_use
      /\ forallb ev_ok (firstn 3 (calls_of edge_teardown)) = true
      /\ match route_table_in_use with
         | ClientError e =>
             last (output_of edge_teardown) ""
             = "Error during cleanup: " +++ str_of_client_error e
         | OtherException _ _ => True
         end).
Proof.
  split; [split; vm_compute; reflexivity|].
  destruct (rejected_route_table_delete_ends_cleanup Mock.ec2 Mock.perform
              edge_world "vpc-1") as (H1 & H2 & _ & H4).
  split; [exact H1|]. split.
  - apply (H2 (firstn 2 (calls_of edge_teardown)) "vpc-1"
              (hd [] (pick listed_route_tables (calls_of edge_teardown)))
              (skipn 3 (calls_of edge_teardown))).
    vm_compute; reflexivity.
  - apply (H4 (firstn 3 (calls_of edge_teardown)) "rtb-4" route_table_in_use []).
    vm_compute; reflexivity.
Defined.

(** C3, counterexample.  A route table is still associated (with a
    gateway) when the teardown reaches it.  The teardown lists the route
    tables and issues the delete of that table at once: no call removes
    the association first, the provider rejects the delete, and the
    provider's [ClientError] is what [cleanup_vpc] raises.  The table and
    its association are still there afterwards. *)
Lemma associated_route_table_deleted_directly :
  map RouteTableAssociationId
      (flat_map Mock.r_associations
         (filter (fun r => String.eqb (Mock.r_id r) "rtb-4") (Mock.rtbs edge_world)))
  = ["rtbassoc-6"]
  /\ map op_of (calls_of edge_teardown)
     = [DescribeSubnets "vpc-1"; DescribeInternetGateways "vpc-1";
        DescribeRouteTables "vpc-1"; DeleteRouteTable "rtb-4"]
  /\ existsb (fun e => is_disassociate (op_of e)) (calls_of edge_teardown) = false
  /\ result_of edge_teardown = Raise route_table_in_use
  /\ world_of edge_teardown = edge_world.
Proof. repeat split; vm_compute; reflexivity. Qed.

(** C4, counterexample.  The first subnet cannot be deleted.  The teardown
    stops at that call and raises: the other two subnets, the gateway, the
    route tables and the VPC are not attempted, and nothing is returned. *)
Lemma cleanup_stops_at_first_failure :
  map op_of (calls_of (cleanup_vpc Mock.perform "vpc-1" busy_world))
  = [DescribeSubnets "vpc-1"; DeleteSubnet "subnet-5"]
  /\ result_of (cleanup_vpc Mock.perform "vpc-1" busy_world) = Raise subnet_in_use
  /\ map Mock.s_id (Mock.subnets
                      (world_of (cleanup_vpc Mock.perform "vpc-1" busy_world)))
     = ["subnet-5"; "subnet-6"; "subnet-7"]
  /\ world_of (cleanup_vpc Mock.perform "vpc-1" busy_world) = busy_world.
Proof. repeat split; vm_compute; reflexivity. Qed.

(** C5, witness. *)
Lemma rejected_delete_witness :
  (In (Ev (DeleteVpc "vpc-1") (Raise (ClientError vpc_not_found)))
      (calls_of (cleanup_vpc Mock.perform "vpc-1" torn_down))
   /\ is_delete (DeleteVpc "vpc-1") = true
   /\ ev_raised (Ev (DeleteVpc "vpc-1") (Raise (ClientError vpc_not_found)))
      = Some (ClientError vpc_not_found))
  /\ (result_of (cleanup_vpc Mock.perform "vpc-1" torn_down)
      = Raise (ClientError vpc_not_found)
      /\ (exists pre,
            calls_of (cleanup_vpc Mock.perform "vpc-1" torn_down)
            = pre ++ [Ev (DeleteVpc "vpc-1") (Raise (ClientError vpc_not_found))])
      /\ last (output_of (cleanup_vpc Mock.perform "vpc-1" torn_down)) ""
         = "Error during cleanup: " +++ str_of_client_error vpc_not_found).
Proof.
  assert (H : In (Ev (DeleteVpc "vpc-1") (Raise (ClientError vpc_not_found)))
                 (calls_of (cleanup_vpc Mock.perform "vpc-1" torn_down))).
  { vm_compute. right; right; right; left; reflexivity. }
  split; [split; [exact H | split; reflexivity]|].
  exact (rejected_delete_is_raised Mock.ec2 Mock.perform torn_down "vpc-1"
           (Ev (DeleteVpc "vpc-1") (Raise (ClientError vpc_not_found)))
           (ClientError vpc_not_found) H eq_refl eq_refl).
Defined.

(** C5, counterexample.  The VPC is already gone.  [cleanup_vpc] finds
    nothing to delete under it, issues the delete of the VPC, and the
    provider's not-found answer is printed as an error and raised. *)
Lemma absent_vpc_is_an_error :
  Mock.find_vpc torn_down "vpc-1" = None
  /\ map op_of (calls_of (cleanup_vpc Mock.perform "vpc-1" torn_down))
     = [DescribeSubnets "vpc-1"; DescribeInternetGateways "vpc-1";
        DescribeRouteTables "vpc-1"; DeleteVpc "vpc-1"]
  /\ result_of (cleanup_vpc Mock.perform "vpc-1" torn_down)
     = Raise (ClientError vpc_not_found)
  /\ last (output_of (cleanup_vpc Mock.perform "vpc-1" torn_down)) ""
     = "Error during cleanup: An error occurred (InvalidVpcID.NotFound) when calling the DeleteVpc operation: The vpc ID 'vpc-1' does not exist".
Proof. repeat split; vm_compute; reflexivity. Qed.

(** C6, counterexample.  10.0.1.0/25 overlaps the existing subnet
    10.0.1.0/24 of the VPC.  [create_subnet] issues the provider's create
    call with it all the same; the rejection is the provider's. *)
Lemma overlapping_subnet_reaches_provider :
  map Mock.s_cidr (Mock.subnets_of provisioned "vpc-1")
  = ["10.0.1.0/24"; "10.0.2.0/24"; "10.0.10.0/24"]
  /\ match Mock.parse_cidr "10.0.1.0/25", Mock.parse_cidr "10.0.1.0/24" with
     | Some a, Some b => Mock.cidr_overlap a b
     | _, _ => false
     end = true
  /\ calls_of (create_subnet Mock.perform "vpc-1" "10.0.1.0/25" "us-east-2a"
                             "tutorial-public-subnet-3" true provisioned)
     = [Ev (CreateSubnet "vpc-1" "10.0.1.0/25" "us-east-2a")
           (Raise subnet_conflict)]
  /\ result_of (create_subnet Mock.perform "vpc-1" "10.0.1.0/25" "us-east-2a"
                              "tutorial-public-subnet-3" true provisioned)
     = Raise subnet_conflict.
Proof. repeat split; vm_compute; reflexivity. Qed.

(** C7, witness. *)
Lemma delete_vpc_comes_last_witness :
  calls_of teardown
  = removelast (calls_of teardown) ++ Ev (DeleteVpc "vpc-1") (Ok tt) :: []
  /\ ("vpc-1" = "vpc-1" /\ [] = (@nil event)
      /\ exists ss gs rts,
           removelast (calls_of teardown)
           = subnets_phase "vpc-1" ss ++ igws_phase "vpc-1" gs
               ++ route_tables_phase "vpc-1" rts).
Proof.
  split; [vm_compute; reflexivity|].
  apply (delete_vpc_comes_last Mock.ec2 Mock.perform provisioned "vpc-1" "vpc-1"
           (removelast (calls_of teardown)) [] (Ok tt)).
  vm_compute; reflexivity.
Defined.

(** C8, witness. *)
Lemma gateway_detached_before_delete_witness :
  calls_of teardown
  = firstn 6 (calls_of teardown)
      ++ Ev (DeleteInternetGateway "igw-4") (Ok tt) :: skipn 7 (calls_of teardown)
  /\ exists pre',
       firstn 6 (calls_of teardown)
       = pre' ++ [Ev (DetachInternetGateway "vpc-1" "igw-4") (Ok tt)].
Proof.
  split; [vm_compute; reflexivity|].
  apply (gateway_detached_before_delete Mock.ec2 Mock.perform provisioned
           "vpc-1" "igw-4" (firstn 6 (calls_of teardown))
           (skipn 7 (calls_of teardown)) (Ok tt)).
  vm_compute; reflexivity.
Defined.

(** C9, witness. *)
Lemma main_route_table_is_skipped_witness :
  calls_of teardown
  = firstn 7 (calls_of teardown)
      ++ Ev (DescribeRouteTables "vpc-1") (Ok listed) :: skipn 8 (calls_of teardown)
  /\ (runs_as
        (map (fun rt => Ev (DeleteRouteTable (route_table_id rt)) (Ok tt))
             (filter not_main listed)
           ++ [Ev (DeleteVpc "vpc-1") (Ok tt)])
        (skipn 8 (calls_of teardown)) (result_of teardown)
      /\ forallb (fun e => negb (is_disassociate (op_of e))) (calls_of teardown)
         = true
      /\ (forall rt,
            not_main rt = true
            <-> ~ exists associations a,
                    associations_attribute rt = Some associations
                    /\ In a associations /\ Main a = Some true)
      /\ (forall t a,
            In (Ev (DeleteRouteTable t) a) (calls_of teardown) ->
            exists rt, In rt listed /\ route_table_id rt = t
                       /\ ~ exists associations a,
                              associations_attribute rt = Some associations
                              /\ In a associations /\ Main a = Some true)).
Proof.
  split; [vm_compute; reflexivity|].
  apply (main_route_table_is_skipped Mock.ec2 Mock.perform provisioned
           "vpc-1" "vpc-1" (firstn 7 (calls_of teardown))
           (skipn 8 (calls_of teardown)) listed).
  vm_compute; reflexivity.
Defined.

(** The main route table of the tutorial's VPC is listed with its Main
    association and no delete call names it; the two tables the tutorial
    created, listed without associations once their subnets are gone, are
    deleted. *)
Example main_route_table_gets_no_call :
  map (fun rt => (route_table_id rt,
                  match associations_attribute rt with
                  | Some associations => map Main associations
                  | None => []
                  end)) listed
  = [("rtb-2", [Some true]); ("rtb-8", []); ("rtb-11", [])]
  /\ filter (fun e => match op_of e with DeleteRouteTable _ => true | _ => false end)
            (calls_of teardown)
     = [Ev (DeleteRouteTable "rtb-8") (Ok tt);
        Ev (DeleteRouteTable "rtb-11") (Ok tt)].
Proof. split; vm_compute; reflexivity. Qed.

(** C10, witness. *)
Lemma create_route_table_calls_witness :
  result_of (create_route_table Mock.perform "vpc-1" "tutorial-public-rt"
               (Some "igw-4") (Some "subnet-5") networked) = Ok "rtb-6"
  /\ exists rest,
       calls_of (create_route_table Mock.perform "vpc-1" "tutorial-public-rt"
                   (Some "igw-4") (Some "subnet-5") networked)
       = Ev (CreateRouteTable "vpc-1") (Ok "rtb-6")
           :: Ev (CreateTags "rtb-6" [name_tag "tutorial-public-rt"]) (Ok tt)
           :: rest
       /\ map op_of rest
          = [CreateRoute "rtb-6" "0.0.0.0/0" "igw-4"]
              ++ [AssociateRouteTable "rtb-6" "subnet-5"]
       /\ forallb ev_ok rest = true.
Proof.
  split; [vm_compute; reflexivity|].
  apply (create_route_table_calls Mock.ec2 Mock.perform networked "vpc-1"
           "tutorial-public-rt" (Some "igw-4") (Some "subnet-5") "rtb-6").
  vm_compute; reflexivity.
Defined.

(** ** The tutorial, run *)

Example tutorial_calls :
  map op_of (calls_of full_run)
  = [CreateVpc "10.0.0.0/16";
     CreateTags "vpc-1" [name_tag "tutorial-vpc"];
     WaitUntilVpcAvailable "vpc-1"; ModifyVpcAttribute "vpc-1" true;
     CreateInternetGateway;
     CreateTags "igw-4" [name_tag "tutorial-igw"];
     AttachInternetGateway "vpc-1" "igw-4";
     CreateSubnet "vpc-1" "10.0.1.0/24" "us-east-2a";
     CreateTags "subnet-5" [name_tag "tutorial-public-subnet-1"];
     ModifySubnetAttribute "subnet-5" true;
     CreateSubnet "vpc-1" "10.0.2.0/24" "us-east-2b";
     CreateTags "subnet-6" [name_tag "tutorial-public-subnet-2"];
     ModifySubnetAttribute "subnet-6" true;
     CreateSubnet "vpc-1" "10.0.10.0/24" "us-east-2a";
     CreateTags "subnet-7" [name_tag "tutorial-private-subnet-1"];
     CreateRouteTable "vpc-1";
     CreateTags "rtb-8" [name_tag "tutorial-public-rt"];
     CreateRoute "rtb-8" "0.0.0.0/0" "igw-4";
     AssociateRouteTable "rtb-8" "subnet-5";
     AssociateRouteTable "rtb-8" "subnet-6";
     CreateRouteTable "vpc-1";
     CreateTags "rtb-11" [name_tag "tutorial-private-rt"];
     AssociateRouteTable "rtb-11" "subnet-7";
     DescribeVpc "vpc-1"; DescribeSubnets "vpc-1";
     DescribeRouteTables "vpc-1"; DescribeInternetGateways "vpc-1";
     DescribeSubnets "vpc-1";
     DeleteSubnet "subnet-5"; DeleteSubnet "subnet-6"; DeleteSubnet "subnet-7";
     DescribeInternetGateways "vpc-1";
     DetachInternetGateway "vpc-1" "igw-4"; DeleteInternetGateway "igw-4";
     DescribeRouteTables "vpc-1";
     DeleteRouteTable "rtb-8"; DeleteRouteTable "rtb-11";
     DeleteVpc "vpc-1"].
Proof. vm_compute; reflexivity. Qed.

(** The main route table gets no call of its own and goes with the VPC. *)
Example main_route_table_goes_with_vpc :
  map Mock.r_id (Mock.rtbs provisioned) = ["rtb-2"; "rtb-8"; "rtb-11"]
  /\ map route_table_id (filter not_main listed) = ["rtb-8"; "rtb-11"]
  /\ result_of teardown = Ok tt
  /\ Mock.rtbs (world_of teardown) = [].
Proof. repeat split; vm_compute; reflexivity. Qed.

(** A bare route table: created, tagged with its Name, nothing else. *)
Example bare_route_table :
  calls_of (create_route_table Mock.perform "vpc-1" "tutorial-bare-rt"
              None None networked)
  = [Ev (CreateRouteTable "vpc-1") (Ok "rtb-6");
     Ev (CreateTags "rtb-6" [name_tag "tutorial-bare-rt"]) (Ok tt)]
  /\ map Mock.r_tags
         (filter (fun r => String.eqb (Mock.r_id r) "rtb-6")
                 (Mock.rtbs (world_of (create_route_table Mock.perform "vpc-1"
                                         "tutorial-bare-rt" None None networked))))
     = [[name_tag "tutorial-bare-rt"]].
Proof. repeat split; vm_compute; reflexivity. Qed.

(** The answer at the prompt is stripped and lowered before it is compared. *)
Example answer_is_normalised :
  py_lower (py_strip "  YES ") = "yes" /\ py_lower (py_strip "y e s") <> "yes".
Proof. split; [vm_compute; reflexivity | vm_compute; discriminate]. Qed.

(** Whitespace outside ASCII is stripped too: an answer that begins with a
    no-break space (U+00A0) is a yes, and so is [Yes] between any of the
    whitespace characters. *)
Example answer_with_unicode_space :
  answered_yes (utf8 [194; 160] +++ "yes") = true
  /\ forallb (fun sp => answered_yes (sp +++ "Yes" +++ sp +++ sp)) whitespace
     = true
  /\ answered_yes (utf8 [194; 161] +++ "yes") = false.
Proof. repeat split; vm_compute; reflexivity. Qed.

(** The order of dependencies is a real constraint: a delete that names a
    subnet no listing returned, or a listing of a VPC the run did not
    create, does not pass. *)
Example foreign_resources_do_not_pass :
  dependencies_first ["vpc-1"] []
    [Ev (DescribeSubnets "vpc-1") (Ok []);
     Ev (DeleteSubnet "subnet-9") (Ok tt)] = false
  /\ dependencies_first [] [] [Ev (DescribeSubnets "vpc-2") (Ok [])] = false
  /\ dependencies_first ["vpc-1"] ["igw-4"]
       [Ev (AttachInternetGateway "vpc-1" "igw-4") (Ok tt)] = false.
Proof. repeat split; vm_compute; reflexivity. Qed.

(** ** More concrete runs *)

(** X1, witness: the teardown of the tutorial's network. *)
Lemma cleanup_returns_when_all_deleted_witness :
  result_of teardown = Ok tt
  /\ ((exists ss gs rts, calls_of teardown = teardown_plan "vpc-1" ss gs rts)
      /\ last (output_of teardown) "" = nl +++ "✓ Cleanup complete!").
Proof.
  split; [vm_compute; reflexivity|].
  apply (cleanup_returns_when_all_deleted Mock.ec2 Mock.perform provisioned
           "vpc-1").
  vm_compute; reflexivity.
Defined.

(** X3, witness: the second subnet deleted by the teardown was listed. *)
Lemma cleanup_deletes_only_listed_witness :
  In (Ev (DeleteSubnet "subnet-6") (Ok tt)) (calls_of teardown)
  /\ exists ss,
       In (Ev (DescribeSubnets "vpc-1") (Ok ss)) (calls_of teardown)
       /\ In "subnet-6" (map subnet_id ss).
Proof.
  assert (H : In (Ev (DeleteSubnet "subnet-6") (Ok tt)) (calls_of teardown)).
  { vm_compute. right; right; left; reflexivity. }
  split; [exact H|].
  exact (cleanup_deletes_only_listed Mock.ec2 Mock.perform provisioned "vpc-1"
           (Ev (DeleteSubnet "subnet-6") (Ok tt)) H).
Defined.

(** X4, witness: the first VPC of an empty account. *)
Lemma create_vpc_calls_witness :
  result_of (create_vpc Mock.perform Mock.empty) = Ok "vpc-1"
  /\ (calls_of (create_vpc Mock.perform Mock.empty)
      = [Ev (CreateVpc "10.0.0.0/16") (Ok "vpc-1");
         Ev (CreateTags "vpc-1" [name_tag "tutorial-vpc"]) (Ok tt);
         Ev (WaitUntilVpcAvailable "vpc-1") (Ok tt);
         Ev (ModifyVpcAttribute "vpc-1" true) (Ok tt)]
      /\ output_of (create_vpc Mock.perform Mock.empty)
         = ["Creating VPC..."; "✓ VPC created: " +++ "vpc-1"]).
Proof.
  split; [vm_compute; reflexivity|].
  apply (create_vpc_calls Mock.ec2 Mock.perform Mock.empty "vpc-1").
  vm_compute; reflexivity.
Defined.

(** X5, witness: the gateway of a VPC that has just been created. *)
Lemma create_internet_gateway_calls_witness :
  result_of (create_internet_gateway Mock.perform "vpc-1" Faults.fresh_vpc)
  = Ok "igw-4"
  /\ (calls_of (create_internet_gateway Mock.perform "vpc-1" Faults.fresh_vpc)
      = [Ev CreateInternetGateway (Ok "igw-4");
         Ev (CreateTags "igw-4" [name_tag "tutorial-igw"]) (Ok tt);
         Ev (AttachInternetGateway "vpc-1" "igw-4") (Ok tt)]
      /\ output_of (create_internet_gateway Mock.perform "vpc-1"
                                             Faults.fresh_vpc)
         = [nl +++ "Creating Internet Gateway...";
            "✓ Internet Gateway created and attached: " +++ "igw-4"]).
Proof.
  split; [vm_compute; reflexivity|].
  apply (create_internet_gateway_calls Mock.ec2 Mock.perform Faults.fresh_vpc
           "vpc-1" "igw-4").
  vm_compute; reflexivity.
Defined.

(** X6, witness: the second public subnet of the tutorial. *)
Lemma create_subnet_calls_witness :
  result_of (create_subnet Mock.perform "vpc-1" "10.0.2.0/24" "us-east-2b"
               "tutorial-public-subnet-2" true networked) = Ok "subnet-6"
  /\ calls_of (create_subnet Mock.perform "vpc-1" "10.0.2.0/24" "us-east-2b"
                 "tutorial-public-subnet-2" true networked)
     = Ev (CreateSubnet "vpc-1" "10.0.2.0/24" "us-east-2b") (Ok "subnet-6")
         :: Ev (CreateTags "subnet-6" [name_tag "tutorial-public-subnet-2"])
               (Ok tt)
         :: (if true
             then [Ev (ModifySubnetAttribute "subnet-6" true) (Ok tt)]
             else []).
Proof.
  split; [vm_compute; reflexivity|].
  apply (create_subnet_calls Mock.ec2 Mock.perform networked "vpc-1"
           "10.0.2.0/24" "us-east-2b" "tutorial-public-subnet-2" true
           "subnet-6").
  vm_compute; reflexivity.
Defined.

(** X10, witness: the summary of the tutorial's network. *)
Lemma summary_returns_when_all_tagged_witness :
  result_of (list_vpc_resources Mock.perform "vpc-1" provisioned) = Ok tt
  /\ exists vpc ss rts gs,
       calls_of (list_vpc_resources Mock.perform "vpc-1" provisioned)
       = [Ev (DescribeVpc "vpc-1") (Ok vpc);
          Ev (DescribeSubnets "vpc-1") (Ok ss);
          Ev (DescribeRouteTables "vpc-1") (Ok rts);
          Ev (DescribeInternetGateways "vpc-1") (Ok gs)]
       /\ forallb (fun s => has_tags (subnet_tags s)) ss = true
       /\ forallb (fun t => has_tags (route_table_tags t)) rts = true
       /\ forallb (fun g => has_tags (internet_gateway_tags g)) gs = true.
Proof.
  split; [vm_compute; reflexivity|].
  apply (summary_returns_when_all_tagged Mock.ec2 Mock.perform provisioned
           "vpc-1").
  vm_compute; reflexivity.
Defined.

(** X11, witness: the summary of a VPC that does not exist. *)
Lemma summary_failures_witness :
  result_of (list_vpc_resources Mock.perform "vpc-1" Mock.empty)
  = Raise (ClientError Faults.no_such_vpc)
  /\ ((exists pre o,
         calls_of (list_vpc_resources Mock.perform "vpc-1" Mock.empty)
         = pre ++ [Ev o (Raise (ClientError Faults.no_such_vpc))]
         /\ forallb ev_ok pre = true)
      \/ (ClientError Faults.no_such_vpc = not_iterable
          /\ forallb ev_ok
               (calls_of (list_vpc_resources Mock.perform "vpc-1" Mock.empty))
             = true)).
Proof.
  split; [vm_compute; reflexivity|].
  apply (summary_failures Mock.ec2 Mock.perform Mock.empty "vpc-1"
           (ClientError Faults.no_such_vpc)).
  vm_compute; reflexivity.
Defined.

(** The other way the summary fails: a subnet without tags comes back with
    [None] for its tag set.  Every call succeeded, the three tagged subnets
    were printed, and the [TypeError] ends the summary before the route
    tables are listed. *)
Example summary_of_untagged_subnet :
  result_of Faults.bare_summary = Raise not_iterable
  /\ map op_of (calls_of Faults.bare_summary)
     = [DescribeVpc "vpc-1"; DescribeSubnets "vpc-1"]
  /\ forallb ev_ok (calls_of Faults.bare_summary) = true
  /\ last (output_of Faults.bare_summary) ""
     = "  - subnet-7: tutorial-private-subnet-1 (10.0.10.0/24) in us-east-2a".
Proof. repeat split; vm_compute; reflexivity. Qed.

(** X12, witness: the summary of the tutorial's network. *)
Lemma summary_prints_the_listings_witness :
  result_of (list_vpc_resources Mock.perform "vpc-1" provisioned) = Ok tt
  /\ exists vpc ss rts gs,
       calls_of (list_vpc_resources Mock.perform "vpc-1" provisioned)
       = [Ev (DescribeVpc "vpc-1") (Ok vpc);
          Ev (DescribeSubnets "vpc-1") (Ok ss);
          Ev (DescribeRouteTables "vpc-1") (Ok rts);
          Ev (DescribeInternetGateways "vpc-1") (Ok gs)]
       /\ output_of (list_vpc_resources Mock.perform "vpc-1" provisioned)
          = summary_lines "vpc-1" vpc ss rts gs.
Proof.
  split; [vm_compute; reflexivity|].
  apply (summary_prints_the_listings Mock.ec2 Mock.perform provisioned "vpc-1").
  vm_compute; reflexivity.
Defined.

(** In the summary of the tutorial's network the main route table, which
    has no Name tag, is shown as [Main]; the local route of each table is
    left out and the public table shows its route to the gateway. *)
Example summary_of_the_route_tables :
  flat_map (route_table_lines "10.0.0.0/16") listed
  = ["  - rtb-2: Main";
     "  - rtb-8: tutorial-public-rt";
     "    → 0.0.0.0/0 -> igw-4";
     "  - rtb-11: tutorial-private-rt"].
Proof. vm_compute; reflexivity. Qed.

(** X13, witness: the tutorial answered [no]. *)
Lemma nothing_removed_unless_yes_witness :
  answered_yes "no" = false
  /\ forallb (fun e => negb (removes (op_of e))) (calls_of first_run) = true.
Proof.
  split; [vm_compute; reflexivity|].
  apply (nothing_removed_unless_yes Mock.ec2 Mock.perform Mock.empty "no").
  vm_compute; reflexivity.
Defined.

(** X15, witness: the account cannot have another internet gateway. *)
Lemma failed_run_last_line_witness :
  result_of Faults.limit_run = Raise Faults.gateway_limit
  /\ last (output_of Faults.limit_run) ""
     = match returned_vpc (calls_of Faults.limit_run) with
       | Some v => if str_truthy v then cleanup_hint v
                   else error_line Faults.gateway_limit
       | None => error_line Faults.gateway_limit
       end.
Proof.
  split; [vm_compute; reflexivity|].
  apply (failed_run_last_line Mock.ec2 Faults.no_more_gateways Mock.empty "yes"
           Faults.gateway_limit).
  vm_compute; reflexivity.
Defined.

(** The two endings of a failed run.  With the gateway refused, the VPC had
    been returned and the hint names it.  With the VPC never becoming
    available, the VPC exists on the provider but [create_vpc] did not
    return it: the run ends on the error line and no hint is given. *)
Example failed_run_endings :
  last (output_of Faults.limit_run) "" = cleanup_hint "vpc-1"
  /\ created_ids (calls_of Faults.stuck_run) = ["vpc-1"]
  /\ map Mock.v_id (Mock.vpcs (world_of Faults.stuck_run)) = ["vpc-1"]
  /\ returned_vpc (calls_of Faults.stuck_run) = None
  /\ last (output_of Faults.stuck_run) "" = error_line Faults.waiter_timeout.
Proof. repeat split; vm_compute; reflexivity. Qed.

(** X16, witness: the tutorial answered [no]. *)
Lemma declined_run_last_lines_witness :
  answered_yes "no" = false
  /\ result_of first_run = Ok tt
  /\ exists v,
       returned_vpc (calls_of first_run) = Some v
       /\ ends_with (output_of first_run)
            [nl +++ "Resources left running. VPC ID: " +++ v;
             "To clean up later, run: cleanup_vpc('{vpc_id}')"].
Proof.
  split; [vm_compute; reflexivity|].
  split; [vm_compute; reflexivity|].
  apply (declined_run_last_lines Mock.ec2 Mock.perform Mock.empty "no");
    vm_compute; reflexivity.
Defined.

(** X17, witness: the tutorial answered [yes]. *)
Lemma successful_run_calls_witness :
  result_of full_run = Ok tt
  /\ exists v g s1 s2 s3 t1 t2 a1 a2 a3 listing teardown,
       calls_of full_run
       = provisioning v g s1 s2 s3 t1 t2 a1 a2 a3 ++ listing ++ teardown
       /\ map op_of listing = summary_ops v
       /\ if answered_yes "yes"
          then exists ss gs rts, teardown = teardown_plan v ss gs rts
          else teardown = [].
Proof.
  split; [vm_compute; reflexivity|].
  apply (successful_run_calls Mock.ec2 Mock.perform Mock.empty "yes").
  vm_compute; reflexivity.
Defined.
